(** * Constructive-ai: the chat command dispatcher

    A shallow embedding of [backend/routes/chat.py], [backend/utils/ai.py]
    and [backend/utils/gmail.py], with the properties of the intent
    dispatch contract proved over it, followed by
    [backend/utils/session.py], [backend/routes/auth.py] and
    [backend/routes/email.py] with further properties of the code.

    Conventions of the embedding.
    - A Python [str] is a Rocq [string] read as a sequence of code points
      below 256; [lower], [strip], [isdigit] and the regular-expression
      word class follow CPython on that range.  Fixed response texts of
      the source that contain code points above it are carried as the
      UTF-8 bytes of the source literal.
    - A Python [dict] with string keys is a [gmap string pyval].
    - Code that may raise returns [Exc]; code that also talks to the mail
      provider or to the language model lives in the monad [M], which
      threads the history of external calls and records the calls made. *)

From Stdlib Require Import ZArith NArith Ascii String List Bool Lia DecimalString.
From stdpp Require Import gmap strings list.


(** ** Text primitives of the Python runtime *)

Module PyText.

Definition in_range (lo hi n : N) : bool := ((lo <=? n) && (n <=? hi))%N.

(** [str.isspace] of one character. *)
Definition isspace (c : ascii) : bool :=
  let n := N_of_ascii c in
  in_range 9 13 n || in_range 28 32 n || (n =? 133)%N || (n =? 160)%N.

(** [str.lower] of one character. *)
Definition lower_char (c : ascii) : ascii :=
  let n := N_of_ascii c in
  if in_range 65 90 n || in_range 192 214 n || in_range 216 222 n
  then ascii_of_N (n + 32) else c.

(** The class [\w] of [re] on [str] patterns: alphanumeric or underscore. *)
Definition is_word (c : ascii) : bool :=
  let n := N_of_ascii c in
  in_range 48 57 n || in_range 65 90 n || (n =? 95)%N || in_range 97 122 n
  || (n =? 170)%N || in_range 178 179 n || (n =? 181)%N || in_range 185 186 n
  || in_range 188 190 n || in_range 192 214 n || in_range 216 246 n
  || in_range 248 255 n.

(** [str.isdigit] of one character (the superscripts 1, 2, 3 included). *)
Definition isdigit_char (c : ascii) : bool :=
  let n := N_of_ascii c in
  in_range 48 57 n || in_range 178 179 n || (n =? 185)%N.

Definition is_decimal_char (c : ascii) : bool := in_range 48 57 (N_of_ascii c).

Fixpoint lower (s : string) : string :=
  match s with
  | EmptyString => EmptyString
  | String c s' => String (lower_char c) (lower s')
  end.

Fixpoint lstrip (s : string) : string :=
  match s with
  | EmptyString => EmptyString
  | String c s' => if isspace c then lstrip s' else s
  end.

Fixpoint rstrip (s : string) : string :=
  match s with
  | EmptyString => EmptyString
  | String c s' =>
      match rstrip s' with
      | EmptyString => if isspace c then EmptyString else String c EmptyString
      | r => String c r
      end
  end.

Definition strip (s : string) : string := rstrip (lstrip s).

Fixpoint all_chars (p : ascii -> bool) (s : string) : bool :=
  match s with
  | EmptyString => true
  | String c s' => p c && all_chars p s'
  end.

(** [s.isdigit()]: non-empty and every character a digit. *)
Definition isdigit (s : string) : bool :=
  match s with
  | EmptyString => false
  | _ => all_chars isdigit_char s
  end.

(** Value of a string of ASCII decimal digits, most significant first. *)
Fixpoint decimal_value (acc : Z) (s : string) : Z :=
  match s with
  | EmptyString => acc
  | String c s' => decimal_value (10 * acc + (Z.of_N (N_of_ascii c) - 48)) s'
  end.

(** [needle in hay] on strings. *)
Fixpoint contains (needle hay : string) : bool :=
  String.prefix needle hay
  || match hay with
     | EmptyString => false
     | String _ hay' => contains needle hay'
     end.

(** [s[:n]]. *)
Definition take (n : nat) (s : string) : string := String.substring 0 n s.

(** *** [re.search(rf"\b{re.escape(keyword)}\b", text)]

    The escaped keyword matches itself character by character; [\b]
    holds between two positions exactly one of which is a word
    character, the outside of the text counting as a non-word. *)

Definition is_word_opt (o : option ascii) : bool :=
  match o with Some c => is_word c | None => false end.

Definition word_boundary (prev next : option ascii) : bool :=
  xorb (is_word_opt prev) (is_word_opt next).

Definition first_char (s : string) : option ascii :=
  match s with EmptyString => None | String c _ => Some c end.

(** The character before the position reached after reading [s], when
    [prev] was the character before [s]. *)
Fixpoint last_char (prev : option ascii) (s : string) : option ascii :=
  match s with
  | EmptyString => prev
  | String c s' => last_char (Some c) s'
  end.

Fixpoint strip_prefix (kw s : string) : option string :=
  match kw, s with
  | EmptyString, _ => Some s
  | String a kw', String b s' =>
      if Ascii.eqb a b then strip_prefix kw' s' else None
  | String _ _, EmptyString => None
  end.

(** The pattern matches at the current position. *)
Definition match_at (kw : string) (prev : option ascii) (s : string) : bool :=
  word_boundary prev (first_char s)
  && match strip_prefix kw s with
     | Some rest => word_boundary (last_char prev kw) (first_char rest)
     | None => false
     end.

(** Leftmost search: try every start position in turn. *)
Fixpoint search_from (kw : string) (prev : option ascii) (s : string) : bool :=
  match_at kw prev s
  || match s with
     | EmptyString => false
     | String c s' => search_from kw (Some c) s'
     end.

Definition re_search_word (kw text : string) : bool := search_from kw None text.

End PyText.

(** ** Values, exceptions and the effect monad *)

Module Py.

(** A Python object as the program meets it: what [json.loads] and the
    request decoder produce.  A float is kept as its binary64 bit
    pattern, of which only the truth value is ever inspected. *)
#[warnings="-register-all"]
Inductive pyval : Type :=
| VNone
| VBool (b : bool)
| VInt (z : Z)
| VFloat (bits : Z)
| VStr (s : string)
| VList (l : list pyval)
| VDict (d : gmap string pyval).

(** [bool(v)]. *)
Definition truthy (v : pyval) : bool :=
  match v with
  | VNone => false
  | VBool b => b
  | VInt z => negb (z =? 0)%Z
  | VFloat bits => negb (bits mod 2 ^ 63 =? 0)%Z
  | VStr s => negb (String.eqb s "")
  | VList l => negb (length l =? 0)
  | VDict d => negb (size d =? 0)
  end.

(** [v == "literal"]. *)
Definition eq_str (v : pyval) (s : string) : bool :=
  match v with VStr s' => String.eqb s' s | _ => false end.

Inductive exn : Type :=
| HTTPException (status_code : nat) (detail : string)
| HttpError (msg : string)
| KeyError (msg : string)
| AttributeError (msg : string)
| TypeError (msg : string)
| ValueError (msg : string)
| OtherError (msg : string).

(** [str(e)]. *)
Definition exn_str (e : exn) : string :=
  match e with
  | HTTPException _ detail => detail
  | HttpError msg | KeyError msg | AttributeError msg
  | TypeError msg | ValueError msg | OtherError msg => msg
  end.

Inductive Exc (A : Type) : Type :=
| Ok (a : A)
| Raised (e : exn).
Arguments Ok {A} a.
Arguments Raised {A} e.

Definition exc_bind {A B} (r : Exc A) (f : A -> Exc B) : Exc B :=
  match r with Ok a => f a | Raised e => Raised e end.

Definition type_name (v : pyval) : string :=
  match v with
  | VNone => "NoneType"
  | VBool _ => "bool"
  | VInt _ => "int"
  | VFloat _ => "float"
  | VStr _ => "str"
  | VList _ => "list"
  | VDict _ => "dict"
  end.

(** The error of calling a method the object does not have. *)
Definition no_attribute (v : pyval) (attr : string) : exn :=
  AttributeError
    ("'" +:+ type_name v +:+ "' object has no attribute '" +:+ attr +:+ "'").

(** [d.get(k, dflt)] and [d[k]]. *)
Definition dict_get (d : gmap string pyval) (k : string) (dflt : pyval) : pyval :=
  default dflt (d !! k).

Definition getitem (d : gmap string pyval) (k : string) : Exc pyval :=
  match d !! k with
  | Some v => Ok v
  | None => Raised (KeyError ("'" +:+ k +:+ "'"))
  end.

(** [v.get(k, dflt)] on an object that need not be a dict. *)
Definition obj_get (v : pyval) (k : string) (dflt : pyval) : Exc pyval :=
  match v with
  | VDict d => Ok (dict_get d k dflt)
  | _ => Raised (no_attribute v "get")
  end.

(** [v.lower()] and [v.isdigit()]: string methods, absent elsewhere. *)
Definition str_lower (v : pyval) : Exc string :=
  match v with
  | VStr s => Ok (PyText.lower s)
  | _ => Raised (no_attribute v "lower")
  end.

Definition str_isdigit (v : pyval) : Exc bool :=
  match v with
  | VStr s => Ok (PyText.isdigit s)
  | _ => Raised (no_attribute v "isdigit")
  end.

(** The interpreter's default limit on the digits of a decimal string
    that [int] converts. *)
Definition int_max_str_digits : nat := 4300.

(** [int(v)] as the program calls it, on a string that passed
    [isdigit]: defined on ASCII decimal digits, a [ValueError] on the
    superscript digits (its text shows at most 200 characters of the
    quoted string) and, once the string is seen to be a numeral, on more
    digits than the interpreter's limit. *)
Definition py_int (v : pyval) : Exc Z :=
  match v with
  | VStr s =>
      if negb (String.eqb s "") && PyText.all_chars PyText.is_decimal_char s
      then
        if int_max_str_digits <? String.length s
        then Raised (ValueError
                       ("Exceeds the limit (4300 digits) for integer string conversion: value has "
                        +:+ DecimalString.NilZero.string_of_uint
                              (Nat.to_uint (String.length s))
                        +:+ " digits; use sys.set_int_max_str_digits() to increase the limit"))
        else Ok (PyText.decimal_value 0 s)
      else Raised (ValueError
                     ("invalid literal for int() with base 10: "
                      +:+ PyText.take 200 ("'" +:+ s +:+ "'")))
  | _ => Raised (TypeError "int() argument must be a string or a number")
  end.

(** [v[:n]]; the error of an object that cannot be sliced is always
    swallowed by the handler around the call. *)
Definition py_slice (n : nat) (v : pyval) : Exc pyval :=
  match v with
  | VStr s => Ok (VStr (PyText.take n s))
  | VList l => Ok (VList (take n l))
  | _ => Raised (TypeError ("'" +:+ type_name v +:+ "' object is not subscriptable"))
  end.

(** The prompts sent to the language model, by the inputs that the
    source interpolates into its fixed templates. *)
Inductive completion_request : Type :=
| SummaryRequest (email_body subject sender : pyval)
| ReplyRequest (sender subject body user_context : pyval)
| CommandRequest (command : string) (listed : list (gmap string pyval))
| DigestRequest (emails : list (gmap string pyval)).

(** Calls that leave the process. *)
Inductive call : Type :=
| MessagesList (maxResults : nat) (q : string)
| MessagesGet (id : string)
| MessagesDelete (id : string)
| ChatCompletion (req : completion_request).

Definition trace := list call.

(** A computation reads the history of calls made before it and returns
    its outcome together with the calls it made itself, oldest first. *)
Definition M (A : Type) : Type := trace -> Exc A * trace.

Definition ret {A} (a : A) : M A := fun _ => (Ok a, []).

Definition raise {A} (e : exn) : M A := fun _ => (Raised e, []).

Definition lift {A} (r : Exc A) : M A := fun _ => (r, []).

Definition bind {A B} (m : M A) (f : A -> M B) : M B :=
  fun h =>
    match m h with
    | (Ok a, c) => let (r, c') := f a (h ++ c) in (r, c ++ c')
    | (Raised e, c) => (Raised e, c)
    end.

(** [try: m  except Exception as e: handler e]. *)
Definition try_except {A} (m : M A) (handler : exn -> M A) : M A :=
  fun h =>
    match m h with
    | (Ok a, c) => (Ok a, c)
    | (Raised e, c) => let (r, c') := handler e (h ++ c) in (r, c ++ c')
    end.

(** [try: m  except HttpError: handler]; anything else propagates. *)
Definition try_except_HttpError {A} (m : M A) (handler : M A) : M A :=
  try_except m (fun e => match e with HttpError _ => handler | _ => raise e end).

(** One external call, answered by the environment from the history. *)
Definition perform {R} (c : call) (answer : trace -> Exc R) : M R :=
  fun h => (answer h, [c]).

(** [for x in l: s = body(s, x)]. *)
Fixpoint for_each {A S} (l : list A) (body : S -> A -> M S) (s : S) : M S :=
  match l with
  | [] => ret s
  | x :: l' => bind (body s x) (for_each l' body)
  end.

End Py.

Declare Scope py_scope.
Delimit Scope py_scope with py.
Notation "x <- m ;; k" := (Py.bind m (fun x => k))
  (at level 100, m at next level, right associativity) : py_scope.
Notation "m ;;; k" := (Py.bind m (fun _ => k))
  (at level 100, right associativity) : py_scope.

(** ** The Gmail REST resources the wrapper reads *)

Module GmailAPI.

Record MessagePart : Type := {
  mimeType : option string;
  part_body_data : option string
}.

Record MessagePayload : Type := {
  headers : option (list (string * string));
  parts : option (list MessagePart);
  body_data : option string
}.

Record Message : Type := {
  id : string;
  threadId : option string;
  payload : MessagePayload;
  snippet : option string;
  labelIds : option (list string)
}.

End GmailAPI.

(** ** The environment of one request

    The mail provider, the language model and the session store answer
    from the history of calls; quantifying over [Env] covers every
    behaviour they can show.  The library functions the source imports
    are fields as well. *)

Record Env : Type := {
  messages_list : Py.trace -> nat -> string -> Py.Exc (list string);
  messages_get : Py.trace -> string -> Py.Exc GmailAPI.Message;
  messages_delete : Py.trace -> string -> Py.Exc unit;
  chat_completions_create :
    Py.trace -> Py.completion_request -> Py.Exc (option string);
  json_loads : string -> Py.Exc Py.pyval;
  parseaddr : string -> string * string;
  urlsafe_b64decode : string -> Py.Exc string;
  re_sub_tags : string -> string;
  py_repr : Py.pyval -> string;
  get_credentials : string -> Py.Exc unit;
  get_ai_service : Py.Exc unit
}.

(** [str(v)], as an f-string formats a value. *)
Definition py_str (env : Env) (v : Py.pyval) : string :=
  match v with
  | Py.VStr s => s
  | _ => py_repr env v
  end.

Local Open Scope py_scope.

(** ** [utils/gmail.py]: class [GmailService] *)

Module Gmail.
Import Py GmailAPI.

Section GmailService.
Variable env : Env.

Definition list_messages (max_results : nat) (q : string) : M (list string) :=
  perform (MessagesList max_results q) (fun h => messages_list env h max_results q).

Definition get_message (message_id : string) : M Message :=
  perform (MessagesGet message_id) (fun h => messages_get env h message_id).

(** [base64.urlsafe_b64decode(data).decode('utf-8', errors='ignore')]
    under the [try] of the source: [None] when it raised. *)
Definition decode (data : string) : option string :=
  match urlsafe_b64decode env data with
  | Ok body => Some body
  | Raised _ => None
  end.

(** The loop over [payload['parts']]: the first part of a text type
    whose data decodes gives the body. *)
Fixpoint body_of_parts (ps : list MessagePart) : string :=
  match ps with
  | [] => ""
  | part :: rest =>
      let mime_type := default "" (mimeType part) in
      if PyText.contains "text/plain" mime_type
         || PyText.contains "text/html" mime_type
      then
        match part_body_data part with
        | Some data =>
            if String.eqb data "" then body_of_parts rest
            else
              match decode data with
              | Some body =>
                  if PyText.contains "html" mime_type
                  then re_sub_tags env body else body
              | None => body_of_parts rest
              end
        | None => body_of_parts rest
        end
      else body_of_parts rest
  end.

Definition _extract_body (p : MessagePayload) : string :=
  let body :=
    match parts p with
    | Some ps => body_of_parts ps
    | None =>
        match body_data p with
        | Some data =>
            if String.eqb data "" then ""
            else default "" (decode data)
        | None => ""
        end
    end in
  PyText.strip body.

(** [{h['name']: h['value'] for h in headers}]: a later header of the
    same name replaces an earlier one. *)
Definition headers_dict (hs : list (string * string)) : gmap string string :=
  fold_left (fun d h => <[h.1 := h.2]> d) hs ∅.

Definition opt_str (o : option string) : pyval :=
  match o with Some s => VStr s | None => VNone end.

Definition _parse_message (message : Message) : gmap string pyval :=
  let hs := headers_dict (default [] (headers (payload message))) in
  let body := _extract_body (payload message) in
  let from_header := default "" (hs !! "From") in
  let '(sender_name, sender_email) := parseaddr env from_header in
  <["id" := VStr (id message)]>
  (<["thread_id" := opt_str (threadId message)]>
  (<["sender_name" :=
       VStr (if String.eqb sender_name "" then sender_email else sender_name)]>
  (<["sender_email" := VStr sender_email]>
  (<["subject" := VStr (default "(No subject)" (hs !! "Subject"))]>
  (<["body" := VStr body]>
  (<["date" := VStr (default "" (hs !! "Date"))]>
  (<["snippet" := VStr (default "" (snippet message))]>
  (<["labels" := VList (VStr <$> default [] (labelIds message))]> ∅)))))))).

(** One turn of the loop in [get_recent_emails]: an [HttpError] on one
    message skips it. *)
Definition fetch_one (email_list : list (gmap string pyval)) (msg_id : string)
  : M (list (gmap string pyval)) :=
  try_except_HttpError
    (message <- get_message msg_id ;;
     ret (email_list ++ [_parse_message message]))
    (ret email_list).

(** The outer handler of the source logs an [HttpError] and raises it
    again: every exception of the listing propagates. *)
Definition get_recent_emails (max_results : nat) : M (list (gmap string pyval)) :=
  messages <- list_messages max_results "in:inbox" ;;
  for_each messages fetch_one [].

Definition delete_email (message_id : string) : M bool :=
  perform (MessagesDelete message_id) (fun h => messages_delete env h message_id) ;;;
  ret true.

(** The two search primitives share their body up to the query. *)
Definition find_first (q : string) : M (option (gmap string pyval)) :=
  try_except_HttpError
    (messages <- list_messages 1 q ;;
     match messages with
     | [] => ret None
     | first :: _ =>
         message <- get_message first ;;
         ret (Some (_parse_message message))
     end)
    (ret None).

Definition sender_query (sender_email : pyval) : string :=
  "from:" +:+ py_str env sender_email +:+ " in:inbox".

Definition subject_query (subject_keyword : pyval) : string :=
  "subject:" +:+ String (ascii_of_nat 34) (py_str env subject_keyword)
    +:+ String (ascii_of_nat 34) " in:inbox".

Definition find_email_by_sender (sender_email : pyval)
  : M (option (gmap string pyval)) :=
  find_first (sender_query sender_email).

Definition find_email_by_subject (subject_keyword : pyval)
  : M (option (gmap string pyval)) :=
  find_first (subject_query subject_keyword).

End GmailService.
End Gmail.

(** ** [utils/ai.py]: class [AIService] *)

Module AI.
Import Py.

Section AIService.
Variable env : Env.

(** [self.client.chat.completions.create(...)] followed by
    [response.choices[0].message.content]. *)
Definition complete (req : completion_request) : M (option string) :=
  perform (ChatCompletion req) (fun h => chat_completions_create env h req).

(** [(content or "").strip()]. *)
Definition content_text (content : option string) : string :=
  PyText.strip (default "" content).

Definition generate_summary (email_body subject sender : pyval) : M string :=
  try_except
    (shown <- lift (py_slice 2000 email_body) ;;
     content <- complete (SummaryRequest shown subject sender) ;;
     ret (content_text content))
    (fun _ => ret "Unable to generate summary at this time.").

Definition generate_reply (original_email : gmap string pyval)
    (user_context : pyval) : M string :=
  try_except
    (let sender :=
       dict_get original_email "sender_name"
         (dict_get original_email "sender_email" (VStr "Unknown")) in
     let subject := dict_get original_email "subject" (VStr "") in
     body <- lift (py_slice 2000 (dict_get original_email "body" (VStr ""))) ;;
     content <- complete (ReplyRequest sender subject body user_context) ;;
     ret (content_text content))
    (fun _ => ret "I apologize, but I'm having trouble generating a reply right now. Please try again later.").

Definition unknown_command (e : exn) : gmap string pyval :=
  <["intent" := VStr "unknown"]>
  (<["parameters" := VDict ∅]>
  (<["confidence" := VStr "low"]>
  (<["error" := VStr (exn_str e)]> ∅))).

Definition process_natural_language_command (command : string)
    (email_context : list (gmap string pyval)) : M (gmap string pyval) :=
  try_except
    (content <- complete (CommandRequest command (take 5 email_context)) ;;
     match content with
     | None =>
         raise (ValueError "No content returned from AI when processing command")
     | Some text =>
         result <- lift (json_loads env text) ;;
         match result with
         | VDict d => ret d
         | _ => raise (no_attribute result "get")
         end
     end)
    (fun e => ret (unknown_command e)).

Definition generate_daily_digest (emails : list (gmap string pyval)) : M string :=
  try_except
    (content <- complete (DigestRequest emails) ;;
     ret (content_text content))
    (fun _ => ret "Unable to generate digest at this time.").

End AIService.
End AI.

(** ** [routes/chat.py] *)

Module Chat.
Import Py.

Definition _has_keyword (user_message : string) (keywords : list string) : bool :=
  existsb (fun keyword => PyText.re_search_word keyword user_message) keywords.

Record ChatRequest : Type := {
  req_message : string;
  req_email_context : option (list (gmap string pyval))
}.

(** The dict [response_data]. *)
Record ResponseEnvelope : Type := {
  intent : pyval;
  confidence : pyval;
  message : string;
  action : option string;
  data : option pyval
}.

Definition dquote : string := String (ascii_of_nat 34) "".

Definition info_message : string :=
    "I'm your AI email assistant! I can help you with:
            
â€¢ **Read emails**: " +:+ dquote +:+ "Show me my recent emails" +:+ dquote
    +:+ " or " +:+ dquote +:+ "Fetch last 5 emails" +:+ dquote +:+ "
â€¢ **Generate replies**: " +:+ dquote +:+ "Reply to John" +:+ dquote
    +:+ " or " +:+ dquote
    +:+ "Generate a reply to the latest email from [sender]" +:+ dquote +:+ "
â€¢ **Delete emails**: " +:+ dquote
    +:+ "Delete the latest email from [sender]" +:+ dquote
    +:+ " or " +:+ dquote +:+ "Delete email number 2" +:+ dquote +:+ "

Try asking me to fetch your emails first, and then I can help you reply or delete specific ones!".

Definition reply_miss_message : string :=
  "I couldn't find the email you want to reply to. Please try fetching your recent emails first or be more specific about which email to reply to.".

Definition delete_miss_message : string :=
  "I couldn't find the email you want to delete. Please try fetching your recent emails first or be more specific.".

(** [if target_email:] on an [Optional[Dict]]. *)
Definition found (target_email : option (gmap string pyval)) : bool :=
  match target_email with
  | Some email => truthy (VDict email)
  | None => false
  end.

(** [email_index and email_index.isdigit()]. *)
Definition index_given (email_index : pyval) : Exc bool :=
  if truthy email_index then str_isdigit email_index else Ok false.

(** [idx = int(email_index) - 1], then [email_context[idx]] when
    [0 <= idx < len(email_context)]. *)
Definition select_by_index (email_index : pyval)
    (email_context : list (gmap string pyval)) : Exc (option (gmap string pyval)) :=
  exc_bind (py_int email_index) (fun n =>
    let idx := (n - 1)%Z in
    if (0 <=? idx)%Z && (idx <? Z.of_nat (length email_context))%Z
    then Ok (email_context !! Z.to_nat idx)
    else Ok None).

(** [for email in email_context: if needle.lower() in
    email.get(key, '').lower(): target_email = email; break]. *)
Fixpoint scan_context (key : string) (needle : pyval)
    (email_context : list (gmap string pyval)) : Exc (option (gmap string pyval)) :=
  match email_context with
  | [] => Ok None
  | email :: rest =>
      exc_bind (str_lower needle) (fun n =>
      exc_bind (str_lower (dict_get email key (VStr ""))) (fun hay =>
        if PyText.contains n hay then Ok (Some email)
        else scan_context key needle rest))
  end.

(** The block under [# Try to find email from context] of the reply
    branch. *)
Definition reply_context_lookup (email_index sender_email : pyval)
    (email_context : list (gmap string pyval)) : Exc (option (gmap string pyval)) :=
  if negb (length email_context =? 0) then
    exc_bind (index_given email_index) (fun by_index =>
      if by_index then select_by_index email_index email_context
      else if truthy sender_email
           then scan_context "sender_email" sender_email email_context
           else Ok None)
  else Ok None.

(** The same block of the delete branch, with its third key. *)
Definition delete_context_lookup (email_index sender_email subject_keyword : pyval)
    (email_context : list (gmap string pyval)) : Exc (option (gmap string pyval)) :=
  if negb (length email_context =? 0) then
    exc_bind (index_given email_index) (fun by_index =>
      if by_index then select_by_index email_index email_context
      else if truthy sender_email
           then scan_context "sender_email" sender_email email_context
           else if truthy subject_keyword
                then scan_context "subject" subject_keyword email_context
                else Ok None)
  else Ok None.

Definition read_max_results (user_message : string) : nat :=
  if PyText.contains "few" user_message || PyText.contains "some" user_message
  then 5
  else if PyText.contains "many" user_message
          || PyText.contains "all" user_message
          || PyText.contains "20" user_message
       then 20
       else 5.

(** [str(len(emails))]. *)
Definition str_of_nat (n : nat) : string :=
  DecimalString.NilZero.string_of_uint (Nat.to_uint n).

(** What the two handlers at the end of [process_chat_message] raise:
    [except HTTPException: raise] and [except Exception as e: raise
    HTTPException(status_code=500, detail=str(e))]. *)
Definition http_error (e : exn) : exn :=
  match e with
  | HTTPException _ _ => e
  | _ => HTTPException 500 (exn_str e)
  end.

Section Dispatcher.
Variable env : Env.

(** One turn of the summary loop of the read branch. *)
Definition summarize (email : gmap string pyval) : M (gmap string pyval) :=
  try_except
    (body <- lift (getitem email "body") ;;
     subject <- lift (getitem email "subject") ;;
     sender_name <- lift (getitem email "sender_name") ;;
     summary <- AI.generate_summary env body subject sender_name ;;
     ret (<["ai_summary" := VStr summary]> email))
    (fun _ => ret (<["ai_summary" := VStr "Unable to generate summary."]> email)).

Definition summarize_all (emails : list (gmap string pyval))
  : M (list (gmap string pyval)) :=
  for_each emails
    (fun done email => email' <- summarize email ;; ret (done ++ [email'])) [].

Definition read_branch (intent confidence : pyval) (user_message : string)
  : M ResponseEnvelope :=
  emails <- Gmail.get_recent_emails env (read_max_results user_message) ;;
  emails <- summarize_all emails ;;
  ret {| intent := intent; confidence := confidence;
         message := "I found " +:+ str_of_nat (length emails)
                    +:+ " recent emails. Here they are:";
         action := Some "display_emails";
         data := Some (VDict (<["emails" := VList (VDict <$> emails)]> ∅)) |}.

(** Target resolution of the reply branch: the context first, then
    the provider by sender. *)
Definition resolve_reply_target (email_index sender_email : pyval)
    (email_context : list (gmap string pyval)) : M (option (gmap string pyval)) :=
  target_email <- lift (reply_context_lookup email_index sender_email email_context) ;;
  if negb (found target_email) && truthy sender_email
  then Gmail.find_email_by_sender env sender_email
  else ret target_email.

Definition reply_branch (intent confidence parameters : pyval)
    (email_context : list (gmap string pyval)) : M ResponseEnvelope :=
  sender_email <- lift (obj_get parameters "sender_email" (VStr "")) ;;
  email_index <- lift (obj_get parameters "email_index" (VStr "")) ;;
  user_context <- lift (obj_get parameters "action_details" (VStr "")) ;;
  target_email <- resolve_reply_target email_index sender_email email_context ;;
  match target_email with
  | Some target =>
      if truthy (VDict target) then
        reply <- AI.generate_reply env target user_context ;;
        id <- lift (getitem target "id") ;;
        sender_email <- lift (getitem target "sender_email") ;;
        sender_name <- lift (getitem target "sender_name") ;;
        subject <- lift (getitem target "subject") ;;
        ret {| intent := intent; confidence := confidence;
               message := "Here's a suggested reply to the email from "
                 +:+ py_str env (dict_get target "sender_name" (VStr "the sender"))
                 +:+ ":";
               action := Some "display_reply";
               data := Some (VDict
                 (<["reply" := VStr reply]>
                 (<["original_email" := VDict
                      (<["id" := id]>
                      (<["sender_email" := sender_email]>
                      (<["sender_name" := sender_name]>
                      (<["subject" := subject]>
                      (<["thread_id" := dict_get target "thread_id" VNone]> ∅)))))]>
                  ∅))) |}
      else
        ret {| intent := intent; confidence := confidence;
               message := reply_miss_message;
               action := Some "error"; data := None |}
  | None =>
      ret {| intent := intent; confidence := confidence;
             message := reply_miss_message;
             action := Some "error"; data := None |}
  end.

(** The block under [# If not found in context, try to find by sender
    or subject]. *)
Definition delete_provider_fallback (target_email : option (gmap string pyval))
    (sender_email subject_keyword : pyval) : M (option (gmap string pyval)) :=
  if negb (found target_email) then
    if truthy sender_email then Gmail.find_email_by_sender env sender_email
    else if truthy subject_keyword
         then Gmail.find_email_by_subject env subject_keyword
         else ret target_email
  else ret target_email.

Definition resolve_delete_target (email_index sender_email subject_keyword : pyval)
    (email_context : list (gmap string pyval)) : M (option (gmap string pyval)) :=
  target_email <-
    lift (delete_context_lookup email_index sender_email subject_keyword
            email_context) ;;
  delete_provider_fallback target_email sender_email subject_keyword.

Definition delete_branch (intent confidence parameters : pyval)
    (email_context : list (gmap string pyval)) : M ResponseEnvelope :=
  sender_email <- lift (obj_get parameters "sender_email" (VStr "")) ;;
  subject_keyword <- lift (obj_get parameters "subject_keyword" (VStr "")) ;;
  email_index <- lift (obj_get parameters "email_index" (VStr "")) ;;
  target_email <-
    resolve_delete_target email_index sender_email subject_keyword email_context ;;
  match target_email with
  | Some target =>
      if truthy (VDict target) then
        id <- lift (getitem target "id") ;;
        sender_name <- lift (getitem target "sender_name") ;;
        sender_email <- lift (getitem target "sender_email") ;;
        subject <- lift (getitem target "subject") ;;
        ret {| intent := intent; confidence := confidence;
               message := "I found the email from "
                 +:+ py_str env (dict_get target "sender_name" (VStr "the sender"))
                 +:+ " with subject '"
                 +:+ py_str env (dict_get target "subject" (VStr ""))
                 +:+ "'. Are you sure you want to delete it?";
               action := Some "confirm_delete";
               data := Some (VDict
                 (<["email" := VDict
                      (<["id" := id]>
                      (<["sender_name" := sender_name]>
                      (<["sender_email" := sender_email]>
                      (<["subject" := subject]> ∅))))]> ∅)) |}
      else
        ret {| intent := intent; confidence := confidence;
               message := delete_miss_message;
               action := Some "error"; data := None |}
  | None =>
      ret {| intent := intent; confidence := confidence;
             message := delete_miss_message;
             action := Some "error"; data := None |}
  end.

Definition digest_branch (intent confidence : pyval) : M ResponseEnvelope :=
  emails <- Gmail.get_recent_emails env 20 ;;
  digest <- AI.generate_daily_digest env emails ;;
  ret {| intent := intent; confidence := confidence;
         message := "Here's your daily email digest:";
         action := Some "display_digest";
         data := Some (VDict
           (<["digest" := VStr digest]>
           (<["email_count" := VInt (Z.of_nat (length emails))]> ∅))) |}.

Definition info_branch (intent confidence : pyval) : M ResponseEnvelope :=
  ret {| intent := intent; confidence := confidence;
         message := info_message;
         action := Some "info"; data := None |}.

(** The chain [if ... elif ... else] under [# Handle different intents]. *)
Definition handle_intents (intent confidence parameters : pyval)
    (user_message : string) (email_context : list (gmap string pyval))
  : M ResponseEnvelope :=
  if eq_str intent "read" || _has_keyword user_message ["read"; "show"; "fetch"]
  then read_branch intent confidence user_message
  else if eq_str intent "reply" || _has_keyword user_message ["reply"; "respond"]
  then reply_branch intent confidence parameters email_context
  else if eq_str intent "delete" || _has_keyword user_message ["delete"; "remove"]
  then delete_branch intent confidence parameters email_context
  else if eq_str intent "digest" || _has_keyword user_message ["digest"; "summary"]
  then digest_branch intent confidence
  else info_branch intent confidence.

Definition http_boundary {A} (m : M A) : M A :=
  try_except m (fun e => raise (http_error e)).

(** The route [POST /message].  [get_credentials] resolves the session
    (an [HTTPException] 401 when it cannot) and [get_ai_service] builds
    the model client on first use (a [ValueError] without an API key);
    later calls of [get_ai_service] return the client already built. *)
Definition process_chat_message (request : ChatRequest) (token : string)
  : M ResponseEnvelope :=
  http_boundary
    (lift (get_credentials env token) ;;;
     let user_message := PyText.strip (PyText.lower (req_message request)) in
     let email_context := default [] (req_email_context request) in
     lift (get_ai_service env) ;;;
     command_result <-
       AI.process_natural_language_command env (req_message request) email_context ;;
     let intent := dict_get command_result "intent" (VStr "unknown") in
     let parameters := dict_get command_result "parameters" (VDict ∅) in
     let confidence := dict_get command_result "confidence" (VStr "low") in
     handle_intents intent confidence parameters user_message email_context).

End Dispatcher.
End Chat.

(** ** The vocabulary of the dispatch contract

    Notions the properties below are stated with.  None of them is used
    by the program; each is compared with the program by a theorem. *)

Module Contract.
Import Py.

(** The routing rule in the words of the specification: the branches
    in their priority order, each with its intent name and keyword set;
    the first whose condition holds is taken. *)
Inductive branch : Type :=
| ReadBranch
| ReplyBranch
| DeleteBranch
| DigestBranch.

Definition branch_intent (b : branch) : string :=
  match b with
  | ReadBranch => "read"
  | ReplyBranch => "reply"
  | DeleteBranch => "delete"
  | DigestBranch => "digest"
  end.

Definition branch_keywords (b : branch) : list string :=
  match b with
  | ReadBranch => ["read"; "show"; "fetch"]
  | ReplyBranch => ["reply"; "respond"]
  | DeleteBranch => ["delete"; "remove"]
  | DigestBranch => ["digest"; "summary"]
  end.

Definition branch_condition (intent : pyval) (user_message : string)
    (b : branch) : bool :=
  eq_str intent (branch_intent b)
  || Chat._has_keyword user_message (branch_keywords b).

Definition priority_order : list branch :=
  [ReadBranch; ReplyBranch; DeleteBranch; DigestBranch].

Definition first_matching_branch (intent : pyval) (user_message : string)
  : option branch :=
  List.find (branch_condition intent user_message) priority_order.


(** The body the dispatcher runs for a branch; [None] is the fallback. *)
Definition run_branch (env : Env) (b : option branch)
    (intent confidence parameters : pyval) (user_message : string)
    (email_context : list (gmap string pyval)) : M Chat.ResponseEnvelope :=
  match b with
  | Some ReadBranch => Chat.read_branch env intent confidence user_message
  | Some ReplyBranch =>
      Chat.reply_branch env intent confidence parameters email_context
  | Some DeleteBranch =>
      Chat.delete_branch env intent confidence parameters email_context
  | Some DigestBranch => Chat.digest_branch env intent confidence
  | None => Chat.info_branch intent confidence
  end.

(** [kw] occurs in [text] as a whole word: no word character touches
    the occurrence on either side. *)
Definition whole_word (kw text : string) : Prop :=
  ∃ before after : string,
    text = before +:+ kw +:+ after
    ∧ PyText.is_word_opt (PyText.last_char None before) = false
    ∧ PyText.is_word_opt (PyText.first_char after) = false.

(** A keyword that starts and ends with a word character. *)
Definition keyword_shape (kw : string) : Prop :=
  PyText.is_word_opt (PyText.first_char kw) = true
  ∧ PyText.is_word_opt (PyText.last_char None kw) = true.

(** What the user typed, as the dispatcher matches it. *)
Definition user_text (request : Chat.ChatRequest) : string :=
  PyText.strip (PyText.lower (Chat.req_message request)).

Definition context_of (request : Chat.ChatRequest) : list (gmap string pyval) :=
  default [] (Chat.req_email_context request).

(** The three fields of the classifier's answer, with the defaults the
    dispatcher reads them with. *)
Definition intent_of (command_result : gmap string pyval) : pyval :=
  dict_get command_result "intent" (VStr "unknown").

Definition parameters_of (command_result : gmap string pyval) : pyval :=
  dict_get command_result "parameters" (VDict ∅).

Definition confidence_of (command_result : gmap string pyval) : pyval :=
  dict_get command_result "confidence" (VStr "low").

(** The session is valid, the model client exists, and the classifier,
    started after history [h], answered [command_result] having made
    the calls [c0]. *)
Definition classified (env : Env) (request : Chat.ChatRequest) (token : string)
    (h : trace) (command_result : gmap string pyval) (c0 : trace) : Prop :=
  get_credentials env token = Ok tt
  ∧ get_ai_service env = Ok tt
  ∧ AI.process_natural_language_command env (Chat.req_message request)
      (context_of request) h = (Ok command_result, c0).


(** The number a string of decimal digits denotes in positional
    notation: each digit weighs ten times the one to its right. *)
Definition digit_value (c : ascii) : Z := Z.of_nat (nat_of_ascii c) - 48.

Fixpoint decimal_number (digits : string) : Z :=
  match digits with
  | EmptyString => 0
  | String c rest =>
      digit_value c * 10 ^ Z.of_nat (String.length rest) + decimal_number rest
  end.

(** A numeral: one or more of the characters 0 to 9. *)
Definition numeral (digits : string) : Prop :=
  digits ≠ ""
  ∧ ∀ i c, String.get i digits = Some c → (48 ≤ nat_of_ascii c ≤ 57)%nat.

(** The keys the confirmation stub of the delete branch reads from its
    target with [target_email[key]], in the order it reads them. *)
Definition stub_keys : list string :=
  ["id"; "sender_name"; "sender_email"; "subject"].

(** The first of [keys] that [email] does not have. *)
Definition first_missing (keys : list string) (email : gmap string pyval)
  : option string :=
  List.find (fun key => bool_decide (email !! key = None)) keys.

(** An Email of the data model as far as the response stubs read it:
    the identifying fields are present. *)
Definition identifiable (email : gmap string pyval) : Prop :=
  is_Some (email !! "id") ∧ is_Some (email !! "sender_name")
  ∧ is_Some (email !! "sender_email") ∧ is_Some (email !! "subject").

(** The answer of the classifier on a failure. *)
Definition unknown_result (result : gmap string pyval) (description : string)
  : Prop :=
  result !! "intent" = Some (VStr "unknown")
  ∧ result !! "parameters" = Some (VDict ∅)
  ∧ result !! "confidence" = Some (VStr "low")
  ∧ result !! "error" = Some (VStr description).

(** Every call a computation makes, from any history, satisfies [P]. *)
Definition only_calls {A} (P : call → Prop) (m : M A) : Prop :=
  ∀ h, Forall P (m h).2.

(** An outcome as it leaves the boundary of the route. *)
Definition at_boundary {A} (r : Exc A) : Exc A :=
  match r with
  | Ok a => Ok a
  | Raised e => Raised (Chat.http_error e)
  end.

(** The destructive operation of the provider. *)
Definition is_delete (c : call) : bool :=
  match c with MessagesDelete _ => true | _ => false end.

(** The mailbox as the set of its message ids, and what a call does to
    it: listing and fetching leave it alone, a delete removes. *)
Definition apply_call (mailbox : gset string) (c : call) : gset string :=
  match c with
  | MessagesDelete message_id => mailbox ∖ {[message_id]}
  | _ => mailbox
  end.

Definition mailbox_after (calls : trace) (mailbox : gset string) : gset string :=
  fold_left apply_call calls mailbox.

(** The provider answers the lookup for query [q], started after
    history [h], with an [HttpError]: on the listing, or on fetching
    the first message listed. *)
Definition http_error_in_lookup (env : Env) (q : string) (h : trace) : Prop :=
  (∃ msg, messages_list env h 1 q = Raised (HttpError msg))
  ∨ (∃ first others msg,
       messages_list env h 1 q = Ok (first :: others)
       ∧ messages_get env (h ++ [MessagesList 1 q]) first = Raised (HttpError msg)).

(** The calls such a lookup has made when the error arrives. *)
Definition lookup_calls (env : Env) (q : string) (h : trace) : trace :=
  match messages_list env h 1 q with
  | Ok (first :: _) => [MessagesList 1 q; MessagesGet first]
  | _ => [MessagesList 1 q]
  end.

(** The summary request the read branch makes for a fetched email. *)
Definition summary_request (email : gmap string pyval) : completion_request :=
  SummaryRequest
    (match dict_get email "body" VNone with
     | VStr body => VStr (PyText.take 2000 body)
     | v => v
     end)
    (dict_get email "subject" VNone)
    (dict_get email "sender_name" VNone).

Definition summary_call (email : gmap string pyval) : call :=
  ChatCompletion (summary_request email).

(** The summary text an answer of the model leads to. *)
Definition summary_of (answer : Exc (option string)) : string :=
  match answer with
  | Ok content => AI.content_text content
  | Raised _ => "Unable to generate summary at this time."
  end.

(** The emails of a fetched batch after the summary loop, started after
    history [h]: each carries the summary its own request led to. *)
Fixpoint summarized (env : Env) (h : trace) (emails : list (gmap string pyval))
  : list (gmap string pyval) :=
  match emails with
  | [] => []
  | email :: rest =>
      <["ai_summary" :=
          VStr (summary_of (chat_completions_create env h (summary_request email)))]>
        email
      :: summarized env (h ++ [summary_call email]) rest
  end.

(** [email.get('ai_summary')]. *)
Definition dict_summary (email : gmap string pyval) : option pyval :=
  email !! "ai_summary".

(** The digest text an answer of the model leads to. *)
Definition digest_of (answer : Exc (option string)) : string :=
  match answer with
  | Ok content => AI.content_text content
  | Raised _ => "Unable to generate digest at this time."
  end.

End Contract.

(** ** Concrete environments and requests

    Small worlds on which the definitions above are run: a provider
    scripted by query and message id, a model scripted by request, and a
    classifier answer fixed in advance. *)

Module Scenario.
Import Py GmailAPI.

Definition scripted (classified : Exc pyval)
    (listing : string -> Exc (list string))
    (fetching : string -> Exc Message)
    (model : completion_request -> Exc (option string)) : Env :=
  {| messages_list := fun _ _ q => listing q;
     messages_get := fun _ message_id => fetching message_id;
     messages_delete := fun _ _ => Ok tt;
     chat_completions_create := fun _ req =>
       match req with
       | CommandRequest _ _ => Ok (Some "{}")
       | _ => model req
       end;
     json_loads := fun _ => classified;
     parseaddr := fun from_header => ("", from_header);
     urlsafe_b64decode := fun data => Ok data;
     re_sub_tags := fun body => body;
     py_repr := fun _ => "<object>";
     get_credentials := fun _ => Ok tt;
     get_ai_service := Ok tt |}.

Definition no_listing (q : string) : Exc (list string) := Ok [].

Definition no_message (message_id : string) : Exc Message :=
  Raised (HttpError "404 Not Found").

Definition model_down (req : completion_request) : Exc (option string) :=
  Raised (OtherError "Connection error.").

Definition model_echo (req : completion_request) : Exc (option string) :=
  Ok (Some " ok ").

(** A command result as the classifier returns it. *)
Definition command_dict (intent : string) (parameters : gmap string pyval)
  : gmap string pyval :=
  <["intent" := VStr intent]>
  (<["parameters" := VDict parameters]>
  (<["confidence" := VStr "high"]> ∅)).

Definition command (intent : string) (parameters : gmap string pyval) : pyval :=
  VDict (command_dict intent parameters).

(** The one call the classifier makes for a request. *)
Definition classifier_call (text : string) (context : list (gmap string pyval))
  : trace :=
  [ChatCompletion (CommandRequest text (take 5 context))].

Definition context_email (message_id sender_name sender_email subject : string)
  : gmap string pyval :=
  <["id" := VStr message_id]>
  (<["sender_name" := VStr sender_name]>
  (<["sender_email" := VStr sender_email]>
  (<["subject" := VStr subject]> ∅))).

Definition alice : gmap string pyval :=
  context_email "m1" "Alice" "alice@x.com" "Lunch".

Definition bob : gmap string pyval :=
  context_email "m2" "Bob" "bob@y.org" "Invoice 42".

Definition carol : gmap string pyval :=
  context_email "m3" "Carol" "carol@z.net" "Minutes".

Definition stored (message_id from_header subject : string) : Message :=
  {| id := message_id; threadId := Some ("t-" +:+ message_id);
     payload := {| headers := Some [("From", from_header); ("Subject", subject)];
                   parts := None; body_data := Some "hello" |};
     snippet := Some "hello"; labelIds := Some ["INBOX"] |}.

Definition request (text : string) (context : list (gmap string pyval))
  : Chat.ChatRequest :=
  {| Chat.req_message := text; Chat.req_email_context := Some context |}.

(** "delete the email from alice@x.com" with Alice's email in context:
    the classifier names the sender, the provider holds nothing. *)
Definition delete_alice_parameters : gmap string pyval :=
  <["sender_email" := VStr "alice@x.com"]> ∅.

Definition delete_alice_env : Env :=
  scripted (Ok (command "delete" delete_alice_parameters))
    no_listing no_message model_echo.

Definition delete_alice_request : Chat.ChatRequest :=
  request "delete the email from alice@x.com" [alice; bob].

(** The same request with a context email that has no id and no sender
    name: the classifier names its sender. *)
Definition unnamed_email : gmap string pyval :=
  <["sender_email" := VStr "alice@x.com"]> (<["subject" := VStr "Lunch"]> ∅).

Definition delete_unnamed_request : Chat.ChatRequest :=
  request "delete the email from alice@x.com" [unnamed_email].

(** An empty record ahead of Alice's email. *)
Definition delete_second_request : Chat.ChatRequest :=
  request "delete the email from alice@x.com" [∅; alice].

(** A greeting that names no command, while the model is unreachable. *)
Definition hello_env : Env :=
  scripted (Raised (ValueError "Expecting value")) no_listing no_message model_down.

Definition hello_request : Chat.ChatRequest := request "  Hello there!  " [].

(** An inbox of three messages; the model fails on the second one's
    summary and answers the others. *)
Definition inbox_listing (q : string) : Exc (list string) := Ok ["a"; "b"; "c"].

Definition inbox_message (message_id : string) : Exc Message :=
  Ok (stored message_id (message_id +:+ "@x.com") ("About " +:+ message_id)).

Definition flaky_model (req : completion_request) : Exc (option string) :=
  match req with
  | SummaryRequest _ (VStr "About b") _ => Raised (OtherError "Connection error.")
  | _ => Ok (Some " A short summary. ")
  end.

Definition inbox_env : Env :=
  scripted (Raised (ValueError "Expecting value"))
    inbox_listing inbox_message flaky_model.

Definition inbox_emails : list (gmap string pyval) :=
  Gmail._parse_message inbox_env <$>
    [stored "a" "a@x.com" "About a"; stored "b" "b@x.com" "About b";
     stored "c" "c@x.com" "About c"].

Definition show_request : Chat.ChatRequest := request "Show me my emails" [].

Definition digest_request : Chat.ChatRequest :=
  request "give me a short digest of a few emails" [].


(** A context of twelve emails, the last of which is Bob's, and an
    index of 4301 digits. *)
Definition twelve_emails : list (gmap string pyval) := replicate 11 alice ++ [bob].

Definition oversized_index : string :=
  string_of_list_ascii (replicate 4301 (ascii_of_nat 49)).

(** The context [alice; bob; carol] of the resolution scenarios. *)
Definition three_emails : list (gmap string pyval) := [alice; bob; carol].

(** A provider that holds nothing, with a classifier that asks to reply
    to email number 5 from "alice". *)
Definition reply_five_parameters : gmap string pyval :=
  <["email_index" := VStr "5"]> (<["sender_email" := VStr "alice"]> ∅).

Definition reply_five_env : Env :=
  scripted (Ok (command "reply" reply_five_parameters))
    no_listing no_message model_echo.

Definition reply_five_request : Chat.ChatRequest := request "answer her" [alice].

(** The classifier names both a sender and a subject keyword; the
    provider has no message from the sender and one on the subject. *)
Definition carol_invoice_parameters : gmap string pyval :=
  <["sender_email" := VStr "carol"]> (<["subject_keyword" := VStr "invoice"]> ∅).

Definition subject_only_listing (q : string) : Exc (list string) :=
  if String.prefix "subject:" q then Ok ["m2"] else Ok [].

Definition invoice_message (message_id : string) : Exc Message :=
  Ok (stored message_id "bob@y.org" "Invoice 42").

Definition carol_invoice_env : Env :=
  scripted (Ok (command "delete" carol_invoice_parameters))
    subject_only_listing invoice_message model_echo.

Definition carol_invoice_request : Chat.ChatRequest :=
  request "get rid of the invoice mail from carol" [alice].

(** A provider that answers every listing with an [HttpError], and a
    classifier that asks to reply to "dave". *)
Definition dave_parameters : gmap string pyval :=
  <["sender_email" := VStr "dave"]> ∅.

Definition failing_listing (q : string) : Exc (list string) :=
  Raised (HttpError "503 Service Unavailable").

Definition provider_down_env : Env :=
  scripted (Ok (command "reply" dave_parameters))
    failing_listing no_message model_echo.

Definition dave_request : Chat.ChatRequest := request "reply to dave" [alice].

End Scenario.

(** ** [utils/session.py]: class [SessionManager]

    The store is the dict [self.sessions]; [datetime.now()] is an input
    of each operation, in microseconds, and the token drawn by
    [secrets.token_urlsafe] is an input of [create_session]. *)

Module SessionStore.
Import Py.

Record Session : Type := {
  user_data : gmap string pyval;
  created_at : Z;
  expires_at : Z
}.

(** [timedelta(hours=24)]. *)
Definition session_expiry : Z := 24 * 3600 * 1000000.

(** The dict literal reads the clock twice: once for [created_at], once
    for [expires_at]. *)
Definition create_session (data : gmap string pyval) (session_token : string)
    (now_created now_expiry : Z) (sessions : gmap string Session)
  : string * gmap string Session :=
  (session_token,
   <[session_token := {| user_data := data;
                         created_at := now_created;
                         expires_at := now_expiry + session_expiry |}]> sessions).

Definition get_session (session_token : string) (now : Z)
    (sessions : gmap string Session) : option Session * gmap string Session :=
  match sessions !! session_token with
  | None => (None, sessions)
  | Some session =>
      if (expires_at session <? now)%Z
      then (None, delete session_token sessions)
      else (Some session, sessions)
  end.

Definition delete_session (session_token : string)
    (sessions : gmap string Session) : gmap string Session :=
  match sessions !! session_token with
  | Some _ => delete session_token sessions
  | None => sessions
  end.

Definition refresh_session (session_token : string) (now : Z)
    (sessions : gmap string Session) : bool * gmap string Session :=
  match sessions !! session_token with
  | Some session =>
      (true,
       <[session_token := {| user_data := user_data session;
                             created_at := created_at session;
                             expires_at := now + session_expiry |}]> sessions)
  | None => (false, sessions)
  end.

End SessionStore.

(** ** [routes/auth.py]: session-backed credentials *)

Module Auth.
Import Py SessionStore.

(** The arguments [Credentials(...)] is built from. *)
Record Credentials : Type := {
  token : pyval;
  refresh_token : pyval;
  token_uri : pyval;
  client_id : pyval;
  client_secret : pyval;
  scopes : pyval
}.

Section GoogleCredentials.
(** The properties [valid] and [expired] of the library's credentials
    object and its method [refresh], which returns the object as it is
    after a successful refresh. *)
Variable valid : Credentials -> bool.
Variable expired : Credentials -> bool.
Variable refresh : Credentials -> Exc Credentials.

(** [session["user_data"]["credentials"]["token"] = new_token], on the
    session object the store holds. *)
Definition store_token (session : Session) (creds_data : gmap string pyval)
    (new_token : pyval) : Session :=
  {| user_data :=
       <["credentials" := VDict (<["token" := new_token]> creds_data)]>
         (user_data session);
     created_at := created_at session;
     expires_at := expires_at session |}.

Definition get_credentials (session_token : string) (now : Z)
    (sessions : gmap string Session) : Exc Credentials * gmap string Session :=
  match get_session session_token now sessions with
  | (None, sessions') =>
      (Raised (HTTPException 401 "Invalid or expired session"), sessions')
  | (Some session, sessions') =>
      let creds_data := dict_get (user_data session) "credentials" VNone in
      if negb (truthy creds_data)
      then (Raised (HTTPException 401 "No credentials found"), sessions')
      else
        match creds_data with
        | VDict d =>
            let credentials :=
              {| token := dict_get d "token" VNone;
                 refresh_token := dict_get d "refresh_token" VNone;
                 token_uri := dict_get d "token_uri" VNone;
                 client_id := dict_get d "client_id" VNone;
                 client_secret := dict_get d "client_secret" VNone;
                 scopes := dict_get d "scopes" VNone |} in
            if negb (valid credentials) then
              if expired credentials && truthy (refresh_token credentials) then
                match refresh credentials with
                | Ok refreshed =>
                    (Ok refreshed,
                     <[session_token := store_token session d (token refreshed)]>
                       sessions')
                | Raised _ =>
                    (Raised (HTTPException 401 "Failed to refresh credentials"),
                     sessions')
                end
              else (Raised (HTTPException 401 "Credentials expired"), sessions')
            else (Ok credentials, sessions')
        | _ => (Raised (no_attribute creds_data "get"), sessions')
        end
  end.

End GoogleCredentials.

(** The route [GET /me]. *)
Definition get_current_user (session_token : string) (now : Z)
    (sessions : gmap string Session)
  : Exc (gmap string pyval) * gmap string Session :=
  match get_session session_token now sessions with
  | (None, sessions') =>
      (Raised (HTTPException 401 "Invalid or expired session"), sessions')
  | (Some session, sessions') =>
      (Ok (<["email" := dict_get (user_data session) "email" VNone]>
          (<["name" := dict_get (user_data session) "name" VNone]>
          (<["picture" := dict_get (user_data session) "picture" VNone]> ∅))),
       sessions')
  end.

(** The route [POST /logout]. *)
Definition logout (session_token : string) (sessions : gmap string Session)
  : gmap string pyval * gmap string Session :=
  (<["message" := VStr "Logged out successfully"]> ∅,
   delete_session session_token sessions).

End Auth.

(** ** [utils/ai.py]: [AIService.__init__] *)

Module AIConfig.
Import Py.

(** The client the constructor builds: [base_url] is [None] for the
    default endpoint. *)
Record Client : Type := {
  api_key : string;
  base_url : option string;
  model : string
}.

(** [os.getenv(a) or os.getenv(b)]. *)
Definition getenv_or (environ : gmap string string) (a b : string) : option string :=
  match environ !! a with
  | Some v => if String.eqb v "" then environ !! b else Some v
  | None => environ !! b
  end.

(** [if value:] on the result of [os.getenv]. *)
Definition is_set (value : option string) : bool :=
  match value with
  | Some v => negb (String.eqb v "")
  | None => false
  end.

Definition init (environ : gmap string string) : Exc Client :=
  let api_key := getenv_or environ "GROQ_API_KEY" "OPENAI_API_KEY" in
  if negb (is_set api_key)
  then Raised (ValueError
                 "GROQ_API_KEY or OPENAI_API_KEY environment variable is required")
  else
    if is_set (environ !! "GROQ_API_KEY")
    then Ok {| api_key := default "" api_key;
               base_url := Some "https://api.groq.com/openai/v1";
               model := "llama-3.1-8b-instant" |}
    else Ok {| api_key := default "" api_key;
               base_url := None;
               model := "gpt-4o-mini" |}.

End AIConfig.

(** ** [routes/email.py] *)

Module EmailRoutes.
Import Py.

Definition scopes_detail : string :=
  "Google rejected the request because the Gmail API scopes were not granted. Make sure the Gmail API is enabled in your Google Cloud project, then remove the app from https://myaccount.google.com/permissions and sign in again so the app can request full Gmail access (including the https://mail.google.com/ scope).".

Section Routes.
Variable env : Env.

(** The summary block shared by the routes: [get_ai_service()] is
    called under the [try], so a client that cannot be built is one more
    failure the handler swallows. *)
Definition add_summary (email : gmap string pyval) : M (gmap string pyval) :=
  try_except
    (lift (get_ai_service env) ;;;
     body <- lift (getitem email "body") ;;
     subject <- lift (getitem email "subject") ;;
     sender_name <- lift (getitem email "sender_name") ;;
     summary <- AI.generate_summary env body subject sender_name ;;
     ret (<["ai_summary" := VStr summary]> email))
    (fun _ => ret (<["ai_summary" := VStr "Unable to generate summary."]> email)).

(** The route [GET /recent]; [max_results] is the count the listing is
    asked for. *)
Definition get_recent_emails (token : string) (max_results : nat)
  : M (gmap string pyval) :=
  Chat.http_boundary
    (lift (get_credentials env token) ;;;
     emails <- Gmail.get_recent_emails env max_results ;;
     emails_with_summaries <-
       for_each emails
         (fun done email => email' <- add_summary email ;; ret (done ++ [email']))
         [] ;;
     ret (<["emails" := VList (VDict <$> emails_with_summaries)]> ∅)).

(** The body shared by [find_email_by_sender] and
    [find_email_by_subject] once the lookup and the 404 text are given. *)
Definition find_route (token : string)
    (lookup : M (option (gmap string pyval))) (not_found : string)
  : M (gmap string pyval) :=
  Chat.http_boundary
    (lift (get_credentials env token) ;;;
     email <- lookup ;;
     match email with
     | Some found_email =>
         if truthy (VDict found_email) then
           email' <- add_summary found_email ;;
           ret (<["email" := VDict email']> ∅)
         else raise (HTTPException 404 not_found)
     | None => raise (HTTPException 404 not_found)
     end).

Definition find_email_by_sender (sender_email token : string)
  : M (gmap string pyval) :=
  find_route token (Gmail.find_email_by_sender env (VStr sender_email))
    "No email found from this sender".

Definition find_email_by_subject (subject_keyword token : string)
  : M (gmap string pyval) :=
  find_route token (Gmail.find_email_by_subject env (VStr subject_keyword))
    "No email found with this subject keyword".

(** [for email in emails: if email['id'] == email_id: target_email =
    email; break]. *)
Fixpoint first_with_id (email_id : string) (emails : list (gmap string pyval))
  : Exc (option (gmap string pyval)) :=
  match emails with
  | [] => Ok None
  | email :: rest =>
      exc_bind (getitem email "id") (fun id =>
        if eq_str id email_id then Ok (Some email)
        else first_with_id email_id rest)
  end.

(** The route [POST /generate-reply]. *)
Definition generate_reply (email_id token : string) (user_context : pyval)
  : M (gmap string pyval) :=
  Chat.http_boundary
    (lift (get_credentials env token) ;;;
     emails <- Gmail.get_recent_emails env 50 ;;
     target_email <- lift (first_with_id email_id emails) ;;
     match target_email with
     | Some target =>
         if truthy (VDict target) then
           lift (get_ai_service env) ;;;
           reply <- AI.generate_reply env target user_context ;;
           id <- lift (getitem target "id") ;;
           sender_email <- lift (getitem target "sender_email") ;;
           subject <- lift (getitem target "subject") ;;
           ret (<["reply" := VStr reply]>
               (<["original_email" := VDict
                    (<["id" := id]>
                    (<["sender_email" := sender_email]>
                    (<["subject" := subject]>
                    (<["thread_id" := dict_get target "thread_id" VNone]> ∅))))]>
                ∅))
         else raise (HTTPException 404 "Email not found")
     | None => raise (HTTPException 404 "Email not found")
     end).

(** The attributes [e.resp.status] and [e._get_reason()] of an
    [HttpError], read off the value that stands for the exception. *)
Variable resp_status : string -> nat.
Variable _get_reason : string -> string.

(** The three handlers at the end of the route [POST /delete]. *)
Definition delete_error (e : exn) : exn :=
  match e with
  | HTTPException _ _ => e
  | HttpError msg =>
      if resp_status msg =? 403
      then HTTPException 403 scopes_detail
      else HTTPException (resp_status msg) (_get_reason msg)
  | _ => HTTPException 500 (exn_str e)
  end.

Definition delete_email (message_id token : string) : M (gmap string pyval) :=
  try_except
    (lift (get_credentials env token) ;;;
     success <- Gmail.delete_email env message_id ;;
     ret (<["success" := VBool success]>
         (<["message" :=
              VStr (if success then "Email deleted successfully"
                    else "Failed to delete email")]> ∅)))
    (fun e => raise (delete_error e)).

End Routes.
End EmailRoutes.

(** ** [routes/chat.py]: the route [GET /greeting] *)

Module Greeting.
Import Py SessionStore.




End Greeting.

(** ** Sessions and messages for the worked cases *)

Module Cases.
Import Py GmailAPI SessionStore.

Definition stored_credentials : gmap string pyval :=
  <["token" := VStr "ya29.old"]> (<["refresh_token" := VStr "1//refresh"]> ∅).

Definition ada_data : gmap string pyval :=
  <["email" := VStr "ada@x.com"]>
  (<["name" := VStr "Ada"]>
  (<["credentials" := VDict stored_credentials]> ∅)).

Definition ada_session : Session :=
  {| user_data := ada_data; created_at := 1000; expires_at := 1000 + session_expiry |}.

Definition one_session : gmap string Session := <["tok-ada" := ada_session]> ∅.

(** Credentials that are never valid, count as expired, and refresh to
    a new token. *)
Definition never_valid (c : Auth.Credentials) : bool := false.

Definition always_expired (c : Auth.Credentials) : bool := true.

Definition refresh_to_new (c : Auth.Credentials) : Exc Auth.Credentials :=
  Ok {| Auth.token := VStr "ya29.new";
        Auth.refresh_token := Auth.refresh_token c;
        Auth.token_uri := Auth.token_uri c;
        Auth.client_id := Auth.client_id c;
        Auth.client_secret := Auth.client_secret c;
        Auth.scopes := Auth.scopes c |}.

(** A listing of three ids of which the second cannot be fetched. *)
Definition gap_listing (q : string) : Exc (list string) := Ok ["a"; "b"; "c"].

Definition gap_message (message_id : string) : Exc Message :=
  if String.eqb message_id "b" then Raised (HttpError "404 Not Found")
  else Ok (Scenario.stored message_id (message_id +:+ "@x.com") "Hi").

Definition gap_env : Env :=
  Scenario.scripted (Raised (ValueError "Expecting value"))
    gap_listing gap_message Scenario.model_echo.

(** Classifier answers with a null "parameters" and with a numeric
    "email_index". *)
Definition null_parameters_answer : gmap string pyval :=
  <["intent" := VStr "reply"]> (<["parameters" := VNone]> ∅).

Definition null_parameters_env : Env :=
  Scenario.scripted (Ok (VDict null_parameters_answer))
    Scenario.no_listing Scenario.no_message Scenario.model_echo.

Definition numeric_index_parameters : gmap string pyval :=
  <["email_index" := VInt 2]> ∅.

Definition numeric_index_env : Env :=
  Scenario.scripted (Ok (Scenario.command "delete" numeric_index_parameters))
    Scenario.no_listing Scenario.no_message Scenario.model_echo.

Definition second_request : Chat.ChatRequest :=
  Scenario.request "the second one please" [Scenario.alice; Scenario.bob].

(** A provider whose listing fails. *)
Definition listing_down_env : Env :=
  Scenario.scripted (Raised (ValueError "Expecting value"))
    Scenario.failing_listing Scenario.no_message Scenario.model_echo.

(** A classifier that asks to reply to email number 1. *)
Definition reply_first_parameters : gmap string pyval :=
  <["email_index" := VStr "1"]> (<["action_details" := VStr "say yes"]> ∅).

Definition reply_first_env : Env :=
  Scenario.scripted (Ok (Scenario.command "reply" reply_first_parameters))
    Scenario.no_listing Scenario.no_message Scenario.model_down.

(** The status and the reason of an [HttpError], read off its text. *)
Definition status_of (msg : string) : nat :=
  if String.prefix "403" msg then 403
  else if String.prefix "404" msg then 404 else 503.

Definition reason_of (msg : string) : string := msg.

(** A provider with Bob's invoice under every id, and no model client. *)
Definition no_client_env : Env :=
  {| messages_list := fun _ _ _ => Ok ["m2"];
     messages_get := fun _ message_id =>
       Ok (Scenario.stored message_id "bob@y.org" "Invoice 42");
     messages_delete := fun _ _ => Ok tt;
     chat_completions_create := fun _ _ => Ok (Some "unused");
     json_loads := fun _ => Raised (ValueError "Expecting value");
     parseaddr := fun from_header => ("", from_header);
     urlsafe_b64decode := fun data => Ok data;
     re_sub_tags := fun body => body;
     py_repr := fun _ => "<object>";
     get_credentials := fun _ => Ok tt;
     get_ai_service :=
       Raised (ValueError
                 "GROQ_API_KEY or OPENAI_API_KEY environment variable is required") |}.

Definition only_openai : gmap string string :=
  <["GROQ_API_KEY" := ""]> (<["OPENAI_API_KEY" := "sk-test"]> ∅).

(** A message of three parts: an image, a plain text and a page. *)
Definition mixed_payload : MessagePayload :=
  {| headers := None;
     parts := Some [ {| mimeType := Some "image/png"; part_body_data := Some "iVBOR" |};
                     {| mimeType := Some "text/plain"; part_body_data := Some " hi " |};
                     {| mimeType := Some "text/html";
                        part_body_data := Some "<p>hi</p>" |} ];
     body_data := Some "unused" |}.

(** A provider that refuses every delete, and a resolver that knows no
    session. *)
Definition forbidden_env : Env :=
  {| messages_list := fun _ _ _ => Ok [];
     messages_get := fun _ _ => Raised (HttpError "404 Not Found");
     messages_delete := fun _ _ => Raised (HttpError "403 Forbidden");
     chat_completions_create := fun _ _ => Ok (Some "unused");
     json_loads := fun _ => Raised (ValueError "Expecting value");
     parseaddr := fun from_header => ("", from_header);
     urlsafe_b64decode := fun data => Ok data;
     re_sub_tags := fun body => body;
     py_repr := fun _ => "<object>";
     get_credentials := fun _ => Ok tt;
     get_ai_service := Ok tt |}.

Definition no_session_env : Env :=
  {| messages_list := fun _ _ _ => Ok [];
     messages_get := fun _ _ => Raised (HttpError "404 Not Found");
     messages_delete := fun _ _ => Ok tt;
     chat_completions_create := fun _ _ => Ok (Some "unused");
     json_loads := fun _ => Raised (ValueError "Expecting value");
     parseaddr := fun from_header => ("", from_header);
     urlsafe_b64decode := fun data => Ok data;
     re_sub_tags := fun body => body;
     py_repr := fun _ => "<object>";
     get_credentials := fun _ =>
       Raised (HTTPException 401 "Invalid or expired session");
     get_ai_service := Ok tt |}.

End Cases.

(** ** Notions for the further properties

    As in [Contract]: none of these is used by the program. *)

Module Behaviour.
Import Py GmailAPI.

(** The messages of a listing that a fetch returns, parsed, in listing
    order; [h] is the history before the first fetch. *)
Fixpoint kept (env : Env) (h : trace) (ids : list string)
  : list (gmap string pyval) :=
  match ids with
  | [] => []
  | msg_id :: rest =>
      match messages_get env h msg_id with
      | Ok message => [Gmail._parse_message env message]
      | Raised _ => []
      end ++ kept env (h ++ [MessagesGet msg_id]) rest
  end.

(** The value of the last header called [name]. *)
Fixpoint last_header (name : string) (hs : list (string * string)) : option string :=
  match hs with
  | [] => None
  | (n, v) :: rest =>
      match last_header name rest with
      | Some later => Some later
      | None => if String.eqb n name then Some v else None
      end
  end.

(** The text a message part contributes, when it contributes one: a
    part of type text/plain or text/html with data that decodes. *)
Definition usable (env : Env) (part : MessagePart) : option string :=
  let mime_type := default "" (mimeType part) in
  if PyText.contains "text/plain" mime_type || PyText.contains "text/html" mime_type
  then
    match part_body_data part with
    | Some data =>
        if String.eqb data "" then None
        else
          match urlsafe_b64decode env data with
          | Ok body =>
              Some (if PyText.contains "html" mime_type
                    then re_sub_tags env body else body)
          | Raised _ => None
          end
    | None => None
    end
  else None.

(** The field [key] of [email], read with [email.get(key, '')], is a
    string that does or does not contain [needle], both lower-cased. *)
Definition field_matches (key needle : string) (email : gmap string pyval) : Prop :=
  ∃ field, dict_get email key (VStr "") = VStr field
           ∧ PyText.contains (PyText.lower needle) (PyText.lower field) = true.

Definition field_misses (key needle : string) (email : gmap string pyval) : Prop :=
  ∃ field, dict_get email key (VStr "") = VStr field
           ∧ PyText.contains (PyText.lower needle) (PyText.lower field) = false.

(** The batch size a fetching branch asks for. *)
Definition batch_size (b : Contract.branch) (user_message : string) : nat :=
  match b with
  | Contract.ReadBranch => Chat.read_max_results user_message
  | _ => 20
  end.

(** [email['id'] == email_id] on an email that has its id. *)
Definition has_id (email_id : string) (email : gmap string pyval) : bool :=
  eq_str (dict_get email "id" VNone) email_id.

(** Every value a computation returns, from any history, satisfies [P]. *)
Definition returns {A} (P : A → Prop) (m : M A) : Prop :=
  ∀ h a, (m h).1 = Ok a → P a.

(** The actions an envelope can carry. *)
Definition actions : list string :=
  ["display_emails"; "display_reply"; "confirm_delete"; "display_digest";
   "error"; "info"].

(** An envelope that echoes the classifier's intent and confidence,
    carries one of the six actions, and has a payload exactly when the
    action is neither "error" nor "info". *)
Definition envelope_ok (intent confidence : pyval) (r : Chat.ResponseEnvelope)
  : Prop :=
  Chat.intent r = intent
  ∧ Chat.confidence r = confidence
  ∧ ∃ a, Chat.action r = Some a
         ∧ In a actions
         ∧ (Chat.data r = None ↔ a = "error" ∨ a = "info").

End Behaviour.

(** * Properties *)

(** ** Whole-word matching *)

Section WordSearch.
Import PyText.

Lemma append_empty_l (s : string) : EmptyString +:+ s = s.
Proof. reflexivity. Qed.

Lemma append_String (c : ascii) (a b : string) :
  String c a +:+ b = String c (a +:+ b).
Proof. reflexivity. Qed.

Lemma strip_prefix_spec (kw s rest : string) :
  strip_prefix kw s = Some rest ↔ s = kw +:+ rest.
Proof.
  revert s. induction kw as [|a kw IH]; intros s.
  - rewrite append_empty_l. simpl.
    split; [intros [= ->]; reflexivity | intros ->; reflexivity].
  - rewrite append_String. destruct s as [|b s]; simpl; [split; discriminate|].
    destruct (Ascii.eqb a b) eqn:Hab.
    + apply Ascii.eqb_eq in Hab as ->. rewrite IH.
      split; [intros ->; reflexivity | intros [= ->]; reflexivity].
    + apply Ascii.eqb_neq in Hab.
      split; [discriminate | intros [= <- _]; contradiction].
Qed.

Lemma last_char_app (prev : option ascii) (a b : string) :
  last_char prev (a +:+ b) = last_char (last_char prev a) b.
Proof.
  revert prev. induction a as [|c a IH]; intros prev.
  - reflexivity.
  - rewrite append_String. simpl. apply IH.
Qed.

Lemma last_char_nonempty (prev prev' : option ascii) (s : string) :
  s ≠ EmptyString → last_char prev s = last_char prev' s.
Proof. destruct s; [contradiction | reflexivity]. Qed.

Lemma first_char_app (a b : string) :
  a ≠ EmptyString → first_char (a +:+ b) = first_char a.
Proof. destruct a; [contradiction | reflexivity]. Qed.

Lemma match_at_spec (kw : string) (prev : option ascii) (s : string) :
  match_at kw prev s = true ↔
  ∃ after : string,
    s = kw +:+ after
    ∧ word_boundary prev (first_char (kw +:+ after)) = true
    ∧ word_boundary (last_char prev kw) (first_char after) = true.
Proof.
  unfold match_at. rewrite andb_true_iff. split.
  - intros [Hb Hm].
    destruct (strip_prefix kw s) as [rest|] eqn:Hp; [|discriminate].
    apply strip_prefix_spec in Hp. subst s. exists rest. auto.
  - intros (after & -> & Hb & He).
    assert (Hp : strip_prefix kw (kw +:+ after) = Some after)
      by (apply strip_prefix_spec; reflexivity).
    rewrite Hp. auto.
Qed.

(** The search succeeds exactly when the keyword occurs somewhere with
    a boundary on both sides. *)
Lemma search_from_spec (kw : string) (prev : option ascii) (s : string) :
  search_from kw prev s = true ↔
  ∃ before after : string,
    s = before +:+ kw +:+ after
    ∧ word_boundary (last_char prev before) (first_char (kw +:+ after)) = true
    ∧ word_boundary (last_char prev (before +:+ kw)) (first_char after) = true.
Proof.
  revert prev. induction s as [|c s IH]; intros prev.
  - cbn [search_from]. rewrite orb_false_r, match_at_spec. split.
    + intros (after & Hs & Hb & He). exists EmptyString, after.
      rewrite !append_empty_l. auto.
    + intros (before & after & Hs & Hb & He).
      destruct before as [|b before]; [|discriminate].
      rewrite !append_empty_l in *. exists after. auto.
  - cbn [search_from]. rewrite orb_true_iff, IH, match_at_spec. split.
    + intros [(after & Hs & Hb & He) | (before & after & Hs & Hb & He)].
      * exists EmptyString, after. rewrite !append_empty_l. auto.
      * exists (String c before), after.
        rewrite !append_String, Hs. auto.
    + intros (before & after & Hs & Hb & He).
      destruct before as [|b before].
      * left. rewrite !append_empty_l in *. exists after. auto.
      * right. rewrite !append_String in *. injection Hs as -> ->.
        exists before, after. auto.
Qed.

Lemma keyword_shape_nonempty (kw : string) :
  Contract.keyword_shape kw → kw ≠ EmptyString.
Proof. intros [H _] ->. discriminate. Qed.

(** For a keyword that starts and ends with a word character the
    pattern finds exactly the whole-word occurrences. *)
Lemma re_search_word_whole_word (kw text : string) :
  Contract.keyword_shape kw →
  re_search_word kw text = true ↔ Contract.whole_word kw text.
Proof.
  intros Hshape. pose proof (keyword_shape_nonempty kw Hshape) as Hne.
  destruct Hshape as [Hfirst Hlast].
  unfold re_search_word, Contract.whole_word. rewrite search_from_spec.
  split; intros (before & after & Hs & Hb & He); exists before, after;
    (split; [exact Hs|]).
  - rewrite first_char_app in Hb by exact Hne.
    rewrite last_char_app in He.
    rewrite (last_char_nonempty _ None kw Hne) in He.
    unfold word_boundary in Hb, He. rewrite Hfirst in Hb. rewrite Hlast in He.
    split; [destruct (is_word_opt (last_char None before)) |
            destruct (is_word_opt (first_char after))]; auto.
  - rewrite first_char_app by exact Hne.
    rewrite last_char_app, (last_char_nonempty _ None kw Hne).
    unfold word_boundary. rewrite Hfirst, Hlast, Hb, He. auto.
Qed.

Lemma has_keyword_whole_word (text : string) (keywords : list string) :
  Forall Contract.keyword_shape keywords →
  Chat._has_keyword text keywords = true ↔
  ∃ kw, In kw keywords ∧ Contract.whole_word kw text.
Proof.
  intros Hall. unfold Chat._has_keyword. rewrite existsb_exists.
  split; intros (kw & Hin & H); exists kw; (split; [exact Hin|]);
    apply re_search_word_whole_word; auto;
    rewrite Forall_forall in Hall; apply Hall; apply list_elem_of_In; exact Hin.
Qed.

Lemma branch_keywords_shape (b : Contract.branch) :
  Forall Contract.keyword_shape (Contract.branch_keywords b).
Proof.
  destruct b; repeat constructor.
Qed.

End WordSearch.

(** ** Running computations *)

Section Runs.
Import Py.

Lemma bind_run {A B} (m : M A) (f : A → M B) (h : trace) :
  bind m f h =
  match m h with
  | (Ok a, c) => ((f a (h ++ c)).1, c ++ (f a (h ++ c)).2)
  | (Raised e, c) => (Raised e, c)
  end.
Proof.
  unfold bind. destruct (m h) as [[a|e] c]; [|reflexivity].
  destruct (f a (h ++ c)); reflexivity.
Qed.

Lemma bind_lift_ok {A B} (a : A) (f : A → M B) (h : trace) :
  bind (lift (Ok a)) f h = f a h.
Proof.
  unfold bind, lift. rewrite app_nil_r. destruct (f a h); reflexivity.
Qed.

Lemma bind_lift_raised {A B} (e : exn) (f : A → M B) (h : trace) :
  bind (lift (Raised e)) f h = (Raised e, []).
Proof. reflexivity. Qed.

Lemma bind_ret {A B} (a : A) (f : A → M B) (h : trace) :
  bind (ret a) f h = f a h.
Proof. apply bind_lift_ok. Qed.

Lemma bind_ok {A B} (m : M A) (f : A → M B) (h : trace) (a : A) (c : trace) :
  m h = (Ok a, c) →
  bind m f h = ((f a (h ++ c)).1, c ++ (f a (h ++ c)).2).
Proof. intros H. rewrite bind_run, H. reflexivity. Qed.

Lemma bind_raised {A B} (m : M A) (f : A → M B) (h : trace) (e : exn) (c : trace) :
  m h = (Raised e, c) → bind m f h = (Raised e, c).
Proof. intros H. rewrite bind_run, H. reflexivity. Qed.

Lemma try_except_run {A} (m : M A) (handler : exn → M A) (h : trace) :
  try_except m handler h =
  match m h with
  | (Ok a, c) => (Ok a, c)
  | (Raised e, c) => ((handler e (h ++ c)).1, c ++ (handler e (h ++ c)).2)
  end.
Proof.
  unfold try_except. destruct (m h) as [[a|e] c]; [reflexivity|].
  destruct (handler e (h ++ c)); reflexivity.
Qed.

Lemma http_boundary_run {A} (m : M A) (h : trace) :
  Chat.http_boundary m h = (Contract.at_boundary (m h).1, (m h).2).
Proof.
  unfold Chat.http_boundary. rewrite try_except_run.
  destruct (m h) as [[a|e] c]; simpl; [reflexivity|].
  rewrite app_nil_r. reflexivity.
Qed.

Variable env : Env.

(** Past the classifier the route is the chain of branches, run after
    the classifier's calls. *)
Lemma process_chat_message_classified (request : Chat.ChatRequest)
    (token : string) (h : trace) (command_result : gmap string pyval)
    (c0 : trace) :
  Contract.classified env request token h command_result c0 →
  Chat.process_chat_message env request token h =
  let r := Chat.handle_intents env
             (Contract.intent_of command_result)
             (Contract.confidence_of command_result)
             (Contract.parameters_of command_result)
             (Contract.user_text request) (Contract.context_of request)
             (h ++ c0) in
  (Contract.at_boundary r.1, c0 ++ r.2).
Proof.
  intros (Hcred & Hai & Hcls).
  unfold Chat.process_chat_message. rewrite http_boundary_run.
  rewrite Hcred, bind_lift_ok, Hai, bind_lift_ok.
  fold (Contract.context_of request).
  rewrite (bind_ok _ _ _ _ _ Hcls). reflexivity.
Qed.

(** The chain of conditions takes the first branch, in priority order,
    whose condition holds. *)
Lemma handle_intents_first_match (intent confidence parameters : pyval)
    (user_message : string) (email_context : list (gmap string pyval)) :
  Chat.handle_intents env intent confidence parameters user_message email_context
  = Contract.run_branch env
      (Contract.first_matching_branch intent user_message)
      intent confidence parameters user_message email_context.
Proof.
  unfold Chat.handle_intents, Contract.first_matching_branch,
    Contract.priority_order, Contract.branch_condition. cbn [List.find].
  cbn [Contract.branch_intent Contract.branch_keywords].
  repeat match goal with
         | |- context [if ?b then _ else _] => destruct b
         end; reflexivity.
Qed.

End Runs.

(** ** The intent classifier *)

Section Classifier.
Import Py.
Variable env : Env.

Lemma unknown_command_fields (e : exn) :
  Contract.unknown_result (AI.unknown_command e) (exn_str e).
Proof. repeat split. Qed.

(** The classifier makes one call and then either returns the parsed
    object or the failure answer built from the exception. *)
Lemma process_natural_language_command_run (command : string)
    (email_context : list (gmap string pyval)) (h : trace) :
  let request := CommandRequest command (take 5 email_context) in
  AI.process_natural_language_command env command email_context h =
  (Ok match chat_completions_create env h request with
      | Raised e => AI.unknown_command e
      | Ok None =>
          AI.unknown_command
            (ValueError "No content returned from AI when processing command")
      | Ok (Some text) =>
          match json_loads env text with
          | Raised e => AI.unknown_command e
          | Ok (VDict d) => d
          | Ok v => AI.unknown_command (no_attribute v "get")
          end
      end,
   [ChatCompletion request]).
Proof.
  intros request. unfold AI.process_natural_language_command.
  rewrite try_except_run, bind_run. unfold AI.complete, perform. fold request.
  destruct (chat_completions_create env h request) as [[text|]|e]; simpl;
    try reflexivity.
  rewrite bind_run. unfold lift.
  destruct (json_loads env text) as [v|e]; simpl; [|reflexivity].
  destruct v; reflexivity.
Qed.

End Classifier.

(** C3. The intent classifier never raises: from every history and for
    every behaviour of the model client and of the JSON parser it returns
    a result, having made its one completion call.  When the call fails
    (transport error), when the response carries no content, when the
    content does not parse, or when it parses to something that is not an
    object, the result has intent "unknown", parameters {}, confidence
    "low" and an error description. *)
Theorem classifier_never_raises (env : Env) (command : string)
    (email_context : list (gmap string Py.pyval)) (h : Py.trace) :
  let request := Py.CommandRequest command (take 5 email_context) in
  let answer := chat_completions_create env h request in
  ∃ result : gmap string Py.pyval,
    AI.process_natural_language_command env command email_context h
      = (Py.Ok result, [Py.ChatCompletion request])
    ∧ (∀ e, answer = Py.Raised e → Contract.unknown_result result (Py.exn_str e))
    ∧ (answer = Py.Ok None →
       Contract.unknown_result result
         "No content returned from AI when processing command")
    ∧ (∀ text e, answer = Py.Ok (Some text) → json_loads env text = Py.Raised e →
       Contract.unknown_result result (Py.exn_str e))
    ∧ (∀ text v, answer = Py.Ok (Some text) → json_loads env text = Py.Ok v →
       (∀ d, v ≠ Py.VDict d) →
       ∃ description, Contract.unknown_result result description).
Proof.
  intros request answer. eexists. split.
  - apply process_natural_language_command_run.
  - fold request. fold answer. split; [|split; [|split]].
    + intros e ->. apply unknown_command_fields.
    + intros ->.
      apply (unknown_command_fields
               (Py.ValueError "No content returned from AI when processing command")).
    + intros text e -> ->. apply unknown_command_fields.
    + intros text v -> -> Hv. eexists.
      destruct v; try apply unknown_command_fields.
      exfalso. eapply Hv. reflexivity.
Qed.

Lemma classifier_never_raises_witness :
  ∃ result : gmap string Py.pyval,
    AI.process_natural_language_command Scenario.hello_env "  Hello there!  " [] []
    = (Py.Ok result, Scenario.classifier_call "  Hello there!  " [])
    ∧ Contract.unknown_result result "Expecting value".
Proof.
  destruct (classifier_never_raises Scenario.hello_env "  Hello there!  " [] [])
    as (result & Hrun & _ & _ & Hparse & _).
  exists result. split; [exact Hrun|].
  apply (Hparse "{}" (Py.ValueError "Expecting value")); reflexivity.
Defined.

(** ** The mailbox wrapper *)

Section GmailFacts.
Import Py.
Variable env : Env.

(** What a search primitive does, case by case on the provider's
    answers. *)
Lemma find_first_run (q : string) (h : trace) :
  Gmail.find_first env q h =
  match messages_list env h 1 q with
  | Raised (HttpError _) => (Ok None, [MessagesList 1 q])
  | Raised e => (Raised e, [MessagesList 1 q])
  | Ok [] => (Ok None, [MessagesList 1 q])
  | Ok (first :: _) =>
      match messages_get env (h ++ [MessagesList 1 q]) first with
      | Ok message =>
          (Ok (Some (Gmail._parse_message env message)),
           [MessagesList 1 q; MessagesGet first])
      | Raised (HttpError _) => (Ok None, [MessagesList 1 q; MessagesGet first])
      | Raised e => (Raised e, [MessagesList 1 q; MessagesGet first])
      end
  end.
Proof.
  unfold Gmail.find_first, try_except_HttpError.
  rewrite try_except_run, bind_run.
  unfold Gmail.list_messages, perform.
  destruct (messages_list env h 1 q) as [[|first others]|e]; simpl.
  - reflexivity.
  - rewrite bind_run. unfold Gmail.get_message, perform.
    destruct (messages_get env (h ++ [MessagesList 1 q]) first) as [m|e]; simpl;
      [reflexivity|].
    destruct e; reflexivity.
  - destruct e; reflexivity.
Qed.

Lemma find_first_calls (q : string) (h : trace) :
  (Gmail.find_first env q h).2 = Contract.lookup_calls env q h.
Proof.
  rewrite find_first_run. unfold Contract.lookup_calls.
  destruct (messages_list env h 1 q) as [[|first others]|e]; simpl.
  - reflexivity.
  - destruct (messages_get env (h ++ [MessagesList 1 q]) first) as [m|e];
      [reflexivity|destruct e; reflexivity].
  - destruct e; reflexivity.
Qed.

Lemma find_first_http_error (q : string) (h : trace) :
  Contract.http_error_in_lookup env q h →
  Gmail.find_first env q h = (Ok None, Contract.lookup_calls env q h).
Proof.
  intros Herr. rewrite <- find_first_calls. rewrite find_first_run.
  destruct Herr as [[msg Hl] | (first & others & msg & Hl & Hg)].
  - rewrite Hl. reflexivity.
  - rewrite Hl, Hg. reflexivity.
Qed.

Lemma find_first_parsed (q : string) (h : trace)
    (target : gmap string pyval) (c : trace) :
  Gmail.find_first env q h = (Ok (Some target), c) →
  ∃ message, target = Gmail._parse_message env message.
Proof.
  rewrite find_first_run.
  destruct (messages_list env h 1 q) as [[|first others]|e].
  - discriminate.
  - destruct (messages_get env (h ++ [MessagesList 1 q]) first) as [m|e].
    + intros [= <- _]. eauto.
    + destruct e; discriminate.
  - destruct e; discriminate.
Qed.

Lemma parse_message_fields (message : GmailAPI.Message) :
  ∃ sender_name sender_email subject body : string,
    let email := Gmail._parse_message env message in
    email !! "id" = Some (VStr (GmailAPI.id message))
    ∧ email !! "sender_name" = Some (VStr sender_name)
    ∧ email !! "sender_email" = Some (VStr sender_email)
    ∧ email !! "subject" = Some (VStr subject)
    ∧ email !! "body" = Some (VStr body).
Proof.
  unfold Gmail._parse_message.
  destruct (parseaddr env _) as [sender_name sender_email].
  do 4 eexists. cbv zeta. repeat split; by simplify_map_eq.
Qed.

Lemma parse_message_identifiable (message : GmailAPI.Message) :
  Contract.identifiable (Gmail._parse_message env message).
Proof.
  destruct (parse_message_fields message)
    as (sn & se & subj & body & Hid & Hsn & Hse & Hsubj & _).
  cbv zeta in *. unfold Contract.identifiable.
  rewrite Hid, Hsn, Hse, Hsubj. eauto.
Qed.

Lemma parse_message_found (message : GmailAPI.Message) :
  Chat.found (Some (Gmail._parse_message env message)) = true.
Proof.
  destruct (parse_message_fields message) as (sn & se & subj & body & Hid & _).
  cbv zeta in Hid. unfold Chat.found, truthy.
  destruct (size (Gmail._parse_message env message)) eqn:Hsize; [|reflexivity].
  apply map_size_empty_iff in Hsize. rewrite Hsize in Hid.
  rewrite lookup_empty in Hid. discriminate.
Qed.

End GmailFacts.

(** ** Which calls a computation can make *)

Section CallDiscipline.
Import Py.
Variable P : call → Prop.

Lemma only_calls_lift {A} (r : Exc A) : Contract.only_calls P (lift r).
Proof. intros h. constructor. Qed.

Lemma only_calls_ret {A} (a : A) : Contract.only_calls P (ret a).
Proof. intros h. constructor. Qed.

Lemma only_calls_raise {A} (e : exn) : Contract.only_calls P (@raise A e).
Proof. intros h. constructor. Qed.

Lemma only_calls_perform {R} (c : call) (answer : trace → Exc R) :
  P c → Contract.only_calls P (perform c answer).
Proof. intros Hc h. simpl. repeat constructor. exact Hc. Qed.

Lemma only_calls_bind {A B} (m : M A) (f : A → M B) :
  Contract.only_calls P m → (∀ a, Contract.only_calls P (f a)) →
  Contract.only_calls P (bind m f).
Proof.
  intros Hm Hf h. rewrite bind_run. specialize (Hm h).
  destruct (m h) as [[a|e] c]; simpl in *; [|exact Hm].
  apply Forall_app. split; [exact Hm | apply Hf].
Qed.

Lemma only_calls_try_except {A} (m : M A) (handler : exn → M A) :
  Contract.only_calls P m → (∀ e, Contract.only_calls P (handler e)) →
  Contract.only_calls P (try_except m handler).
Proof.
  intros Hm Hh h. rewrite try_except_run. specialize (Hm h).
  destruct (m h) as [[a|e] c]; simpl in *; [exact Hm|].
  apply Forall_app. split; [exact Hm | apply Hh].
Qed.

Lemma only_calls_for_each {A S} (l : list A) (body : S → A → M S) (s : S) :
  (∀ s x, Contract.only_calls P (body s x)) →
  Contract.only_calls P (for_each l body s).
Proof.
  intros Hbody. revert s. induction l as [|x l IH]; intros s; simpl.
  - apply only_calls_ret.
  - apply only_calls_bind; [apply Hbody | exact IH].
Qed.

End CallDiscipline.

(** A step of the proof search below: enter a bind or a handler, or
    split on the data a branch of the program inspects. *)
Ltac only_calls_step :=
  match goal with
  | |- Contract.only_calls _ (Py.bind _ _) => apply only_calls_bind; [|intros ?]
  | |- Contract.only_calls _ (Py.try_except _ _) =>
      apply only_calls_try_except; [|intros ?]
  | |- Contract.only_calls _ (Py.try_except_HttpError _ _) =>
      unfold Py.try_except_HttpError
  | |- Contract.only_calls _ (Py.for_each _ _ _) =>
      apply only_calls_for_each; intros ? ?
  | |- Contract.only_calls _ (Py.perform _ _) =>
      apply only_calls_perform; reflexivity
  | |- Contract.only_calls _ (Py.lift _) => apply only_calls_lift
  | |- Contract.only_calls _ (Py.ret _) => apply only_calls_ret
  | |- Contract.only_calls _ (Py.raise _) => apply only_calls_raise
  | |- Contract.only_calls _ (match ?x with _ => _ end) => destruct x
  | |- Contract.only_calls _ (if ?b then _ else _) => destruct b
  end.

Section NoDelete.
Import Py.
Variable env : Env.

Local Abbreviation harmless :=
  (Contract.only_calls (λ c, Contract.is_delete c = false)).

Lemma find_first_harmless (q : string) : harmless (Gmail.find_first env q).
Proof.
  unfold Gmail.find_first, Gmail.list_messages, Gmail.get_message.
  repeat only_calls_step.
Qed.

Lemma get_recent_emails_harmless (n : nat) : harmless (Gmail.get_recent_emails env n).
Proof.
  unfold Gmail.get_recent_emails, Gmail.fetch_one, Gmail.list_messages,
    Gmail.get_message.
  repeat only_calls_step.
Qed.

Lemma generate_summary_harmless (body subject sender : pyval) :
  harmless (AI.generate_summary env body subject sender).
Proof. unfold AI.generate_summary, AI.complete. repeat only_calls_step. Qed.

Lemma generate_reply_harmless (email : gmap string pyval) (user_context : pyval) :
  harmless (AI.generate_reply env email user_context).
Proof. unfold AI.generate_reply, AI.complete. repeat only_calls_step. Qed.

Lemma generate_daily_digest_harmless (emails : list (gmap string pyval)) :
  harmless (AI.generate_daily_digest env emails).
Proof. unfold AI.generate_daily_digest, AI.complete. repeat only_calls_step. Qed.

Lemma classifier_harmless (command : string) (ctx : list (gmap string pyval)) :
  harmless (AI.process_natural_language_command env command ctx).
Proof.
  unfold AI.process_natural_language_command, AI.complete.
  repeat only_calls_step.
Qed.

Lemma read_branch_harmless (intent confidence : pyval) (user_message : string) :
  harmless (Chat.read_branch env intent confidence user_message).
Proof.
  unfold Chat.read_branch, Chat.summarize_all, Chat.summarize.
  repeat first [ apply get_recent_emails_harmless
               | apply generate_summary_harmless
               | only_calls_step ].
Qed.

Lemma reply_branch_harmless (intent confidence parameters : pyval)
    (ctx : list (gmap string pyval)) :
  harmless (Chat.reply_branch env intent confidence parameters ctx).
Proof.
  unfold Chat.reply_branch, Chat.resolve_reply_target, Gmail.find_email_by_sender.
  repeat first [ apply find_first_harmless
               | apply generate_reply_harmless
               | only_calls_step ].
Qed.

Lemma delete_branch_harmless (intent confidence parameters : pyval)
    (ctx : list (gmap string pyval)) :
  harmless (Chat.delete_branch env intent confidence parameters ctx).
Proof.
  unfold Chat.delete_branch, Chat.resolve_delete_target,
    Chat.delete_provider_fallback, Gmail.find_email_by_sender,
    Gmail.find_email_by_subject.
  repeat first [ apply find_first_harmless | only_calls_step ].
Qed.

Lemma digest_branch_harmless (intent confidence : pyval) :
  harmless (Chat.digest_branch env intent confidence).
Proof.
  unfold Chat.digest_branch.
  repeat first [ apply get_recent_emails_harmless
               | apply generate_daily_digest_harmless
               | only_calls_step ].
Qed.

(** The route never reaches the provider's delete operation. *)
Lemma process_chat_message_harmless (request : Chat.ChatRequest) (token : string) :
  harmless (Chat.process_chat_message env request token).
Proof.
  unfold Chat.process_chat_message, Chat.http_boundary, Chat.handle_intents,
    Chat.info_branch.
  repeat first [ apply classifier_harmless
               | apply read_branch_harmless
               | apply reply_branch_harmless
               | apply delete_branch_harmless
               | apply digest_branch_harmless
               | only_calls_step ].
Qed.

Lemma mailbox_after_harmless (calls : trace) (mailbox : gset string) :
  Forall (λ c, Contract.is_delete c = false) calls →
  Contract.mailbox_after calls mailbox = mailbox.
Proof.
  unfold Contract.mailbox_after. induction 1 as [|c calls Hc _ IH]; simpl.
  - reflexivity.
  - destruct c; try discriminate; exact IH.
Qed.

End NoDelete.

(** ** Target resolution *)

Section Resolution.
Import Py.
Variable env : Env.

Lemma select_by_index_elem (email_index : pyval) (ctx : list (gmap string pyval))
    (target : gmap string pyval) :
  Chat.select_by_index email_index ctx = Ok (Some target) → target ∈ ctx.
Proof.
  unfold Chat.select_by_index, exc_bind.
  destruct (py_int email_index) as [n|e]; [|discriminate].
  destruct (_ && _); [|discriminate].
  intros [= H]. eapply list_elem_of_lookup_2. exact H.
Qed.

Lemma scan_context_elem (key : string) (needle : pyval)
    (ctx : list (gmap string pyval)) (target : gmap string pyval) :
  Chat.scan_context key needle ctx = Ok (Some target) → target ∈ ctx.
Proof.
  induction ctx as [|email rest IH]; simpl; [discriminate|].
  unfold exc_bind.
  destruct (str_lower needle) as [n|e]; [|discriminate].
  destruct (str_lower (dict_get email key (VStr ""))) as [hay|e]; [|discriminate].
  destruct (PyText.contains n hay).
  - intros [= ->]. apply list_elem_of_here.
  - intros H. apply list_elem_of_further. auto.
Qed.

Lemma reply_context_lookup_elem (email_index sender_email : pyval)
    (ctx : list (gmap string pyval)) (target : gmap string pyval) :
  Chat.reply_context_lookup email_index sender_email ctx = Ok (Some target) →
  target ∈ ctx.
Proof.
  unfold Chat.reply_context_lookup, exc_bind.
  destruct (negb _); [|discriminate].
  destruct (Chat.index_given email_index) as [[|]|e]; try discriminate.
  - apply select_by_index_elem.
  - destruct (truthy sender_email); [apply scan_context_elem | discriminate].
Qed.

Lemma delete_context_lookup_elem (email_index sender_email subject_keyword : pyval)
    (ctx : list (gmap string pyval)) (target : gmap string pyval) :
  Chat.delete_context_lookup email_index sender_email subject_keyword ctx
    = Ok (Some target) →
  target ∈ ctx.
Proof.
  unfold Chat.delete_context_lookup, exc_bind.
  destruct (negb _); [|discriminate].
  destruct (Chat.index_given email_index) as [[|]|e]; try discriminate.
  - apply select_by_index_elem.
  - destruct (truthy sender_email); [apply scan_context_elem|].
    destruct (truthy subject_keyword); [apply scan_context_elem | discriminate].
Qed.

(** A target the delete branch resolves is an email of the context or a
    message the provider returned. *)
Lemma resolve_delete_target_origin (email_index sender_email subject_keyword : pyval)
    (ctx : list (gmap string pyval)) (h : trace)
    (target : gmap string pyval) (c : trace) :
  Chat.resolve_delete_target env email_index sender_email subject_keyword ctx h
    = (Ok (Some target), c) →
  target ∈ ctx ∨ ∃ message, target = Gmail._parse_message env message.
Proof.
  unfold Chat.resolve_delete_target. rewrite bind_run. unfold lift at 1.
  destruct (Chat.delete_context_lookup _ _ _ _) as [t|e] eqn:Hctx; [|discriminate].
  cbn [fst snd]. unfold Chat.delete_provider_fallback.
  destruct (negb (Chat.found t)).
  - destruct (truthy sender_email).
    + unfold Gmail.find_email_by_sender.
      destruct (Gmail.find_first _ _ _) as [r c'] eqn:Hf. simpl.
      intros [= -> _]. right. eapply find_first_parsed. exact Hf.
    + destruct (truthy subject_keyword).
      * unfold Gmail.find_email_by_subject.
        destruct (Gmail.find_first _ _ _) as [r c'] eqn:Hf. simpl.
        intros [= -> _]. right. eapply find_first_parsed. exact Hf.
      * simpl. intros [= -> _]. left.
        eapply delete_context_lookup_elem. exact Hctx.
  - simpl. intros [= -> _]. left. eapply delete_context_lookup_elem. exact Hctx.
Qed.

(** The response of the delete branch to a resolved target. *)
Lemma delete_branch_resolved (intent confidence : pyval)
    (parameters : gmap string pyval) (ctx : list (gmap string pyval)) (h : trace)
    (target : gmap string pyval) (c : trace)
    (id sender_name sender_email subject : pyval) :
  Chat.resolve_delete_target env
    (dict_get parameters "email_index" (VStr ""))
    (dict_get parameters "sender_email" (VStr ""))
    (dict_get parameters "subject_keyword" (VStr "")) ctx h
    = (Ok (Some target), c) →
  Chat.found (Some target) = true →
  target !! "id" = Some id →
  target !! "sender_name" = Some sender_name →
  target !! "sender_email" = Some sender_email →
  target !! "subject" = Some subject →
  Chat.delete_branch env intent confidence (VDict parameters) ctx h =
  (Ok {| Chat.intent := intent; Chat.confidence := confidence;
         Chat.message :=
           "I found the email from " +:+ py_str env sender_name
           +:+ " with subject '" +:+ py_str env subject
           +:+ "'. Are you sure you want to delete it?";
         Chat.action := Some "confirm_delete";
         Chat.data := Some (VDict
           (<["email" := VDict
                (<["id" := id]>
                (<["sender_name" := sender_name]>
                (<["sender_email" := sender_email]>
                (<["subject" := subject]> ∅))))]> ∅)) |},
   c).
Proof.
  intros Hres Hfound Hid Hsn Hse Hsubj.
  unfold Chat.delete_branch, obj_get. rewrite !bind_lift_ok.
  rewrite (bind_ok _ _ _ _ _ Hres).
  change (truthy (VDict target) = true) in Hfound. rewrite Hfound.
  unfold getitem, dict_get. rewrite Hid, Hsn, Hse, Hsubj.
  rewrite !bind_lift_ok. simpl. rewrite app_nil_r. reflexivity.
Qed.

End Resolution.

(** The stub of the delete branch reads its four keys in order: with
    all of them present the branch answers, and the first one missing is
    the [KeyError] it raises. *)
Lemma first_missing_none (email : gmap string Py.pyval) :
  Contract.first_missing Contract.stub_keys email = None ↔
  Contract.identifiable email.
Proof.
  unfold Contract.first_missing, Contract.stub_keys, Contract.identifiable.
  cbn [List.find]. rewrite <- !not_eq_None_Some.
  repeat case_bool_decide; split; try discriminate; try tauto.
Qed.

Lemma delete_branch_missing_key (env : Env) (intent confidence : Py.pyval)
    (parameters : gmap string Py.pyval) (ctx : list (gmap string Py.pyval))
    (h : Py.trace) (target : gmap string Py.pyval) (c : Py.trace) (key : string) :
  Chat.resolve_delete_target env
    (Py.dict_get parameters "email_index" (Py.VStr ""))
    (Py.dict_get parameters "sender_email" (Py.VStr ""))
    (Py.dict_get parameters "subject_keyword" (Py.VStr "")) ctx h
    = (Py.Ok (Some target), c) →
  Chat.found (Some target) = true →
  Contract.first_missing Contract.stub_keys target = Some key →
  Chat.delete_branch env intent confidence (Py.VDict parameters) ctx h =
  (Py.Raised (Py.KeyError ("'" +:+ key +:+ "'")), c).
Proof.
  intros Hres Hfound Hkey.
  unfold Chat.delete_branch, Py.obj_get. rewrite !bind_lift_ok.
  rewrite (bind_ok _ _ _ _ _ Hres).
  change (Py.truthy (Py.VDict target) = true) in Hfound. rewrite Hfound.
  unfold Contract.first_missing, Contract.stub_keys in Hkey.
  cbn [List.find] in Hkey. unfold Py.getitem.
  repeat match type of Hkey with
         | context [bool_decide (target !! ?k = None)] =>
             destruct (target !! k) eqn:?;
             [ rewrite bool_decide_eq_false_2 in Hkey by discriminate;
               rewrite bind_lift_ok
             | rewrite bool_decide_eq_true_2 in Hkey by reflexivity;
               injection Hkey as <-; rewrite bind_lift_raised;
               cbn [fst snd]; rewrite app_nil_r; reflexivity ]
         end.
  discriminate Hkey.
Qed.

(** C1, as the code has it.  No run of the chat route, whatever the
    branch and the outcome, calls the provider's delete operation, so
    the mailbox is left as it was.  When the message is routed to the
    delete branch and a target email is resolved, the target is an email
    of the context unless it carries all of id, sender_name,
    sender_email and subject (as every email the provider returns does).
    If the target carries the four fields the route answers with the
    envelope whose action is "confirm_delete" and whose data carries
    them; if one is missing the route raises status 500 with the name of
    the first missing field, in quotes, as its detail. *)
Theorem delete_is_confirmed_never_committed (env : Env)
    (request : Chat.ChatRequest) (token : string) (h : Py.trace) :
  let run := Chat.process_chat_message env request token h in
  (Forall (λ c, Contract.is_delete c = false) run.2
   ∧ ∀ mailbox, Contract.mailbox_after run.2 mailbox = mailbox)
  ∧ ∀ (command_result parameters target : gmap string Py.pyval) (c0 c1 : Py.trace),
      Contract.classified env request token h command_result c0 →
      Contract.first_matching_branch (Contract.intent_of command_result)
        (Contract.user_text request) = Some Contract.DeleteBranch →
      Contract.parameters_of command_result = Py.VDict parameters →
      Chat.resolve_delete_target env
        (Py.dict_get parameters "email_index" (Py.VStr ""))
        (Py.dict_get parameters "sender_email" (Py.VStr ""))
        (Py.dict_get parameters "subject_keyword" (Py.VStr ""))
        (Contract.context_of request) (h ++ c0) = (Py.Ok (Some target), c1) →
      Chat.found (Some target) = true →
      (target ∈ Contract.context_of request
       ∨ Contract.first_missing Contract.stub_keys target = None)
      ∧ (Contract.first_missing Contract.stub_keys target = None →
         ∃ id sender_name sender_email subject : Py.pyval,
           target !! "id" = Some id
           ∧ target !! "sender_name" = Some sender_name
           ∧ target !! "sender_email" = Some sender_email
           ∧ target !! "subject" = Some subject
           ∧ run =
             (Py.Ok {| Chat.intent := Contract.intent_of command_result;
                       Chat.confidence := Contract.confidence_of command_result;
                       Chat.message :=
                         "I found the email from " +:+ py_str env sender_name
                         +:+ " with subject '" +:+ py_str env subject
                         +:+ "'. Are you sure you want to delete it?";
                       Chat.action := Some "confirm_delete";
                       Chat.data := Some (Py.VDict
                         (<["email" := Py.VDict
                              (<["id" := id]>
                              (<["sender_name" := sender_name]>
                              (<["sender_email" := sender_email]>
                              (<["subject" := subject]> ∅))))]> ∅)) |},
              c0 ++ c1))
      ∧ (∀ key, Contract.first_missing Contract.stub_keys target = Some key →
           run = (Py.Raised (Py.HTTPException 500 ("'" +:+ key +:+ "'")),
                  c0 ++ c1)).
Proof.
  intros run.
  assert (Hquiet : Forall (λ c, Contract.is_delete c = false) run.2)
    by apply process_chat_message_harmless.
  split; [split; [exact Hquiet | intros mailbox; apply mailbox_after_harmless, Hquiet]|].
  intros command_result parameters target c0 c1 Hcls Hbranch Hparams Hres Hfound.
  assert (Hrun : run =
            (Contract.at_boundary
               (Chat.delete_branch env (Contract.intent_of command_result)
                  (Contract.confidence_of command_result) (Py.VDict parameters)
                  (Contract.context_of request) (h ++ c0)).1,
             c0 ++ (Chat.delete_branch env (Contract.intent_of command_result)
                      (Contract.confidence_of command_result) (Py.VDict parameters)
                      (Contract.context_of request) (h ++ c0)).2)).
  { subst run. rewrite (process_chat_message_classified _ _ _ _ _ _ Hcls).
    rewrite handle_intents_first_match, Hbranch, Hparams. reflexivity. }
  split; [|split].
  - destruct (resolve_delete_target_origin _ _ _ _ _ _ _ _ Hres) as [Hin | [m ->]].
    + left. exact Hin.
    + right. apply first_missing_none, parse_message_identifiable.
  - intros Hall. apply first_missing_none in Hall.
    destruct Hall as ([id Hid] & [sn Hsn] & [se Hse] & [subj Hsubj]).
    exists id, sn, se, subj. repeat (split; [assumption|]).
    rewrite Hrun.
    rewrite (delete_branch_resolved env _ _ _ _ _ _ _ _ _ _ _
               Hres Hfound Hid Hsn Hse Hsubj).
    reflexivity.
  - intros key Hkey. rewrite Hrun.
    rewrite (delete_branch_missing_key env _ _ _ _ _ _ _ _ Hres Hfound Hkey).
    reflexivity.
Qed.

Lemma delete_is_confirmed_witness :
  ∃ id sender_name sender_email subject : Py.pyval,
    Scenario.alice !! "id" = Some id
    ∧ Scenario.alice !! "sender_name" = Some sender_name
    ∧ Scenario.alice !! "sender_email" = Some sender_email
    ∧ Scenario.alice !! "subject" = Some subject
    ∧ Chat.process_chat_message Scenario.delete_alice_env
        Scenario.delete_second_request "token" [] =
      (Py.Ok {| Chat.intent := Py.VStr "delete";
                Chat.confidence := Py.VStr "high";
                Chat.message :=
                  "I found the email from "
                  +:+ py_str Scenario.delete_alice_env sender_name
                  +:+ " with subject '"
                  +:+ py_str Scenario.delete_alice_env subject
                  +:+ "'. Are you sure you want to delete it?";
                Chat.action := Some "confirm_delete";
                Chat.data := Some (Py.VDict
                  (<["email" := Py.VDict
                       (<["id" := id]>
                       (<["sender_name" := sender_name]>
                       (<["sender_email" := sender_email]>
                       (<["subject" := subject]> ∅))))]> ∅)) |},
       Scenario.classifier_call "delete the email from alice@x.com"
         [∅; Scenario.alice] ++ []).
Proof.
  destruct (proj2 (delete_is_confirmed_never_committed Scenario.delete_alice_env
                     Scenario.delete_second_request "token" [])
              (Scenario.command_dict "delete" Scenario.delete_alice_parameters)
              Scenario.delete_alice_parameters Scenario.alice
              (Scenario.classifier_call "delete the email from alice@x.com"
                 [∅; Scenario.alice]) [])
    as (_ & Hconfirm & _).
  - repeat split.
  - reflexivity.
  - reflexivity.
  - reflexivity.
  - reflexivity.
  - apply Hconfirm. reflexivity.
Defined.

(** C1 as stated fails: the message is routed to the delete branch and
    the sender named by the classifier resolves to the one email of the
    context, which has no id; the route does not answer
    "confirm_delete", it raises status 500 with detail 'id'.  It makes
    no call after the classifier's, so nothing is deleted. *)
Lemma missing_id_is_not_confirmed_counterexample :
  Contract.first_matching_branch (Py.VStr "delete")
    (Contract.user_text Scenario.delete_unnamed_request)
    = Some Contract.DeleteBranch
  ∧ Chat.resolve_delete_target Scenario.delete_alice_env (Py.VStr "")
      (Py.VStr "alice@x.com") (Py.VStr "") [Scenario.unnamed_email]
      (Scenario.classifier_call "delete the email from alice@x.com"
         [Scenario.unnamed_email])
    = (Py.Ok (Some Scenario.unnamed_email), [])
  ∧ Chat.found (Some Scenario.unnamed_email) = true
  ∧ Scenario.unnamed_email !! "id" = None
  ∧ Chat.process_chat_message Scenario.delete_alice_env
      Scenario.delete_unnamed_request "token" []
    = (Py.Raised (Py.HTTPException 500 "'id'"),
       Scenario.classifier_call "delete the email from alice@x.com"
         [Scenario.unnamed_email]).
Proof. repeat split. Qed.

(** ** The fallback *)

Lemma no_whole_word_no_keyword (text : string) (b : Contract.branch) :
  (∀ kw, In kw (Contract.branch_keywords b) → ¬ Contract.whole_word kw text) →
  Chat._has_keyword text (Contract.branch_keywords b) = false.
Proof.
  intros Hnone. apply not_true_is_false. intros Hk.
  apply (has_keyword_whole_word _ _ (branch_keywords_shape b)) in Hk
    as (kw & Hin & Hw).
  exact (Hnone kw Hin Hw).
Qed.

(** C9, as the code has it.  When the classifier's intent is none of
    read, reply, delete and digest, and the lower-cased trimmed message
    contains no keyword of the four sets as a whole word, the route
    answers with the fixed fallback, after no call but the classifier's:
    action "info", no data, and the fixed help text, which presents the
    three commands "Read emails", "Generate replies" and "Delete emails"
    with two example phrasings each. *)
Theorem unrecognized_input_gets_info (env : Env) (request : Chat.ChatRequest)
    (token : string) (h : Py.trace)
    (command_result : gmap string Py.pyval) (c0 : Py.trace) :
  Contract.classified env request token h command_result c0 →
  (∀ b, Py.eq_str (Contract.intent_of command_result) (Contract.branch_intent b)
        = false) →
  (∀ b kw, In kw (Contract.branch_keywords b) →
           ¬ Contract.whole_word kw (Contract.user_text request)) →
  Chat.process_chat_message env request token h =
  (Py.Ok {| Chat.intent := Contract.intent_of command_result;
            Chat.confidence := Contract.confidence_of command_result;
            Chat.message :=
              "I'm your AI email assistant! I can help you with:
            
â€¢ **Read emails**: " +:+ Chat.dquote +:+ "Show me my recent emails"
              +:+ Chat.dquote +:+ " or " +:+ Chat.dquote
              +:+ "Fetch last 5 emails" +:+ Chat.dquote +:+ "
â€¢ **Generate replies**: " +:+ Chat.dquote +:+ "Reply to John" +:+ Chat.dquote
              +:+ " or " +:+ Chat.dquote
              +:+ "Generate a reply to the latest email from [sender]"
              +:+ Chat.dquote +:+ "
â€¢ **Delete emails**: " +:+ Chat.dquote
              +:+ "Delete the latest email from [sender]" +:+ Chat.dquote
              +:+ " or " +:+ Chat.dquote +:+ "Delete email number 2"
              +:+ Chat.dquote +:+ "

Try asking me to fetch your emails first, and then I can help you reply or delete specific ones!";
            Chat.action := Some "info";
            Chat.data := None |},
   c0).
Proof.
  intros Hcls Hintent Hwords.
  rewrite (process_chat_message_classified _ _ _ _ _ _ Hcls).
  rewrite handle_intents_first_match.
  assert (Hnone : Contract.first_matching_branch
                    (Contract.intent_of command_result)
                    (Contract.user_text request) = None).
  { unfold Contract.first_matching_branch, Contract.priority_order,
      Contract.branch_condition. cbn [List.find].
    rewrite !Hintent, !no_whole_word_no_keyword by (intros kw; apply Hwords).
    reflexivity. }
  rewrite Hnone. simpl. rewrite app_nil_r. reflexivity.
Qed.

Lemma unrecognized_input_gets_info_witness :
  Chat.process_chat_message Scenario.hello_env Scenario.hello_request "token" [] =
  (Py.Ok {| Chat.intent := Py.VStr "unknown";
            Chat.confidence := Py.VStr "low";
            Chat.message :=
              "I'm your AI email assistant! I can help you with:
            
â€¢ **Read emails**: " +:+ Chat.dquote +:+ "Show me my recent emails"
              +:+ Chat.dquote +:+ " or " +:+ Chat.dquote
              +:+ "Fetch last 5 emails" +:+ Chat.dquote +:+ "
â€¢ **Generate replies**: " +:+ Chat.dquote +:+ "Reply to John" +:+ Chat.dquote
              +:+ " or " +:+ Chat.dquote
              +:+ "Generate a reply to the latest email from [sender]"
              +:+ Chat.dquote +:+ "
â€¢ **Delete emails**: " +:+ Chat.dquote
              +:+ "Delete the latest email from [sender]" +:+ Chat.dquote
              +:+ " or " +:+ Chat.dquote +:+ "Delete email number 2"
              +:+ Chat.dquote +:+ "

Try asking me to fetch your emails first, and then I can help you reply or delete specific ones!";
            Chat.action := Some "info";
            Chat.data := None |},
   Scenario.classifier_call "  Hello there!  " []).
Proof.
  apply (unrecognized_input_gets_info Scenario.hello_env Scenario.hello_request
           "token" []
           (AI.unknown_command (Py.ValueError "Expecting value"))).
  - repeat split.
  - intros b. destruct b; reflexivity.
  - intros b kw Hin Hw.
    assert (Hk : Chat._has_keyword (Contract.user_text Scenario.hello_request)
                   (Contract.branch_keywords b) = true).
    { apply (has_keyword_whole_word _ _ (branch_keywords_shape b)). eauto. }
    destruct b; vm_compute in Hk; discriminate.
Defined.

(** C9 as stated fails: the fallback text does not list the supported
    commands.  The digest command is supported (the one-word message
    "digest" is answered with "display_digest"), yet the text the
    fallback answers with mentions neither "digest" nor "summary", in
    any letter case. *)
Lemma fallback_omits_digest_counterexample :
  (Chat.process_chat_message Scenario.hello_env Scenario.hello_request "token" []).1
  = Py.Ok {| Chat.intent := Py.VStr "unknown";
             Chat.confidence := Py.VStr "low";
             Chat.message := Chat.info_message;
             Chat.action := Some "info";
             Chat.data := None |}
  ∧ PyText.contains "digest" (PyText.lower Chat.info_message) = false
  ∧ PyText.contains "summary" (PyText.lower Chat.info_message) = false
  ∧ PyText.contains "read emails" (PyText.lower Chat.info_message) = true
  ∧ PyText.contains "generate replies" (PyText.lower Chat.info_message) = true
  ∧ PyText.contains "delete emails" (PyText.lower Chat.info_message) = true
  ∧ (Chat.process_chat_message Scenario.hello_env (Scenario.request "digest" [])
       "token" []).1
    = Py.Ok {| Chat.intent := Py.VStr "unknown";
               Chat.confidence := Py.VStr "low";
               Chat.message := "Here's your daily email digest:";
               Chat.action := Some "display_digest";
               Chat.data := Some (Py.VDict
                 (<["digest" := Py.VStr "Unable to generate digest at this time."]>
                 (<["email_count" := Py.VInt 0]> ∅))) |}.
Proof. repeat split. Qed.

(** ** Fetching and summarising a batch *)

Section Batches.
Import Py.
Variable env : Env.

Lemma fetch_one_run (email_list : list (gmap string pyval)) (msg_id : string)
    (h : trace) :
  Gmail.fetch_one env email_list msg_id h =
  (match messages_get env h msg_id with
   | Ok message => Ok (email_list ++ [Gmail._parse_message env message])
   | Raised (HttpError _) => Ok email_list
   | Raised e => Raised e
   end,
   [MessagesGet msg_id]).
Proof.
  unfold Gmail.fetch_one, try_except_HttpError.
  rewrite try_except_run, bind_run. unfold Gmail.get_message, perform.
  destruct (messages_get env h msg_id) as [m|e]; simpl; [reflexivity|].
  destruct e; reflexivity.
Qed.

(** The listing is the first call of a fetch, with the batch size asked
    for, whatever happens afterwards. *)
Lemma get_recent_emails_first_call (max_results : nat) (h : trace) :
  ∃ rest, (Gmail.get_recent_emails env max_results h).2
          = MessagesList max_results "in:inbox" :: rest.
Proof.
  unfold Gmail.get_recent_emails. rewrite bind_run.
  unfold Gmail.list_messages, perform.
  destruct (messages_list env h max_results "in:inbox"); simpl; eauto.
Qed.

Lemma fetch_loop_parsed (ids : list string) (acc : list (gmap string pyval))
    (h : trace) (emails : list (gmap string pyval)) (c : trace) :
  Forall (λ e, ∃ message, e = Gmail._parse_message env message) acc →
  for_each ids (Gmail.fetch_one env) acc h = (Ok emails, c) →
  Forall (λ e, ∃ message, e = Gmail._parse_message env message) emails.
Proof.
  revert acc h emails c. induction ids as [|msg_id ids IH];
    intros acc h emails c Hacc; simpl.
  - intros [= <- _]. exact Hacc.
  - rewrite bind_run, fetch_one_run.
    destruct (messages_get env h msg_id) as [m|e].
    + destruct (for_each ids _ _ _) as [r c'] eqn:Hrest. simpl.
      intros [= -> _]. eapply IH; [|exact Hrest].
      apply Forall_app. split; [exact Hacc|]. repeat constructor. eauto.
    + destruct e; try discriminate.
      destruct (for_each ids _ _ _) as [r c'] eqn:Hrest. simpl.
      intros [= -> _]. eapply IH; [exact Hacc | exact Hrest].
Qed.

(** Every email of a fetched batch is a parsed provider message. *)
Lemma get_recent_emails_parsed (max_results : nat) (h : trace)
    (emails : list (gmap string pyval)) (c : trace) :
  Gmail.get_recent_emails env max_results h = (Ok emails, c) →
  Forall (λ e, ∃ message, e = Gmail._parse_message env message) emails.
Proof.
  unfold Gmail.get_recent_emails. rewrite bind_run.
  unfold Gmail.list_messages, perform.
  destruct (messages_list env h max_results "in:inbox") as [ids|e]; [|discriminate].
  destruct (for_each ids _ _ _) as [r c'] eqn:Hloop. simpl.
  intros [= -> _]. eapply fetch_loop_parsed; [constructor | exact Hloop].
Qed.

Lemma generate_daily_digest_run (emails : list (gmap string pyval)) (h : trace) :
  AI.generate_daily_digest env emails h =
  (Ok (Contract.digest_of (chat_completions_create env h (DigestRequest emails))),
   [ChatCompletion (DigestRequest emails)]).
Proof.
  unfold AI.generate_daily_digest. rewrite try_except_run, bind_run.
  unfold AI.complete, perform.
  destruct (chat_completions_create env h (DigestRequest emails)); reflexivity.
Qed.

(** [generate_summary] on a text body: one call, never an exception. *)
Lemma generate_summary_run (body : string) (subject sender : pyval) (h : trace) :
  let request := SummaryRequest (VStr (PyText.take 2000 body)) subject sender in
  AI.generate_summary env (VStr body) subject sender h =
  (Ok (Contract.summary_of (chat_completions_create env h request)),
   [ChatCompletion request]).
Proof.
  intros request. unfold AI.generate_summary.
  rewrite try_except_run. cbn [py_slice]. rewrite bind_lift_ok, bind_run.
  unfold AI.complete, perform. fold request.
  destruct (chat_completions_create env h request); reflexivity.
Qed.

Lemma generate_summary_total (body subject sender : pyval) (h : trace) :
  ∃ summary, (AI.generate_summary env body subject sender h).1 = Ok summary.
Proof.
  unfold AI.generate_summary. rewrite try_except_run, bind_run. unfold lift.
  destruct (py_slice 2000 body) as [shown|e]; simpl; [|eauto].
  rewrite bind_run. unfold AI.complete, perform.
  destruct (chat_completions_create env _ _); simpl; eauto.
Qed.

(** One turn of the summary loop never raises, whatever the email. *)
Lemma summarize_total (email : gmap string pyval) (h : trace) :
  ∃ summary,
    (Chat.summarize env email h).1 = Ok (<["ai_summary" := VStr summary]> email).
Proof.
  unfold Chat.summarize. rewrite try_except_run.
  destruct (bind _ _ h) as [[r|e] c] eqn:Hbody; simpl; [|eauto].
  revert Hbody. unfold getitem.
  destruct (email !! "body") as [body|]; [|discriminate].
  rewrite bind_lift_ok.
  destruct (email !! "subject") as [subject|]; [|discriminate].
  rewrite bind_lift_ok.
  destruct (email !! "sender_name") as [sender|]; [|discriminate].
  rewrite bind_lift_ok, bind_run.
  destruct (generate_summary_total body subject sender h) as [summary Hs].
  destruct (AI.generate_summary env body subject sender h) as [r' c'].
  simpl in Hs. subst r'. simpl. intros [= <- _]. eauto.
Qed.

(** One turn on a fetched email: the summary its request led to. *)
Lemma summarize_parsed (message : GmailAPI.Message) (h : trace) :
  let email := Gmail._parse_message env message in
  Chat.summarize env email h =
  (Ok (<["ai_summary" :=
          VStr (Contract.summary_of
                  (chat_completions_create env h (Contract.summary_request email)))]>
        email),
   [Contract.summary_call email]).
Proof.
  intros email.
  destruct (parse_message_fields env message)
    as (sn & se & subj & body & _ & Hsn & _ & Hsubj & Hbody).
  cbv zeta in Hsn, Hsubj, Hbody. fold email in Hsn, Hsubj, Hbody.
  unfold Chat.summarize. rewrite try_except_run.
  unfold getitem. rewrite Hbody, Hsubj, Hsn. rewrite !bind_lift_ok, bind_run.
  rewrite generate_summary_run. cbv zeta. cbn [fst snd].
  unfold Contract.summary_call, Contract.summary_request, dict_get.
  rewrite Hbody, Hsubj, Hsn. cbn [default]. rewrite app_nil_r. reflexivity.
Qed.

Lemma summarize_loop_run (emails done : list (gmap string pyval)) (h : trace) :
  Forall (λ e, ∃ message, e = Gmail._parse_message env message) emails →
  for_each emails
    (λ done email, email' <- Chat.summarize env email ;; ret (done ++ [email']))
    done h =
  (Ok (done ++ Contract.summarized env h emails), Contract.summary_call <$> emails).
Proof.
  intros Hall. revert done h.
  induction Hall as [|email rest [message ->] _ IH]; intros done h.
  - simpl. rewrite app_nil_r. reflexivity.
  - cbn [for_each]. rewrite bind_run, bind_run, summarize_parsed. cbv zeta.
    cbn [fst snd ret]. rewrite app_nil_r, IH. cbn [fst snd].
    rewrite <- app_assoc. reflexivity.
Qed.

Lemma summarize_all_run (emails : list (gmap string pyval)) (h : trace) :
  Forall (λ e, ∃ message, e = Gmail._parse_message env message) emails →
  Chat.summarize_all env emails h =
  (Ok (Contract.summarized env h emails), Contract.summary_call <$> emails).
Proof.
  intros Hall. unfold Chat.summarize_all. apply (summarize_loop_run _ [] _ Hall).
Qed.

Lemma summarized_length (h : trace) (emails : list (gmap string pyval)) :
  length (Contract.summarized env h emails) = length emails.
Proof. revert h. induction emails; intros h; simpl; auto. Qed.

Lemma summarized_lookup (h : trace) (emails : list (gmap string pyval))
    (i : nat) (email : gmap string pyval) :
  emails !! i = Some email →
  Contract.summarized env h emails !! i =
  Some (<["ai_summary" :=
           VStr (Contract.summary_of
                   (chat_completions_create env
                      (h ++ (Contract.summary_call <$> take i emails))
                      (Contract.summary_request email)))]> email).
Proof.
  revert h i. induction emails as [|e rest IH]; intros h i; [discriminate|].
  destruct i as [|i]; simpl.
  - intros [= ->]. rewrite app_nil_r. reflexivity.
  - intros Hi. rewrite (IH _ _ Hi). rewrite <- app_assoc. reflexivity.
Qed.

End Batches.

(** C7. In the read branch a summarisation failure stays with its email.
    For every fetched batch the response is "display_emails" with as many
    emails as were fetched, in fetch order; the email whose summary
    request failed carries the fixed placeholder and every email whose
    request was answered carries its real summary.  The loop's own
    handler makes one turn total on any email at all, so no per-email
    failure aborts the batch. *)
Theorem summary_failure_is_isolated (env : Env) (request : Chat.ChatRequest)
    (token : string) (h : Py.trace) (command_result : gmap string Py.pyval)
    (c0 : Py.trace) (emails : list (gmap string Py.pyval)) (c1 : Py.trace) :
  Contract.classified env request token h command_result c0 →
  Contract.first_matching_branch (Contract.intent_of command_result)
    (Contract.user_text request) = Some Contract.ReadBranch →
  Gmail.get_recent_emails env (Chat.read_max_results (Contract.user_text request))
    (h ++ c0) = (Py.Ok emails, c1) →
  ∃ shown : list (gmap string Py.pyval),
    Chat.process_chat_message env request token h =
    (Py.Ok {| Chat.intent := Contract.intent_of command_result;
              Chat.confidence := Contract.confidence_of command_result;
              Chat.message :=
                "I found " +:+ Chat.str_of_nat (length emails)
                +:+ " recent emails. Here they are:";
              Chat.action := Some "display_emails";
              Chat.data := Some (Py.VDict
                (<["emails" := Py.VList (Py.VDict <$> shown)]> ∅)) |},
     c0 ++ c1 ++ (Contract.summary_call <$> emails))
    ∧ length shown = length emails
    ∧ (∀ (i : nat) (email : gmap string Py.pyval),
         emails !! i = Some email →
         let answer :=
           chat_completions_create env
             (h ++ c0 ++ c1 ++ (Contract.summary_call <$> take i emails))
             (Contract.summary_request email) in
         ∃ summary : string,
           shown !! i = Some (<["ai_summary" := Py.VStr summary]> email)
           ∧ (∀ content, answer = Py.Ok content →
                         summary = AI.content_text content)
           ∧ (∀ e, answer = Py.Raised e →
                   summary = "Unable to generate summary at this time."))
    ∧ (∀ (email : gmap string Py.pyval) (h' : Py.trace),
         ∃ summary : string,
           (Chat.summarize env email h').1
           = Py.Ok (<["ai_summary" := Py.VStr summary]> email)).
Proof.
  intros Hcls Hbranch Hfetch.
  pose proof (get_recent_emails_parsed env _ _ _ _ Hfetch) as Hparsed.
  exists (Contract.summarized env ((h ++ c0) ++ c1) emails).
  split; [|split; [|split]].
  - rewrite (process_chat_message_classified _ _ _ _ _ _ Hcls).
    rewrite handle_intents_first_match, Hbranch. cbn [Contract.run_branch].
    unfold Chat.read_branch.
    rewrite (bind_ok _ _ _ _ _ Hfetch), bind_run.
    rewrite (summarize_all_run env _ _ Hparsed). cbn [fst snd Py.ret].
    rewrite summarized_length, app_nil_r. reflexivity.
  - apply summarized_length.
  - intros i email Hi answer.
    eexists. split; [apply (summarized_lookup env _ _ _ _ Hi)|].
    replace (((h ++ c0) ++ c1) ++ (Contract.summary_call <$> take i emails))
      with (h ++ c0 ++ c1 ++ (Contract.summary_call <$> take i emails))
      by (rewrite !app_assoc; reflexivity).
    fold answer. destruct answer; split; intros ? [= <-]; reflexivity.
  - intros email h'. apply summarize_total.
Qed.

Lemma summary_failure_is_isolated_witness :
  ∃ shown : list (gmap string Py.pyval),
    (Chat.process_chat_message Scenario.inbox_env Scenario.show_request "token" []).1
    = Py.Ok {| Chat.intent := Py.VStr "unknown";
               Chat.confidence := Py.VStr "low";
               Chat.message := "I found 3 recent emails. Here they are:";
               Chat.action := Some "display_emails";
               Chat.data := Some (Py.VDict
                 (<["emails" := Py.VList (Py.VDict <$> shown)]> ∅)) |}
    ∧ (Contract.dict_summary <$> shown)
      = [Some (Py.VStr "A short summary.");
         Some (Py.VStr "Unable to generate summary at this time.");
         Some (Py.VStr "A short summary.")].
Proof.
  destruct (summary_failure_is_isolated Scenario.inbox_env Scenario.show_request
              "token" []
              (AI.unknown_command (Py.ValueError "Expecting value"))
              (Scenario.classifier_call "Show me my emails" [])
              Scenario.inbox_emails
              [Py.MessagesList 5 "in:inbox"; Py.MessagesGet "a";
               Py.MessagesGet "b"; Py.MessagesGet "c"])
    as (shown & Hrun & Hlen & Heach & _).
  - repeat split.
  - reflexivity.
  - reflexivity.
  - exists shown. split.
    + rewrite Hrun. reflexivity.
    + destruct shown as [|s0 [|s1 [|s2 [|]]]]; try discriminate.
      destruct (Heach 0%nat _ eq_refl) as (x0 & [= ->] & H0 & _).
      destruct (Heach 1%nat _ eq_refl) as (x1 & [= ->] & _ & H1).
      destruct (Heach 2%nat _ eq_refl) as (x2 & [= ->] & H2 & _).
      rewrite (H0 _ eq_refl), (H1 _ eq_refl), (H2 _ eq_refl). reflexivity.
Defined.

(** C8. The digest branch asks the provider for a batch of 20, whatever
    the message says: its first call after the classifier's is the
    listing of the inbox with maxResults = 20.  When the fetch returns,
    the route answers "display_digest" with the digest text and, as batch
    size, the number of emails fetched. *)
Theorem digest_requests_twenty (env : Env) (request : Chat.ChatRequest)
    (token : string) (h : Py.trace) (command_result : gmap string Py.pyval)
    (c0 : Py.trace) :
  Contract.classified env request token h command_result c0 →
  Contract.first_matching_branch (Contract.intent_of command_result)
    (Contract.user_text request) = Some Contract.DigestBranch →
  (∃ rest, (Chat.process_chat_message env request token h).2
           = c0 ++ Py.MessagesList 20 "in:inbox" :: rest)
  ∧ ∀ (emails : list (gmap string Py.pyval)) (c1 : Py.trace),
      Gmail.get_recent_emails env 20 (h ++ c0) = (Py.Ok emails, c1) →
      Chat.process_chat_message env request token h =
      (Py.Ok {| Chat.intent := Contract.intent_of command_result;
                Chat.confidence := Contract.confidence_of command_result;
                Chat.message := "Here's your daily email digest:";
                Chat.action := Some "display_digest";
                Chat.data := Some (Py.VDict
                  (<["digest" :=
                       Py.VStr (Contract.digest_of
                         (chat_completions_create env (h ++ c0 ++ c1)
                            (Py.DigestRequest emails)))]>
                  (<["email_count" := Py.VInt (Z.of_nat (length emails))]> ∅))) |},
       c0 ++ c1 ++ [Py.ChatCompletion (Py.DigestRequest emails)]).
Proof.
  intros Hcls Hbranch.
  rewrite (process_chat_message_classified _ _ _ _ _ _ Hcls).
  rewrite handle_intents_first_match, Hbranch. cbn [Contract.run_branch].
  unfold Chat.digest_branch. split.
  - rewrite bind_run.
    destruct (get_recent_emails_first_call env 20 (h ++ c0)) as [rest Hrest].
    destruct (Gmail.get_recent_emails env 20 (h ++ c0)) as [[emails|e] c1];
      cbn [fst snd] in *; subst c1.
    + eexists. rewrite <- app_comm_cons. reflexivity.
    + eexists. reflexivity.
  - intros emails c1 Hfetch.
    rewrite (bind_ok _ _ _ _ _ Hfetch), bind_run, generate_daily_digest_run.
    cbn [fst snd Py.ret]. rewrite app_nil_r, <- app_assoc. reflexivity.
Qed.

Lemma digest_requests_twenty_witness :
  Chat.process_chat_message Scenario.inbox_env Scenario.digest_request "token" [] =
  (Py.Ok {| Chat.intent := Py.VStr "unknown";
            Chat.confidence := Py.VStr "low";
            Chat.message := "Here's your daily email digest:";
            Chat.action := Some "display_digest";
            Chat.data := Some (Py.VDict
              (<["digest" := Py.VStr "A short summary."]>
              (<["email_count" := Py.VInt 3]> ∅))) |},
   Scenario.classifier_call "give me a short digest of a few emails" []
   ++ [Py.MessagesList 20 "in:inbox"; Py.MessagesGet "a"; Py.MessagesGet "b";
       Py.MessagesGet "c"]
   ++ [Py.ChatCompletion (Py.DigestRequest Scenario.inbox_emails)]).
Proof.
  apply (proj2 (digest_requests_twenty Scenario.inbox_env Scenario.digest_request
                  "token" []
                  (AI.unknown_command (Py.ValueError "Expecting value"))
                  (Scenario.classifier_call "give me a short digest of a few emails" [])
                  ltac:(repeat split) eq_refl)
           Scenario.inbox_emails
           [Py.MessagesList 20 "in:inbox"; Py.MessagesGet "a"; Py.MessagesGet "b";
            Py.MessagesGet "c"]).
  reflexivity.
Defined.

(** ** Routing *)






(** ** Index, sender and provider *)

Section Numerals.
Import Py.

Lemma numeral_all_decimal (digits : string) :
  (∀ i c, String.get i digits = Some c → (48 ≤ nat_of_ascii c ≤ 57)%nat) →
  PyText.all_chars PyText.is_decimal_char digits = true.
Proof.
  induction digits as [|c rest IH]; intros H; [reflexivity|].
  cbn [PyText.all_chars]. apply andb_true_iff. split.
  - specialize (H 0%nat c eq_refl).
    unfold PyText.is_decimal_char, PyText.in_range.
    unfold nat_of_ascii in H.
    apply andb_true_iff; split; apply N.leb_le; lia.
  - apply IH. intros i c' Hi. apply (H (S i)). exact Hi.
Qed.

Lemma all_decimal_numeral (digits : string) :
  digits ≠ "" →
  PyText.all_chars PyText.is_decimal_char digits = true →
  Contract.numeral digits.
Proof.
  intros Hne Hall. split; [exact Hne|]. clear Hne.
  induction digits as [|c rest IH]; intros i c' Hi; [discriminate|].
  cbn [PyText.all_chars] in Hall. apply andb_true_iff in Hall as [Hc Hrest].
  destruct i as [|i]; cbn [String.get] in Hi.
  - injection Hi as <-.
    unfold PyText.is_decimal_char, PyText.in_range in Hc.
    apply andb_true_iff in Hc as [Hlo Hhi].
    apply N.leb_le in Hlo, Hhi. unfold nat_of_ascii. lia.
  - exact (IH Hrest i c' Hi).
Qed.

Lemma decimal_value_number (digits : string) (acc : Z) :
  PyText.decimal_value acc digits
  = (acc * 10 ^ Z.of_nat (String.length digits) + Contract.decimal_number digits)%Z.
Proof.
  revert acc. induction digits as [|c rest IH]; intros acc.
  - cbn [PyText.decimal_value Contract.decimal_number String.length].
    change (10 ^ Z.of_nat 0)%Z with 1%Z. lia.
  - cbn [PyText.decimal_value Contract.decimal_number String.length].
    rewrite IH, Nat2Z.inj_succ, Z.pow_succ_r by lia.
    unfold Contract.digit_value, nat_of_ascii. rewrite N_nat_Z. ring.
Qed.

Lemma numeral_isdigit (digits : string) :
  Contract.numeral digits → PyText.isdigit digits = true.
Proof.
  intros [Hne Hall]. unfold PyText.isdigit.
  destruct digits as [|c rest]; [contradiction|]. clear Hne.
  revert Hall. generalize (String c rest). intros s.
  induction s as [|a s IH]; intros H; [reflexivity|].
  cbn [PyText.all_chars]. apply andb_true_iff. split.
  - specialize (H 0%nat a eq_refl). unfold PyText.isdigit_char, PyText.in_range.
    unfold nat_of_ascii in H.
    apply orb_true_iff; left. apply orb_true_iff; left.
    apply andb_true_iff; split; apply N.leb_le; lia.
  - apply IH. intros i c' Hi. apply (H (S i)). exact Hi.
Qed.

(** [int] reads a numeral of at most 4300 digits as the number it
    denotes, and refuses a longer one. *)
Lemma py_int_numeral (digits : string) :
  Contract.numeral digits → String.length digits ≤ 4300 →
  py_int (VStr digits) = Ok (Contract.decimal_number digits).
Proof.
  intros [Hne Hall] Hlen. unfold py_int.
  apply String.eqb_neq in Hne. rewrite Hne, (numeral_all_decimal _ Hall).
  cbn [negb andb].
  change int_max_str_digits with 4300%nat.
  destruct (Nat.ltb_spec 4300 (String.length digits)) as [Hlt|_]; [lia|].
  rewrite decimal_value_number. reflexivity.
Qed.

Lemma py_int_oversized (digits : string) :
  Contract.numeral digits → 4300 < String.length digits →
  ∃ msg, py_int (VStr digits) = Raised (ValueError msg).
Proof.
  intros [Hne Hall] Hlen. unfold py_int.
  apply String.eqb_neq in Hne. rewrite Hne, (numeral_all_decimal _ Hall).
  cbn [negb andb].
  change int_max_str_digits with 4300%nat.
  destruct (Nat.ltb_spec 4300 (String.length digits)) as [_|Hge]; [|lia].
  eexists. reflexivity.
Qed.

End Numerals.

Section IndexResolution.
Import Py.
Variable env : Env.

Lemma index_given_digits (digits : string) :
  PyText.isdigit digits = true → Chat.index_given (VStr digits) = Ok true.
Proof.
  intros Hd. unfold Chat.index_given, str_isdigit. rewrite Hd.
  destruct digits as [|c digits]; [discriminate | reflexivity].
Qed.

Lemma select_by_index_in_range (digits : string) (n : Z)
    (ctx : list (gmap string pyval)) (selected : gmap string pyval) :
  py_int (VStr digits) = Ok n → (1 ≤ n)%Z →
  ctx !! Z.to_nat (n - 1) = Some selected →
  Chat.select_by_index (VStr digits) ctx = Ok (Some selected).
Proof.
  intros Hint Hpos Hsel. unfold Chat.select_by_index. rewrite Hint. cbn [exc_bind].
  pose proof (lookup_lt_Some _ _ _ Hsel) as Hlt.
  replace ((0 <=? n - 1)%Z && (n - 1 <? Z.of_nat (length ctx))%Z) with true.
  - rewrite Hsel. reflexivity.
  - symmetry. apply andb_true_iff. split; [apply Z.leb_le | apply Z.ltb_lt]; lia.
Qed.

Lemma select_by_index_out_of_range (digits : string) (n : Z)
    (ctx : list (gmap string pyval)) :
  py_int (VStr digits) = Ok n →
  ¬ (1 ≤ n ≤ Z.of_nat (length ctx))%Z →
  Chat.select_by_index (VStr digits) ctx = Ok None.
Proof.
  intros Hint Hout. unfold Chat.select_by_index. rewrite Hint. cbn [exc_bind].
  destruct ((0 <=? n - 1)%Z && (n - 1 <? Z.of_nat (length ctx))%Z) eqn:Hin;
    [|reflexivity].
  apply andb_true_iff in Hin as [H0 H1].
  apply Z.leb_le in H0. apply Z.ltb_lt in H1. lia.
Qed.

Lemma nonempty_found (email : gmap string pyval) :
  email ≠ ∅ → Chat.found (Some email) = true.
Proof.
  intros Hne. unfold Chat.found, truthy.
  destruct (size email) eqn:Hsize; [|reflexivity].
  apply map_size_empty_iff in Hsize. contradiction.
Qed.

Lemma context_nonempty (ctx : list (gmap string pyval)) (i : nat)
    (email : gmap string pyval) :
  ctx !! i = Some email → negb (length ctx =? 0) = true.
Proof. destruct ctx; [discriminate | reflexivity]. Qed.

End IndexResolution.

(** C6, as the code has it.  In the reply branch and in the delete
    branch, when email_index is a numeral (one or more of the characters
    0 to 9) of at most 4300 digits, the number it denotes indexes the
    context list (counting from 1) and the email there is not the empty
    record, that email is the resolved target whatever sender_email (and
    subject_keyword) hold: the result does not depend on them, and
    resolution makes no call, so neither the context nor the provider is
    searched by sender. *)
Theorem valid_index_wins (env : Env) (digits : string)
    (sender_email subject_keyword : Py.pyval)
    (ctx : list (gmap string Py.pyval)) (selected : gmap string Py.pyval)
    (h : Py.trace) :
  Contract.numeral digits →
  String.length digits ≤ 4300 →
  (1 ≤ Contract.decimal_number digits)%Z →
  ctx !! Z.to_nat (Contract.decimal_number digits - 1) = Some selected →
  selected ≠ ∅ →
  Chat.resolve_reply_target env (Py.VStr digits) sender_email ctx h
    = (Py.Ok (Some selected), [])
  ∧ Chat.resolve_delete_target env (Py.VStr digits) sender_email subject_keyword
      ctx h = (Py.Ok (Some selected), []).
Proof.
  intros Hnum Hlen Hpos Hsel Hne.
  pose proof (numeral_isdigit _ Hnum) as Hd.
  pose proof (py_int_numeral _ Hnum Hlen) as Hint.
  pose proof (nonempty_found _ Hne) as Hfound.
  pose proof (context_nonempty _ _ _ Hsel) as Hctx.
  pose proof (select_by_index_in_range _ _ _ _ Hint Hpos Hsel) as Hindex.
  split.
  - unfold Chat.resolve_reply_target, Chat.reply_context_lookup.
    rewrite Hctx, (index_given_digits _ Hd). cbn [Py.exc_bind].
    rewrite Hindex, bind_lift_ok, Hfound. reflexivity.
  - unfold Chat.resolve_delete_target, Chat.delete_context_lookup,
      Chat.delete_provider_fallback.
    rewrite Hctx, (index_given_digits _ Hd). cbn [Py.exc_bind].
    rewrite Hindex, bind_lift_ok, Hfound. reflexivity.
Qed.

Lemma valid_index_wins_witness :
  Chat.resolve_reply_target Scenario.reply_five_env (Py.VStr "12") (Py.VStr "alice")
    Scenario.twelve_emails [] = (Py.Ok (Some Scenario.bob), [])
  ∧ Chat.resolve_delete_target Scenario.reply_five_env (Py.VStr "12")
      (Py.VStr "alice") (Py.VStr "") Scenario.twelve_emails []
    = (Py.Ok (Some Scenario.bob), []).
Proof.
  apply (valid_index_wins Scenario.reply_five_env "12" (Py.VStr "alice")
           (Py.VStr "") Scenario.twelve_emails Scenario.bob []).
  - apply all_decimal_numeral; [discriminate | reflexivity].
  - cbn. lia.
  - intros H. vm_compute in H. discriminate H.
  - reflexivity.
  - intros Hempty. apply (f_equal (λ m, m !! "id")) in Hempty.
    vm_compute in Hempty. discriminate.
Defined.

(** C6 as stated fails: the index "1" is a digit that validly indexes
    the two-email context and a sender string is given, but the email
    at index 1 is the empty record, which counts as no target; the
    sender string is not ignored, the provider is searched by it, and
    the resolved target is the message the provider returns, not the
    context email. *)
Lemma empty_record_at_index_counterexample :
  PyText.isdigit "1" = true
  ∧ Py.py_int (Py.VStr "1") = Py.Ok 1%Z
  ∧ ([∅; Scenario.bob] : list (gmap string Py.pyval)) !! 0%nat = Some ∅
  ∧ Chat.resolve_reply_target Scenario.inbox_env (Py.VStr "1") (Py.VStr "bob")
      [∅; Scenario.bob] []
    = (Py.Ok (Some (Gmail._parse_message Scenario.inbox_env
                      (Scenario.stored "a" "a@x.com" "About a"))),
       [Py.MessagesList 1 "from:bob in:inbox"; Py.MessagesGet "a"])
  ∧ Chat.resolve_delete_target Scenario.inbox_env (Py.VStr "1") (Py.VStr "bob")
      (Py.VStr "") [∅; Scenario.bob] []
    = (Py.Ok (Some (Gmail._parse_message Scenario.inbox_env
                      (Scenario.stored "a" "a@x.com" "About a"))),
       [Py.MessagesList 1 "from:bob in:inbox"; Py.MessagesGet "a"]).
Proof. repeat split. Qed.

Section SenderFallback.
Import Py.
Variable env : Env.

(** With an index that is a digit but points outside the context, the
    context block of the reply branch selects nothing: its sender scan
    hangs on the [elif] of the index test and is not reached. *)
Lemma reply_context_lookup_out_of_range (digits : string) (n : Z)
    (sender_email : pyval) (ctx : list (gmap string pyval)) :
  PyText.isdigit digits = true →
  py_int (VStr digits) = Ok n →
  ¬ (1 ≤ n ≤ Z.of_nat (length ctx))%Z →
  Chat.reply_context_lookup (VStr digits) sender_email ctx = Ok None.
Proof.
  intros Hd Hint Hout. unfold Chat.reply_context_lookup.
  destruct (negb (length ctx =? 0)); [|reflexivity].
  rewrite (index_given_digits _ Hd). cbn [exc_bind].
  apply (select_by_index_out_of_range _ _ _ Hint Hout).
Qed.

(** An index that [int] refuses fails the context block, when there is
    a context to index. *)
Lemma reply_context_lookup_refused (digits : string) (e : exn)
    (sender_email : pyval) (ctx : list (gmap string pyval)) :
  PyText.isdigit digits = true →
  py_int (VStr digits) = Raised e →
  ctx ≠ [] →
  Chat.reply_context_lookup (VStr digits) sender_email ctx = Raised e.
Proof.
  intros Hd Hint Hctx. unfold Chat.reply_context_lookup.
  destruct ctx as [|email rest]; [contradiction|]. cbn [length Nat.eqb negb].
  rewrite (index_given_digits _ Hd). cbn [exc_bind].
  unfold Chat.select_by_index. rewrite Hint. reflexivity.
Qed.

End SenderFallback.

(** C4, as the code has it.  In the reply branch, when email_index is a
    numeral (one or more of the characters 0 to 9) and sender_email is
    present: if the numeral has at most 4300 digits and the number it
    denotes falls outside the context list, the context list is not
    scanned by sender and resolution goes straight to the provider's
    find-by-sender query, whose outcome and calls are the outcome and
    the calls of the resolution; if the numeral has more than 4300
    digits and the context is not empty, the conversion is refused and
    resolution raises a [ValueError] without any call. *)
Theorem out_of_range_index_goes_to_provider (env : Env) (digits : string)
    (sender_email : Py.pyval) (ctx : list (gmap string Py.pyval)) (h : Py.trace) :
  Contract.numeral digits →
  Py.truthy sender_email = true →
  (String.length digits ≤ 4300 →
   ¬ (1 ≤ Contract.decimal_number digits ≤ Z.of_nat (length ctx))%Z →
   Chat.reply_context_lookup (Py.VStr digits) sender_email ctx = Py.Ok None
   ∧ Chat.resolve_reply_target env (Py.VStr digits) sender_email ctx h
     = Gmail.find_email_by_sender env sender_email h)
  ∧ (4300 < String.length digits → ctx ≠ [] →
     ∃ msg,
       Chat.resolve_reply_target env (Py.VStr digits) sender_email ctx h
       = (Py.Raised (Py.ValueError msg), [])).
Proof.
  intros Hnum Hsender.
  pose proof (numeral_isdigit _ Hnum) as Hd.
  split.
  - intros Hlen Hout.
    pose proof (reply_context_lookup_out_of_range digits _ sender_email ctx
                  Hd (py_int_numeral _ Hnum Hlen) Hout) as Hctx.
    split; [exact Hctx|].
    unfold Chat.resolve_reply_target. rewrite Hctx, bind_lift_ok, Hsender.
    reflexivity.
  - intros Hlen Hctx.
    destruct (py_int_oversized _ Hnum Hlen) as [msg Hint].
    exists msg. unfold Chat.resolve_reply_target.
    rewrite (reply_context_lookup_refused digits _ sender_email ctx Hd Hint Hctx).
    apply bind_lift_raised.
Qed.

Lemma out_of_range_index_goes_to_provider_witness :
  (Chat.reply_context_lookup (Py.VStr "5") (Py.VStr "alice") [Scenario.alice]
     = Py.Ok None
   ∧ Chat.resolve_reply_target Scenario.reply_five_env (Py.VStr "5")
       (Py.VStr "alice") [Scenario.alice] []
     = Gmail.find_email_by_sender Scenario.reply_five_env (Py.VStr "alice") [])
  ∧ ∃ msg,
      Chat.resolve_reply_target Scenario.reply_five_env
        (Py.VStr Scenario.oversized_index) (Py.VStr "alice") [Scenario.alice] []
      = (Py.Raised (Py.ValueError msg), []).
Proof.
  split.
  - apply (out_of_range_index_goes_to_provider Scenario.reply_five_env "5"
             (Py.VStr "alice") [Scenario.alice] []).
    + apply all_decimal_numeral; [discriminate | reflexivity].
    + reflexivity.
    + cbn. lia.
    + intros [_ H]. vm_compute in H. apply H. reflexivity.
  - apply (out_of_range_index_goes_to_provider Scenario.reply_five_env
             Scenario.oversized_index (Py.VStr "alice") [Scenario.alice] []).
    + apply all_decimal_numeral.
      * intros H. vm_compute in H. discriminate H.
      * vm_compute. reflexivity.
    + reflexivity.
    + apply Nat.ltb_lt. vm_compute. reflexivity.
    + discriminate.
Defined.

(** C4 as stated fails: the index "5" is a digit outside the one-email
    context and the sender "alice" is present; a scan of the context
    would select Alice's email, yet the code selects nothing from the
    context, queries the provider, which holds nothing, and answers
    with the miss. *)
Lemma out_of_range_index_counterexample :
  PyText.isdigit "5" = true
  ∧ Py.py_int (Py.VStr "5") = Py.Ok 5%Z
  ∧ length [Scenario.alice] = 1
  ∧ Py.truthy (Py.VStr "alice") = true
  ∧ Chat.scan_context "sender_email" (Py.VStr "alice") [Scenario.alice]
    = Py.Ok (Some Scenario.alice)
  ∧ Chat.resolve_reply_target Scenario.reply_five_env (Py.VStr "5")
      (Py.VStr "alice") [Scenario.alice] []
    = (Py.Ok None, [Py.MessagesList 1 "from:alice in:inbox"])
  ∧ Chat.process_chat_message Scenario.reply_five_env Scenario.reply_five_request
      "token" []
    = (Py.Ok {| Chat.intent := Py.VStr "reply";
                Chat.confidence := Py.VStr "high";
                Chat.message := Chat.reply_miss_message;
                Chat.action := Some "error";
                Chat.data := None |},
       Scenario.classifier_call "answer her" [Scenario.alice]
       ++ [Py.MessagesList 1 "from:alice in:inbox"]).
Proof. repeat split. Qed.

(** ** The provider-side fallback *)

Section ProviderFallback.
Import Py.
Variable env : Env.

Lemma queries_differ (sender_email subject_keyword : pyval) :
  Gmail.sender_query env sender_email ≠ Gmail.subject_query env subject_keyword.
Proof.
  intros H. apply (f_equal PyText.first_char) in H. vm_compute in H. discriminate.
Qed.

Lemma lookup_calls_queries (q q' : string) (h : trace) :
  q ≠ q' → MessagesList 1 q' ∉ Contract.lookup_calls env q h.
Proof.
  intros Hne Hin. unfold Contract.lookup_calls in Hin.
  destruct (messages_list env h 1 q) as [[|first others]|e];
    repeat (apply elem_of_cons in Hin as [Hin | Hin];
            [first [discriminate | injection Hin as <-; contradiction]|]);
    by apply elem_of_nil in Hin.
Qed.

Lemma reply_branch_miss (intent confidence : pyval) (parameters : gmap string pyval)
    (ctx : list (gmap string pyval)) (h c : trace) :
  Chat.resolve_reply_target env
    (dict_get parameters "email_index" (VStr ""))
    (dict_get parameters "sender_email" (VStr "")) ctx h = (Ok None, c) →
  Chat.reply_branch env intent confidence (VDict parameters) ctx h =
  (Ok {| Chat.intent := intent; Chat.confidence := confidence;
         Chat.message := Chat.reply_miss_message;
         Chat.action := Some "error"; Chat.data := None |}, c).
Proof.
  intros Hres. unfold Chat.reply_branch, obj_get. rewrite !bind_lift_ok.
  rewrite (bind_ok _ _ _ _ _ Hres). simpl. rewrite app_nil_r. reflexivity.
Qed.

Lemma delete_branch_miss (intent confidence : pyval) (parameters : gmap string pyval)
    (ctx : list (gmap string pyval)) (h c : trace) :
  Chat.resolve_delete_target env
    (dict_get parameters "email_index" (VStr ""))
    (dict_get parameters "sender_email" (VStr ""))
    (dict_get parameters "subject_keyword" (VStr "")) ctx h = (Ok None, c) →
  Chat.delete_branch env intent confidence (VDict parameters) ctx h =
  (Ok {| Chat.intent := intent; Chat.confidence := confidence;
         Chat.message := Chat.delete_miss_message;
         Chat.action := Some "error"; Chat.data := None |}, c).
Proof.
  intros Hres. unfold Chat.delete_branch, obj_get. rewrite !bind_lift_ok.
  rewrite (bind_ok _ _ _ _ _ Hres). simpl. rewrite app_nil_r. reflexivity.
Qed.

Lemma find_first_never_http_error (q : string) (h : trace) (msg : string) :
  (Gmail.find_first env q h).1 ≠ Raised (HttpError msg).
Proof.
  rewrite find_first_run.
  destruct (messages_list env h 1 q) as [[|first others]|e].
  - discriminate.
  - destruct (messages_get env (h ++ [MessagesList 1 q]) first) as [m|e];
      [discriminate | destruct e; discriminate].
  - destruct e; discriminate.
Qed.

End ProviderFallback.

(** C5, as the code has it.  In the delete branch, when the context
    block found no target, the provider-side fallback makes one search:
    by sender when sender_email is present, and by subject only when
    sender_email is absent and subject_keyword is present.  With a sender
    present the outcome and the calls are those of the sender search
    alone, and the subject query is not among them, whatever that search
    returned. *)
Theorem delete_fallback_is_one_search (env : Env)
    (email_index sender_email subject_keyword : Py.pyval)
    (ctx : list (gmap string Py.pyval))
    (target : option (gmap string Py.pyval)) (h : Py.trace) :
  Chat.delete_context_lookup email_index sender_email subject_keyword ctx
    = Py.Ok target →
  Chat.found target = false →
  let run :=
    Chat.resolve_delete_target env email_index sender_email subject_keyword ctx h in
  (Py.truthy sender_email = true →
   run = Gmail.find_email_by_sender env sender_email h
   ∧ Py.MessagesList 1 (Gmail.subject_query env subject_keyword) ∉ run.2)
  ∧ (Py.truthy sender_email = false → Py.truthy subject_keyword = true →
     run = Gmail.find_email_by_subject env subject_keyword h)
  ∧ (Py.truthy sender_email = false → Py.truthy subject_keyword = false →
     run = (Py.Ok target, [])).
Proof.
  intros Hctx Hfound run. subst run.
  unfold Chat.resolve_delete_target. rewrite Hctx, bind_lift_ok.
  unfold Chat.delete_provider_fallback. rewrite Hfound. cbn [negb].
  split; [|split].
  - intros ->. split; [reflexivity|].
    unfold Gmail.find_email_by_sender. rewrite find_first_calls.
    apply lookup_calls_queries, queries_differ.
  - intros -> ->. reflexivity.
  - intros -> ->. reflexivity.
Qed.

Lemma delete_fallback_is_one_search_witness :
  let run :=
    Chat.resolve_delete_target Scenario.carol_invoice_env (Py.VStr "")
      (Py.VStr "carol") (Py.VStr "invoice") [Scenario.alice] [] in
  (Py.truthy (Py.VStr "carol") = true →
   run = Gmail.find_email_by_sender Scenario.carol_invoice_env (Py.VStr "carol") []
   ∧ Py.MessagesList 1
       (Gmail.subject_query Scenario.carol_invoice_env (Py.VStr "invoice")) ∉ run.2)
  ∧ (Py.truthy (Py.VStr "carol") = false → Py.truthy (Py.VStr "invoice") = true →
     run = Gmail.find_email_by_subject Scenario.carol_invoice_env
             (Py.VStr "invoice") [])
  ∧ (Py.truthy (Py.VStr "carol") = false → Py.truthy (Py.VStr "invoice") = false →
     run = (Py.Ok None, [])).
Proof.
  apply (delete_fallback_is_one_search Scenario.carol_invoice_env (Py.VStr "")
           (Py.VStr "carol") (Py.VStr "invoice") [Scenario.alice] None []).
  - reflexivity.
  - reflexivity.
Defined.

(** C5 as stated fails: sender_email "carol" and subject_keyword
    "invoice" are both present and nothing in the context matches; the
    sender search returns no email, the subject search would return
    one, yet the only call of the resolution is the sender listing and
    the route answers with the miss. *)
Lemma subject_search_not_attempted_counterexample :
  Chat.delete_context_lookup (Py.VStr "") (Py.VStr "carol") (Py.VStr "invoice")
    [Scenario.alice] = Py.Ok None
  ∧ Gmail.find_email_by_sender Scenario.carol_invoice_env (Py.VStr "carol") []
    = (Py.Ok None, [Py.MessagesList 1 "from:carol in:inbox"])
  ∧ (Gmail.find_email_by_subject Scenario.carol_invoice_env (Py.VStr "invoice")
       [Py.MessagesList 1 "from:carol in:inbox"]).1
    = Py.Ok (Some (Gmail._parse_message Scenario.carol_invoice_env
                     (Scenario.stored "m2" "bob@y.org" "Invoice 42")))
  ∧ Chat.resolve_delete_target Scenario.carol_invoice_env (Py.VStr "")
      (Py.VStr "carol") (Py.VStr "invoice") [Scenario.alice] []
    = (Py.Ok None, [Py.MessagesList 1 "from:carol in:inbox"])
  ∧ Chat.process_chat_message Scenario.carol_invoice_env
      Scenario.carol_invoice_request "token" []
    = (Py.Ok {| Chat.intent := Py.VStr "delete";
                Chat.confidence := Py.VStr "high";
                Chat.message := Chat.delete_miss_message;
                Chat.action := Some "error";
                Chat.data := None |},
       Scenario.classifier_call "get rid of the invoice mail from carol"
         [Scenario.alice]
       ++ [Py.MessagesList 1 "from:carol in:inbox"]).
Proof. repeat split. Qed.

(** C10. An [HttpError] of the provider during a target lookup is a miss,
    not a failure.  The two search primitives never raise an [HttpError]:
    when the listing, or the fetch of the first message listed, answers
    with one, they return [None].  So a reply or delete request whose
    lookup reaches the provider (nothing found in the context, a sender
    or, for delete, a subject keyword present) and meets such an error is
    answered with the envelope of action "error" and the "couldn't find"
    guidance; nothing is raised to the caller. *)
Theorem provider_http_error_is_a_miss (env : Env) :
  (∀ (v : Py.pyval) (h : Py.trace),
     (∀ msg, (Gmail.find_email_by_sender env v h).1 ≠ Py.Raised (Py.HttpError msg))
     ∧ (Contract.http_error_in_lookup env (Gmail.sender_query env v) h →
        Gmail.find_email_by_sender env v h
        = (Py.Ok None, Contract.lookup_calls env (Gmail.sender_query env v) h)))
  ∧ (∀ (v : Py.pyval) (h : Py.trace),
       (∀ msg, (Gmail.find_email_by_subject env v h).1
               ≠ Py.Raised (Py.HttpError msg))
       ∧ (Contract.http_error_in_lookup env (Gmail.subject_query env v) h →
          Gmail.find_email_by_subject env v h
          = (Py.Ok None, Contract.lookup_calls env (Gmail.subject_query env v) h)))
  ∧ (∀ (request : Chat.ChatRequest) (token : string) (h : Py.trace)
       (command_result parameters : gmap string Py.pyval) (c0 : Py.trace)
       (target : option (gmap string Py.pyval)),
       let sender_email := Py.dict_get parameters "sender_email" (Py.VStr "") in
       let q := Gmail.sender_query env sender_email in
       Contract.classified env request token h command_result c0 →
       Contract.first_matching_branch (Contract.intent_of command_result)
         (Contract.user_text request) = Some Contract.ReplyBranch →
       Contract.parameters_of command_result = Py.VDict parameters →
       Chat.reply_context_lookup
         (Py.dict_get parameters "email_index" (Py.VStr "")) sender_email
         (Contract.context_of request) = Py.Ok target →
       Chat.found target = false →
       Py.truthy sender_email = true →
       Contract.http_error_in_lookup env q (h ++ c0) →
       Chat.process_chat_message env request token h =
       (Py.Ok {| Chat.intent := Contract.intent_of command_result;
                 Chat.confidence := Contract.confidence_of command_result;
                 Chat.message :=
                   "I couldn't find the email you want to reply to. Please try fetching your recent emails first or be more specific about which email to reply to.";
                 Chat.action := Some "error";
                 Chat.data := None |},
        c0 ++ Contract.lookup_calls env q (h ++ c0)))
  ∧ (∀ (request : Chat.ChatRequest) (token : string) (h : Py.trace)
       (command_result parameters : gmap string Py.pyval) (c0 : Py.trace)
       (target : option (gmap string Py.pyval)),
       let sender_email := Py.dict_get parameters "sender_email" (Py.VStr "") in
       let subject_keyword :=
         Py.dict_get parameters "subject_keyword" (Py.VStr "") in
       let q := if Py.truthy sender_email
                then Gmail.sender_query env sender_email
                else Gmail.subject_query env subject_keyword in
       Contract.classified env request token h command_result c0 →
       Contract.first_matching_branch (Contract.intent_of command_result)
         (Contract.user_text request) = Some Contract.DeleteBranch →
       Contract.parameters_of command_result = Py.VDict parameters →
       Chat.delete_context_lookup
         (Py.dict_get parameters "email_index" (Py.VStr "")) sender_email
         subject_keyword (Contract.context_of request) = Py.Ok target →
       Chat.found target = false →
       Py.truthy sender_email || Py.truthy subject_keyword = true →
       Contract.http_error_in_lookup env q (h ++ c0) →
       Chat.process_chat_message env request token h =
       (Py.Ok {| Chat.intent := Contract.intent_of command_result;
                 Chat.confidence := Contract.confidence_of command_result;
                 Chat.message :=
                   "I couldn't find the email you want to delete. Please try fetching your recent emails first or be more specific.";
                 Chat.action := Some "error";
                 Chat.data := None |},
        c0 ++ Contract.lookup_calls env q (h ++ c0))).
Proof.
  split; [|split; [|split]].
  - intros v h. split.
    + intros msg. apply find_first_never_http_error.
    + apply find_first_http_error.
  - intros v h. split.
    + intros msg. apply find_first_never_http_error.
    + apply find_first_http_error.
  - intros request token h command_result parameters c0 target sender_email q
      Hcls Hbranch Hparams Hctx Hfound Hsender Herr.
    rewrite (process_chat_message_classified _ _ _ _ _ _ Hcls).
    rewrite handle_intents_first_match, Hbranch, Hparams.
    cbn [Contract.run_branch].
    rewrite (reply_branch_miss env _ _ _ _ _ (Contract.lookup_calls env q (h ++ c0)));
      [reflexivity|].
    unfold Chat.resolve_reply_target. fold sender_email.
    rewrite Hctx, bind_lift_ok, Hfound, Hsender. cbn [negb andb].
    apply find_first_http_error, Herr.
  - intros request token h command_result parameters c0 target sender_email
      subject_keyword q Hcls Hbranch Hparams Hctx Hfound Hkey Herr.
    rewrite (process_chat_message_classified _ _ _ _ _ _ Hcls).
    rewrite handle_intents_first_match, Hbranch, Hparams.
    cbn [Contract.run_branch].
    rewrite (delete_branch_miss env _ _ _ _ _ (Contract.lookup_calls env q (h ++ c0)));
      [reflexivity|].
    unfold Chat.resolve_delete_target, Chat.delete_provider_fallback.
    fold sender_email subject_keyword.
    rewrite Hctx, bind_lift_ok, Hfound. cbn [negb]. subst q.
    destruct (Py.truthy sender_email).
    + apply find_first_http_error, Herr.
    + cbn [orb] in Hkey. rewrite Hkey. apply find_first_http_error, Herr.
Qed.

Lemma provider_http_error_is_a_miss_witness :
  Chat.process_chat_message Scenario.provider_down_env Scenario.dave_request
    "token" [] =
  (Py.Ok {| Chat.intent := Py.VStr "reply";
            Chat.confidence := Py.VStr "high";
            Chat.message :=
                   "I couldn't find the email you want to reply to. Please try fetching your recent emails first or be more specific about which email to reply to.";
            Chat.action := Some "error";
            Chat.data := None |},
   Scenario.classifier_call "reply to dave" [Scenario.alice]
   ++ [Py.MessagesList 1 "from:dave in:inbox"]).
Proof.
  apply (proj1 (proj2 (proj2
           (provider_http_error_is_a_miss Scenario.provider_down_env)))
           Scenario.dave_request "token" []
           (Scenario.command_dict "reply" Scenario.dave_parameters)
           Scenario.dave_parameters
           (Scenario.classifier_call "reply to dave" [Scenario.alice]) None).
  - repeat split.
  - reflexivity.
  - reflexivity.
  - reflexivity.
  - reflexivity.
  - reflexivity.
  - left. eexists. reflexivity.
Defined.

(** * Further properties of the code *)

(** ** The session store *)

Section SessionFacts.
Import SessionStore.

Lemma get_session_present (tok : string) (now : Z)
    (sessions : gmap string Session) (session : Session) :
  sessions !! tok = Some session →
  get_session tok now sessions =
  if (expires_at session <? now)%Z then (None, delete tok sessions)
  else (Some session, sessions).
Proof. intros H. unfold get_session. rewrite H. reflexivity. Qed.

Lemma get_session_absent (tok : string) (now : Z) (sessions : gmap string Session) :
  sessions !! tok = None → get_session tok now sessions = (None, sessions).
Proof. intros H. unfold get_session. rewrite H. reflexivity. Qed.

Lemma delete_session_lookup (tok tok' : string) (sessions : gmap string Session) :
  delete_session tok sessions !! tok' =
  if decide (tok = tok') then None else sessions !! tok'.
Proof.
  unfold delete_session. destruct (sessions !! tok) eqn:H.
  - apply lookup_delete.
  - destruct (decide (tok = tok')) as [<-|]; [exact H | reflexivity].
Qed.

End SessionFacts.

(** X1. A session lives for 24 hours from the clock reading its expiry
    was computed from: [get_session] returns the session just created,
    with the user data it was created with and without touching the
    store, at every time up to and including that instant plus 24 hours,
    and returns nothing, removing the entry, at every later time. *)
Theorem session_lifetime (data : gmap string Py.pyval) (tok : string)
    (t_created t_expiry now : Z) (sessions : gmap string SessionStore.Session) :
  let store := (SessionStore.create_session data tok t_created t_expiry sessions).2 in
  let session :=
    {| SessionStore.user_data := data;
       SessionStore.created_at := t_created;
       SessionStore.expires_at := t_expiry + 86400000000 |} in
  ((now ≤ t_expiry + 86400000000)%Z →
   SessionStore.get_session tok now store = (Some session, store))
  ∧ ((t_expiry + 86400000000 < now)%Z →
     SessionStore.get_session tok now store = (None, delete tok sessions)).
Proof.
  intros store session.
  assert (Hlook : store !! tok = Some session) by apply lookup_insert_eq.
  rewrite (get_session_present _ _ _ _ Hlook). cbn [SessionStore.expires_at session].
  split; intros Hnow.
  - destruct (Z.ltb_spec (t_expiry + 86400000000) now); [lia | reflexivity].
  - destruct (Z.ltb_spec (t_expiry + 86400000000) now); [|lia].
    f_equal. subst store. cbn [SessionStore.create_session snd].
    apply delete_insert_eq.
Qed.

Lemma session_lifetime_witness :
  let store :=
    (SessionStore.create_session Cases.ada_data "tok-ada" 1000 1000 ∅).2 in
  SessionStore.get_session "tok-ada" 86400001000 store
  = (Some Cases.ada_session, store)
  ∧ SessionStore.get_session "tok-ada" 86400001001 store
    = (None, delete "tok-ada" ∅).
Proof.
  intros store. split.
  - apply (session_lifetime Cases.ada_data "tok-ada" 1000 1000 86400001000 ∅).
    reflexivity || (intros H; discriminate H).
  - apply (session_lifetime Cases.ada_data "tok-ada" 1000 1000 86400001001 ∅).
    reflexivity.
Defined.

(** X2. An expired session is gone for good once [get_session] has met
    it: the entry is deleted, so every later call for the token returns
    nothing whatever the clock then says (also a clock set back before
    the expiry), while the sessions of all other tokens stay as they
    were. *)
Theorem expired_session_is_removed (tok : string) (now : Z)
    (sessions : gmap string SessionStore.Session) (session : SessionStore.Session) :
  sessions !! tok = Some session →
  (SessionStore.expires_at session < now)%Z →
  let store := (SessionStore.get_session tok now sessions).2 in
  (SessionStore.get_session tok now sessions).1 = None
  ∧ (∀ later, SessionStore.get_session tok later store = (None, store))
  ∧ (∀ tok', tok' ≠ tok → store !! tok' = sessions !! tok').
Proof.
  intros Hlook Hexp store. subst store.
  rewrite (get_session_present _ _ _ _ Hlook).
  destruct (Z.ltb_spec (SessionStore.expires_at session) now); [|lia].
  cbn [fst snd]. split; [reflexivity|]. split.
  - intros later. apply get_session_absent, lookup_delete_eq.
  - intros tok' Hne. apply lookup_delete_ne. congruence.
Qed.

Lemma expired_session_is_removed_witness :
  let store := (SessionStore.get_session "tok-ada" 86400001001 Cases.one_session).2 in
  (SessionStore.get_session "tok-ada" 86400001001 Cases.one_session).1 = None
  ∧ (∀ later, SessionStore.get_session "tok-ada" later store = (None, store))
  ∧ (∀ tok', tok' ≠ "tok-ada" → store !! tok' = Cases.one_session !! tok').
Proof.
  apply (expired_session_is_removed "tok-ada" 86400001001 Cases.one_session
           Cases.ada_session).
  - reflexivity.
  - reflexivity.
Defined.

(** X3. [refresh_session] does not look at the expiry.  A session that
    has expired but has not yet been met by [get_session] is still in
    the store: refreshing it succeeds and gives it 24 hours from the
    refresh, so [get_session], which would have refused it, returns it
    again with its user data.  A token that is not in the store is
    answered [False] and the store is left alone. *)
Theorem refresh_revives_expired_session (tok : string) (now : Z)
    (sessions : gmap string SessionStore.Session) :
  (∀ session, sessions !! tok = Some session →
     (SessionStore.expires_at session < now)%Z →
     let store := (SessionStore.refresh_session tok now sessions).2 in
     (SessionStore.get_session tok now sessions).1 = None
     ∧ (SessionStore.refresh_session tok now sessions).1 = true
     ∧ ∀ later, (later ≤ now + 86400000000)%Z →
         SessionStore.get_session tok later store =
         (Some {| SessionStore.user_data := SessionStore.user_data session;
                  SessionStore.created_at := SessionStore.created_at session;
                  SessionStore.expires_at := now + 86400000000 |}, store))
  ∧ (sessions !! tok = None →
     SessionStore.refresh_session tok now sessions = (false, sessions)).
Proof.
  split.
  - intros session Hlook Hexp store. subst store.
    rewrite (get_session_present _ _ _ _ Hlook).
    destruct (Z.ltb_spec (SessionStore.expires_at session) now); [|lia].
    unfold SessionStore.refresh_session. rewrite Hlook. cbn [fst snd].
    split; [reflexivity|]. split; [reflexivity|].
    intros later Hlater.
    rewrite (get_session_present _ _ _ _ (lookup_insert_eq _ _ _)).
    cbn [SessionStore.expires_at].
    destruct (Z.ltb_spec (now + SessionStore.session_expiry) later) as [Hlt|];
      [|reflexivity].
    unfold SessionStore.session_expiry in Hlt. lia.
  - intros Hnone. unfold SessionStore.refresh_session. rewrite Hnone. reflexivity.
Qed.

Lemma refresh_revives_expired_session_witness :
  let store :=
    (SessionStore.refresh_session "tok-ada" 86400001001 Cases.one_session).2 in
  (SessionStore.get_session "tok-ada" 86400001001 Cases.one_session).1 = None
  ∧ (SessionStore.refresh_session "tok-ada" 86400001001 Cases.one_session).1 = true
  ∧ (SessionStore.get_session "tok-ada" 90000000000 store).1
    = Some {| SessionStore.user_data := Cases.ada_data;
              SessionStore.created_at := 1000;
              SessionStore.expires_at := 86400001001 + 86400000000 |}.
Proof.
  intros store.
  destruct (refresh_revives_expired_session "tok-ada" 86400001001
              Cases.one_session) as [H _].
  destruct (H Cases.ada_session eq_refl eq_refl) as (Hgone & Hrefreshed & Hlive).
  split; [exact Hgone|]. split; [exact Hrefreshed|]. subst store.
  rewrite (Hlive 90000000000%Z); [reflexivity | intros Hgt; discriminate Hgt].
Defined.

(** X4. Logging out is final and idempotent.  After [logout] the token
    is unknown at every time: [get_session] returns nothing and the
    route /me answers 401 "Invalid or expired session"; logging out
    again, or logging out a token that never existed, changes nothing;
    and the sessions of all other tokens are untouched. *)
Theorem logout_is_final (tok : string) (sessions : gmap string SessionStore.Session) :
  let store := (Auth.logout tok sessions).2 in
  (∀ now, SessionStore.get_session tok now store = (None, store))
  ∧ (∀ now, Auth.get_current_user tok now store =
            (Py.Raised (Py.HTTPException 401 "Invalid or expired session"), store))
  ∧ (Auth.logout tok store).2 = store
  ∧ (sessions !! tok = None → store = sessions)
  ∧ (∀ tok', tok' ≠ tok → store !! tok' = sessions !! tok').
Proof.
  intros store. subst store. cbn [Auth.logout snd].
  assert (Hgone : SessionStore.delete_session tok sessions !! tok = None).
  { rewrite delete_session_lookup. destruct (decide (tok = tok)); congruence. }
  split; [|split; [|split; [|split]]].
  - intros now. apply get_session_absent, Hgone.
  - intros now. unfold Auth.get_current_user.
    rewrite (get_session_absent _ _ _ Hgone). reflexivity.
  - unfold SessionStore.delete_session at 1. rewrite Hgone. reflexivity.
  - intros Hnone. unfold SessionStore.delete_session. rewrite Hnone. reflexivity.
  - intros tok' Hne. rewrite delete_session_lookup.
    destruct (decide (tok = tok')); congruence.
Qed.

Lemma logout_is_final_witness :
  let store := (Auth.logout "tok-ada" Cases.one_session).2 in
  Auth.get_current_user "tok-ada" 2000 store
  = (Py.Raised (Py.HTTPException 401 "Invalid or expired session"), store)
  ∧ (Auth.logout "tok-ada" store).2 = store
  ∧ (Auth.logout "tok-bob" Cases.one_session).2 = Cases.one_session.
Proof.
  intros store.
  destruct (logout_is_final "tok-ada" Cases.one_session) as (_ & Hme & Hagain & _).
  destruct (logout_is_final "tok-bob" Cases.one_session) as (_ & _ & _ & Hnone & _).
  split; [apply Hme|]. split; [exact Hagain|]. apply Hnone. reflexivity.
Defined.

Section CredentialFacts.
Import Py SessionStore.
Variable valid expired : Auth.Credentials → bool.
Variable refresh : Auth.Credentials → Exc Auth.Credentials.

Lemma get_credentials_no_session (tok : string) (now : Z)
    (sessions : gmap string Session) :
  (get_session tok now sessions).1 = None →
  Auth.get_credentials valid expired refresh tok now sessions =
  (Raised (HTTPException 401 "Invalid or expired session"),
   (get_session tok now sessions).2).
Proof.
  intros H. unfold Auth.get_credentials.
  destruct (get_session tok now sessions) as [[session|] store]; [discriminate|].
  reflexivity.
Qed.

End CredentialFacts.

(** X5. What [get_credentials] can raise.  Every exception it raises is
    an [HTTPException] with status 401 (unknown or expired session, no
    stored credentials, credentials that are invalid and cannot be
    refreshed, a refresh that failed), with one exception: when the
    session stores under "credentials" a value that is truthy and not a
    dict, reading its fields fails with an [AttributeError]. *)
Theorem get_credentials_failures (valid expired : Auth.Credentials → bool)
    (refresh : Auth.Credentials → Py.Exc Auth.Credentials)
    (tok : string) (now : Z) (sessions : gmap string SessionStore.Session)
    (e : Py.exn) :
  (Auth.get_credentials valid expired refresh tok now sessions).1 = Py.Raised e →
  (∃ detail, e = Py.HTTPException 401 detail)
  ∨ (∃ session stored,
       sessions !! tok = Some session
       ∧ SessionStore.user_data session !! "credentials" = Some stored
       ∧ Py.truthy stored = true
       ∧ (∀ d, stored ≠ Py.VDict d)
       ∧ e = Py.no_attribute stored "get").
Proof.
  unfold Auth.get_credentials, SessionStore.get_session.
  destruct (sessions !! tok) as [session|] eqn:Hlook;
    [|cbn [fst]; intros [= He]; subst e; left; eauto].
  destruct (SessionStore.expires_at session <? now)%Z;
    [cbn [fst]; intros [= He]; subst e; left; eauto|].
  unfold Py.dict_get.
  destruct (SessionStore.user_data session !! "credentials") as [stored|] eqn:Hc;
    cbn [default from_option id]; [|cbn [fst negb Py.truthy]; intros [= He]; subst e; left; eauto].
  destruct (Py.truthy stored) eqn:Htruthy; cbn [negb];
    [|cbn [fst]; intros [= He]; subst e; left; eauto].
  destruct stored;
    try (cbn [fst]; intros [= He]; subst e; right; exists session; eexists;
         repeat split; eauto; discriminate).
  match goal with
  | |- context [valid ?c] => destruct (valid c)
  end; cbn [negb]; [discriminate|].
  match goal with
  | |- context [expired ?c && ?t] => destruct (expired c && t)
  end; [|cbn [fst]; intros [= He]; subst e; left; eauto].
  match goal with
  | |- context [refresh ?c] => destruct (refresh c)
  end; [discriminate | cbn [fst]; intros [= He]; subst e; left; eauto].
Qed.

Lemma get_credentials_failures_witness :
  (∃ detail, Py.HTTPException 401 "Invalid or expired session"
             = Py.HTTPException 401 detail)
  ∨ (∃ session stored,
       Cases.one_session !! "tok-bob" = Some session
       ∧ SessionStore.user_data session !! "credentials" = Some stored
       ∧ Py.truthy stored = true
       ∧ (∀ d, stored ≠ Py.VDict d)
       ∧ Py.HTTPException 401 "Invalid or expired session"
         = Py.no_attribute stored "get").
Proof.
  apply (get_credentials_failures Cases.never_valid Cases.always_expired
           Cases.refresh_to_new "tok-bob" 2000 Cases.one_session).
  reflexivity.
Defined.

(** X6. Credentials that are not expired are never refreshed.  The
    credentials object is built from the stored fields alone, without an
    expiry; when the library reports such credentials as not expired,
    [get_credentials] never reaches the refresh: its outcome is the same
    whatever the refresh would do, it leaves the store as [get_session]
    left it (no token is written back), and for a live session with a
    non-empty dict of stored credentials it returns the credentials as
    built when they are valid and raises 401 "Credentials expired" when
    they are not. *)
Theorem unexpired_credentials_never_refresh (valid expired : Auth.Credentials → bool)
    (tok : string) (now : Z) (sessions : gmap string SessionStore.Session) :
  (∀ c, expired c = false) →
  (∀ refresh refresh',
     Auth.get_credentials valid expired refresh tok now sessions
     = Auth.get_credentials valid expired refresh' tok now sessions)
  ∧ (∀ refresh,
       (Auth.get_credentials valid expired refresh tok now sessions).2
       = (SessionStore.get_session tok now sessions).2)
  ∧ (∀ refresh session stored,
       (SessionStore.get_session tok now sessions).1 = Some session →
       SessionStore.user_data session !! "credentials" = Some (Py.VDict stored) →
       stored ≠ ∅ →
       let credentials :=
         {| Auth.token := Py.dict_get stored "token" Py.VNone;
            Auth.refresh_token := Py.dict_get stored "refresh_token" Py.VNone;
            Auth.token_uri := Py.dict_get stored "token_uri" Py.VNone;
            Auth.client_id := Py.dict_get stored "client_id" Py.VNone;
            Auth.client_secret := Py.dict_get stored "client_secret" Py.VNone;
            Auth.scopes := Py.dict_get stored "scopes" Py.VNone |} in
       (Auth.get_credentials valid expired refresh tok now sessions).1
       = if valid credentials then Py.Ok credentials
         else Py.Raised (Py.HTTPException 401 "Credentials expired")).
Proof.
  intros Hexpired.
  assert (Hany : ∀ refresh,
            Auth.get_credentials valid expired refresh tok now sessions
            = Auth.get_credentials valid expired (λ c, Py.Ok c) tok now sessions
            ∧ (Auth.get_credentials valid expired refresh tok now sessions).2
              = (SessionStore.get_session tok now sessions).2).
  { intros refresh. unfold Auth.get_credentials.
    destruct (SessionStore.get_session tok now sessions) as [[session|] store];
      [|split; reflexivity].
    destruct (negb (Py.truthy _)); [split; reflexivity|].
    destruct (Py.dict_get _ "credentials" Py.VNone); try (split; reflexivity).
    rewrite Hexpired. destruct (negb (valid _)); split; reflexivity. }
  split; [|split].
  - intros refresh refresh'.
    rewrite (proj1 (Hany refresh)), (proj1 (Hany refresh')). reflexivity.
  - intros refresh. apply Hany.
  - intros refresh session stored Hsession Hstored Hne credentials.
    unfold Auth.get_credentials.
    destruct (SessionStore.get_session tok now sessions) as [[session'|] store];
      [|discriminate].
    cbn [fst] in Hsession. injection Hsession as ->.
    assert (Hget : Py.dict_get (SessionStore.user_data session) "credentials"
                     Py.VNone = Py.VDict stored)
      by (unfold Py.dict_get; rewrite Hstored; reflexivity).
    rewrite Hget.
    assert (Htruthy : Py.truthy (Py.VDict stored) = true).
    { unfold Py.truthy. destruct (size stored) eqn:Hsize; [|reflexivity].
      apply map_size_empty_iff in Hsize. contradiction. }
    rewrite Htruthy, Hexpired. cbn [negb andb]. fold credentials.
    destruct (valid credentials); reflexivity.
Qed.

Lemma unexpired_credentials_never_refresh_witness :
  Auth.get_credentials Cases.never_valid (λ _, false) Cases.refresh_to_new
    "tok-ada" 2000 Cases.one_session
  = (Py.Raised (Py.HTTPException 401 "Credentials expired"), Cases.one_session).
Proof.
  destruct (unexpired_credentials_never_refresh Cases.never_valid (λ _, false)
              "tok-ada" 2000 Cases.one_session (λ _, eq_refl))
    as (_ & Hstore & Hanswer).
  rewrite (surjective_pairing (Auth.get_credentials _ _ _ _ _ _)).
  rewrite (Hstore Cases.refresh_to_new).
  rewrite (Hanswer Cases.refresh_to_new Cases.ada_session Cases.stored_credentials).
  - reflexivity.
  - reflexivity.
  - reflexivity.
  - intros H. apply (f_equal (λ m, m !! "token")) in H. vm_compute in H.
    discriminate.
Defined.

(** ** The mailbox wrapper, continued *)

Section FetchFacts.
Import Py.
Variable env : Env.

Lemma kept_length (h : trace) (ids : list string) :
  length (Behaviour.kept env h ids) ≤ length ids.
Proof.
  revert h. induction ids as [|msg_id ids IH]; intros h; simpl; [lia|].
  rewrite length_app. specialize (IH (h ++ [MessagesGet msg_id])).
  destruct (messages_get env h msg_id); simpl; lia.
Qed.

Lemma fetch_loop_kept (ids : list string) (acc : list (gmap string pyval))
    (h : trace) :
  (∀ i msg_id e, ids !! i = Some msg_id →
     messages_get env (h ++ (MessagesGet <$> take i ids)) msg_id = Raised e →
     ∃ msg, e = HttpError msg) →
  for_each ids (Gmail.fetch_one env) acc h =
  (Ok (acc ++ Behaviour.kept env h ids), MessagesGet <$> ids).
Proof.
  revert acc h. induction ids as [|msg_id ids IH]; intros acc h Herr.
  - simpl. rewrite app_nil_r. reflexivity.
  - cbn [for_each]. rewrite bind_run, fetch_one_run.
    assert (Hrest : ∀ i msg_id' e, ids !! i = Some msg_id' →
              messages_get env ((h ++ [MessagesGet msg_id])
                                ++ (MessagesGet <$> take i ids)) msg_id' = Raised e →
              ∃ msg, e = HttpError msg).
    { intros i msg_id' e Hi He. apply (Herr (S i) msg_id' e Hi).
      cbn [take fmap list_fmap]. rewrite <- app_assoc in He. exact He. }
    pose proof (Herr 0%nat msg_id) as Hfirst. cbn [take fmap list_fmap] in Hfirst.
    rewrite app_nil_r in Hfirst. specialize (λ e, Hfirst e eq_refl).
    cbn [Behaviour.kept].
    destruct (messages_get env h msg_id) as [m|e].
    + cbn [fst snd]. rewrite (IH _ _ Hrest). cbn [fst snd].
      rewrite <- app_assoc. reflexivity.
    + destruct (Hfirst e eq_refl) as [msg ->].
      cbn [fst snd]. rewrite (IH _ _ Hrest). reflexivity.
Qed.

End FetchFacts.

(** X7. [get_recent_emails] drops what it cannot fetch and keeps the
    rest in order.  When the listing answers and every failing fetch
    fails with an [HttpError], the call succeeds: it has asked for every
    listed message once, in listing order, and returns the parsed
    messages whose fetch succeeded, in that order, so never more emails
    than were listed. *)
Theorem recent_emails_skip_failed_fetches (env : Env) (max_results : nat)
    (h : Py.trace) (ids : list string) :
  messages_list env h max_results "in:inbox" = Py.Ok ids →
  (∀ i msg_id e, ids !! i = Some msg_id →
     messages_get env
       (h ++ Py.MessagesList max_results "in:inbox" :: (Py.MessagesGet <$> take i ids))
       msg_id = Py.Raised e →
     ∃ msg, e = Py.HttpError msg) →
  let emails :=
    Behaviour.kept env (h ++ [Py.MessagesList max_results "in:inbox"]) ids in
  Gmail.get_recent_emails env max_results h =
  (Py.Ok emails,
   Py.MessagesList max_results "in:inbox" :: (Py.MessagesGet <$> ids))
  ∧ length emails ≤ length ids.
Proof.
  intros Hlist Herr emails. split; [|apply kept_length].
  unfold Gmail.get_recent_emails. rewrite bind_run.
  unfold Gmail.list_messages, Py.perform. rewrite Hlist.
  rewrite (fetch_loop_kept env ids []).
  - reflexivity.
  - intros i msg_id e Hi He. apply (Herr i msg_id e Hi).
    rewrite <- app_assoc in He. exact He.
Qed.

Lemma recent_emails_skip_failed_fetches_witness :
  let emails :=
    Behaviour.kept Cases.gap_env ([] ++ [Py.MessagesList 5 "in:inbox"])
      ["a"; "b"; "c"] in
  Gmail.get_recent_emails Cases.gap_env 5 [] =
  (Py.Ok emails,
   Py.MessagesList 5 "in:inbox" :: (Py.MessagesGet <$> ["a"; "b"; "c"]))
  ∧ length emails ≤ length ["a"; "b"; "c"].
Proof.
  apply (recent_emails_skip_failed_fetches Cases.gap_env 5 [] ["a"; "b"; "c"]).
  - reflexivity.
  - intros i msg_id e Hi He.
    destruct i as [|[|[|i]]]; try discriminate; injection Hi as <-;
      vm_compute in He; first [discriminate | injection He as <-; eauto].
Defined.

Section ParseFacts.
Import Py GmailAPI.
Variable env : Env.

Lemma fold_headers_lookup (hs : list (string * string)) (d : gmap string string)
    (name : string) :
  fold_left (λ d h, <[h.1 := h.2]> d) hs d !! name =
  match Behaviour.last_header name hs with
  | Some v => Some v
  | None => d !! name
  end.
Proof.
  revert d. induction hs as [|[n v] hs IH]; intros d; [reflexivity|].
  cbn [fold_left Behaviour.last_header]. rewrite IH.
  destruct (Behaviour.last_header name hs); [reflexivity|].
  cbn [fst snd]. destruct (String.eqb_spec n name) as [->|Hne].
  - apply lookup_insert_eq.
  - apply lookup_insert_ne. exact Hne.
Qed.

(** The dict comprehension over the headers keeps, for each name, the
    value of the last header of that name. *)
Lemma headers_dict_last (hs : list (string * string)) (name : string) :
  Gmail.headers_dict hs !! name = Behaviour.last_header name hs.
Proof.
  unfold Gmail.headers_dict. rewrite fold_headers_lookup.
  destruct (Behaviour.last_header name hs); [reflexivity | apply lookup_empty].
Qed.

Lemma rstrip_idempotent (s : string) : PyText.rstrip (PyText.rstrip s) = PyText.rstrip s.
Proof.
  induction s as [|c s IH]; [reflexivity|]. cbn [PyText.rstrip].
  destruct (PyText.rstrip s) as [|d r] eqn:Hr.
  - destruct (PyText.isspace c) eqn:Hc; [reflexivity|].
    cbn [PyText.rstrip]. rewrite Hc. reflexivity.
  - change (PyText.rstrip (String c (String d r))) with
      (match PyText.rstrip (String d r) with
       | EmptyString =>
           if PyText.isspace c then EmptyString else String c EmptyString
       | r' => String c r'
       end).
    rewrite IH. reflexivity.
Qed.

Lemma lstrip_head (s : string) :
  match PyText.lstrip s with
  | EmptyString => True
  | String c _ => PyText.isspace c = false
  end.
Proof.
  induction s as [|c s IH]; [exact I|]. cbn [PyText.lstrip].
  destruct (PyText.isspace c) eqn:Hc; [exact IH | exact Hc].
Qed.

Lemma lstrip_rstrip (s : string) :
  match s with
  | EmptyString => True
  | String c _ => PyText.isspace c = false
  end →
  PyText.lstrip (PyText.rstrip s) = PyText.rstrip s.
Proof.
  destruct s as [|c s]; [reflexivity|]. intros Hc. cbn [PyText.rstrip].
  destruct (PyText.rstrip s); [rewrite Hc|]; cbn [PyText.lstrip]; rewrite Hc;
    reflexivity.
Qed.

Lemma strip_idempotent (s : string) : PyText.strip (PyText.strip s) = PyText.strip s.
Proof.
  unfold PyText.strip.
  rewrite (lstrip_rstrip _ (lstrip_head s)). apply rstrip_idempotent.
Qed.

Lemma body_of_parts_skip (part : MessagePart) (rest : list MessagePart) :
  Gmail.body_of_parts env (part :: rest) =
  match Behaviour.usable env part with
  | Some body => body
  | None => Gmail.body_of_parts env rest
  end.
Proof.
  cbn [Gmail.body_of_parts]. unfold Behaviour.usable, Gmail.decode.
  destruct (_ || _); [|reflexivity].
  destruct (part_body_data part) as [data|]; [|reflexivity].
  destruct (String.eqb data ""); [reflexivity|].
  destruct (urlsafe_b64decode env data); reflexivity.
Qed.

Lemma body_of_parts_first_usable (skipped : list MessagePart) (part : MessagePart)
    (rest : list MessagePart) (body : string) :
  Forall (λ p, Behaviour.usable env p = None) skipped →
  Behaviour.usable env part = Some body →
  Gmail.body_of_parts env (skipped ++ part :: rest) = body.
Proof.
  intros Hskip Hpart. induction Hskip as [|p skipped Hp _ IH].
  - rewrite app_nil_l, body_of_parts_skip, Hpart. reflexivity.
  - rewrite <- app_comm_cons, body_of_parts_skip, Hp. exact IH.
Qed.

Lemma body_of_parts_none_usable (ps : list MessagePart) :
  Forall (λ p, Behaviour.usable env p = None) ps →
  Gmail.body_of_parts env ps = "".
Proof.
  induction 1 as [|p ps Hp _ IH]; [reflexivity|].
  rewrite body_of_parts_skip, Hp. exact IH.
Qed.

End ParseFacts.

(** X8. The shape of a parsed message.  [_parse_message] always returns
    a dict with exactly the nine keys id, thread_id, sender_name,
    sender_email, subject, body, date, snippet and labels.  The id is the
    message's; subject and date are taken from the last header of that
    name, the subject being "(No subject)" and the date empty when there
    is none; and the sender name is empty only when the sender address
    is empty too, since an empty display name is replaced by the
    address. *)
Theorem parsed_message_shape (env : Env) (message : GmailAPI.Message) :
  let email := Gmail._parse_message env message in
  let hs := default [] (GmailAPI.headers (GmailAPI.payload message)) in
  dom email =
    {[ "id"; "thread_id"; "sender_name"; "sender_email"; "subject"; "body";
       "date"; "snippet"; "labels" ]}
  ∧ email !! "id" = Some (Py.VStr (GmailAPI.id message))
  ∧ email !! "subject"
    = Some (Py.VStr (default "(No subject)" (Behaviour.last_header "Subject" hs)))
  ∧ email !! "date" = Some (Py.VStr (default "" (Behaviour.last_header "Date" hs)))
  ∧ ∃ sender_name sender_email : string,
      email !! "sender_name" = Some (Py.VStr sender_name)
      ∧ email !! "sender_email" = Some (Py.VStr sender_email)
      ∧ sender_email
        = (parseaddr env (default "" (Behaviour.last_header "From" hs))).2
      ∧ (sender_name = "" → sender_email = "").
Proof.
  intros email hs. subst email. unfold Gmail._parse_message. fold hs.
  rewrite !headers_dict_last.
  destruct (parseaddr env (default "" (Behaviour.last_header "From" hs)))
    as [name addr] eqn:Haddr.
  split; [|split; [|split; [|split]]].
  - rewrite !dom_insert_L, dom_empty_L. set_solver.
  - by simplify_map_eq.
  - by simplify_map_eq.
  - by simplify_map_eq.
  - eexists _, addr. split; [by simplify_map_eq|].
    split; [by simplify_map_eq|]. split; [reflexivity|].
    destruct (String.eqb_spec name ""); [auto | contradiction].
Qed.

Lemma parsed_message_shape_witness :
  let email :=
    Gmail._parse_message Scenario.inbox_env
      (Scenario.stored "a" "a@x.com" "About a") in
  email !! "id" = Some (Py.VStr "a")
  ∧ email !! "subject" = Some (Py.VStr "About a")
  ∧ email !! "date" = Some (Py.VStr "").
Proof.
  intros email.
  destruct (parsed_message_shape Scenario.inbox_env
              (Scenario.stored "a" "a@x.com" "About a"))
    as (_ & Hid & Hsubject & Hdate & _).
  split; [exact Hid|]. split; [exact Hsubject | exact Hdate].
Defined.

(** X9. The body of a message.  [_extract_body] returns text without
    leading or trailing whitespace (stripping it again changes nothing).
    For a multipart message the first part that is of type text/plain or
    text/html and whose data decodes gives the body, whatever parts
    follow it; when no part qualifies the body is empty, and data on the
    payload itself is never read once the payload has parts. *)
Theorem extracted_body (env : Env) (payload : GmailAPI.MessagePayload) :
  PyText.strip (Gmail._extract_body env payload) = Gmail._extract_body env payload
  ∧ (∀ skipped part rest body,
       GmailAPI.parts payload = Some (skipped ++ part :: rest) →
       Forall (λ p, Behaviour.usable env p = None) skipped →
       Behaviour.usable env part = Some body →
       Gmail._extract_body env payload = PyText.strip body)
  ∧ (∀ ps, GmailAPI.parts payload = Some ps →
       Forall (λ p, Behaviour.usable env p = None) ps →
       Gmail._extract_body env payload = "").
Proof.
  split; [|split].
  - unfold Gmail._extract_body. apply strip_idempotent.
  - intros skipped part rest body Hparts Hskip Hpart.
    unfold Gmail._extract_body. rewrite Hparts.
    rewrite (body_of_parts_first_usable env _ _ _ _ Hskip Hpart). reflexivity.
  - intros ps Hparts Hnone. unfold Gmail._extract_body. rewrite Hparts.
    rewrite (body_of_parts_none_usable env _ Hnone). reflexivity.
Qed.

Lemma extracted_body_witness :
  Gmail._extract_body Scenario.inbox_env Cases.mixed_payload = "hi".
Proof.
  destruct (extracted_body Scenario.inbox_env Cases.mixed_payload)
    as (_ & Hfirst & _).
  apply (Hfirst
           [ {| GmailAPI.mimeType := Some "image/png";
                GmailAPI.part_body_data := Some "iVBOR" |} ]
           {| GmailAPI.mimeType := Some "text/plain";
              GmailAPI.part_body_data := Some " hi " |}
           [ {| GmailAPI.mimeType := Some "text/html";
                GmailAPI.part_body_data := Some "<p>hi</p>" |} ]
           " hi ").
  - reflexivity.
  - repeat constructor.
  - reflexivity.
Defined.

(** ** The chat route, continued *)

(** X10. The batch size of the read branch.  It is 5 or 20, and it is 20
    exactly when the lower-cased trimmed message contains neither "few"
    nor "some" and contains "many", "all" or "20", all as substrings:
    "few" and "some" win over "many", "all" and "20".  That size is what
    the read branch asks the provider for in its first call after the
    classifier's. *)
Theorem read_batch_size (env : Env) (request : Chat.ChatRequest) (token : string)
    (h : Py.trace) (command_result : gmap string Py.pyval) (c0 : Py.trace) :
  let text := Contract.user_text request in
  let n := Chat.read_max_results text in
  (n = 5 ∨ n = 20)
  ∧ (n = 20 ↔
     PyText.contains "few" text = false ∧ PyText.contains "some" text = false
     ∧ (PyText.contains "many" text = true ∨ PyText.contains "all" text = true
        ∨ PyText.contains "20" text = true))
  ∧ (Contract.classified env request token h command_result c0 →
     Contract.first_matching_branch (Contract.intent_of command_result) text
       = Some Contract.ReadBranch →
     ∃ rest, (Chat.process_chat_message env request token h).2
             = c0 ++ Py.MessagesList n "in:inbox" :: rest).
Proof.
  intros text n. subst n. unfold Chat.read_max_results.
  split; [|split].
  - destruct (_ || _); [auto|]. destruct (_ || _); auto.
  - destruct (PyText.contains "few" text), (PyText.contains "some" text),
      (PyText.contains "many" text), (PyText.contains "all" text),
      (PyText.contains "20" text); cbn [orb];
      split; first [discriminate | intros (? & ? & [?|[?|?]]); discriminate
                   | intuition congruence | auto].
  - intros Hcls Hbranch.
    rewrite (process_chat_message_classified _ _ _ _ _ _ Hcls).
    rewrite handle_intents_first_match. fold text. rewrite Hbranch.
    cbn [Contract.run_branch]. unfold Chat.read_branch. rewrite bind_run.
    fold (Chat.read_max_results text).
    destruct (get_recent_emails_first_call env (Chat.read_max_results text) (h ++ c0))
      as [rest Hrest].
    destruct (Gmail.get_recent_emails env _ (h ++ c0)) as [[emails|e] c1];
      cbn [fst snd] in *; subst c1; eexists;
      [rewrite <- app_comm_cons|]; reflexivity.
Qed.

Lemma read_batch_size_witness :
  Chat.read_max_results "show me many emails" = 20
  ∧ ∃ rest,
      (Chat.process_chat_message Scenario.inbox_env
         (Scenario.request "Show me MANY emails" []) "token" []).2
      = Scenario.classifier_call "Show me MANY emails" []
        ++ Py.MessagesList 20 "in:inbox" :: rest.
Proof.
  destruct (read_batch_size Scenario.inbox_env
              (Scenario.request "Show me MANY emails" []) "token" []
              (AI.unknown_command (Py.ValueError "Expecting value"))
              (Scenario.classifier_call "Show me MANY emails" []))
    as (_ & Hiff & Hcall).
  split.
  - apply Hiff. split; [reflexivity|]. split; [reflexivity|]. left. reflexivity.
  - apply Hcall; [repeat split | reflexivity].
Defined.

(** X11. What the chat route can raise.  Every exception that leaves
    [process_chat_message] is an [HTTPException].  When the session
    cannot be resolved the route stops before any call to the model or
    to the provider, and what it raises is the resolver's exception
    itself if that is an [HTTPException] (a 401 stays a 401) and status
    500 with its text otherwise. *)
Theorem chat_route_failures (env : Env) (request : Chat.ChatRequest)
    (token : string) (h : Py.trace) :
  (∀ e, (Chat.process_chat_message env request token h).1 = Py.Raised e →
        ∃ status detail, e = Py.HTTPException status detail)
  ∧ (∀ e, get_credentials env token = Py.Raised e →
          Chat.process_chat_message env request token h
          = (Py.Raised (Chat.http_error e), []))
  ∧ (∀ status detail,
       Chat.http_error (Py.HTTPException status detail)
       = Py.HTTPException status detail)
  ∧ (∀ e, (∀ status detail, e ≠ Py.HTTPException status detail) →
          Chat.http_error e = Py.HTTPException 500 (Py.exn_str e)).
Proof.
  split; [|split; [|split]].
  - intros e. unfold Chat.process_chat_message. rewrite http_boundary_run.
    cbn [fst]. destruct (_ h).1 as [a|e0]; [discriminate|].
    cbn [Contract.at_boundary]. intros [= He]. subst e.
    destruct e0; cbn [Chat.http_error]; eauto.
  - intros e He. unfold Chat.process_chat_message. rewrite http_boundary_run.
    rewrite He, bind_lift_raised. reflexivity.
  - reflexivity.
  - intros e Hne. destruct e; try reflexivity. exfalso. eapply Hne. reflexivity.
Qed.

Lemma chat_route_failures_witness :
  Chat.process_chat_message Cases.no_session_env Scenario.hello_request "gone" []
  = (Py.Raised (Py.HTTPException 401 "Invalid or expired session"), []).
Proof.
  destruct (chat_route_failures Cases.no_session_env Scenario.hello_request
              "gone" []) as (_ & Hstop & _).
  apply (Hstop (Py.HTTPException 401 "Invalid or expired session")).
  reflexivity.
Defined.

Section BranchErrors.
Import Py.
Variable env : Env.

Lemma reply_branch_bad_parameters (intent confidence parameters : pyval)
    (ctx : list (gmap string pyval)) (h : trace) :
  (∀ d, parameters ≠ VDict d) →
  Chat.reply_branch env intent confidence parameters ctx h
  = (Raised (no_attribute parameters "get"), []).
Proof.
  intros Hnd. unfold Chat.reply_branch, obj_get.
  destruct parameters; try reflexivity. exfalso. eapply Hnd. reflexivity.
Qed.

Lemma delete_branch_bad_parameters (intent confidence parameters : pyval)
    (ctx : list (gmap string pyval)) (h : trace) :
  (∀ d, parameters ≠ VDict d) →
  Chat.delete_branch env intent confidence parameters ctx h
  = (Raised (no_attribute parameters "get"), []).
Proof.
  intros Hnd. unfold Chat.delete_branch, obj_get.
  destruct parameters; try reflexivity. exfalso. eapply Hnd. reflexivity.
Qed.

Lemma index_given_not_a_string (v : pyval) :
  truthy v = true → (∀ s, v ≠ VStr s) →
  Chat.index_given v = Raised (no_attribute v "isdigit").
Proof.
  intros Ht Hns. unfold Chat.index_given. rewrite Ht.
  destruct v; try reflexivity. exfalso. eapply Hns. reflexivity.
Qed.

End BranchErrors.

(** X12. A classifier answer whose "parameters" is not an object fails
    the reply and delete branches.  When the message is routed to one of
    them and the value under "parameters" is anything but a dict (null,
    a string, a list, a number), the route raises status 500 with the
    text of the attribute error, having made no call after the
    classifier's. *)
Theorem non_object_parameters_fail (env : Env) (request : Chat.ChatRequest)
    (token : string) (h : Py.trace) (command_result : gmap string Py.pyval)
    (c0 : Py.trace) (b : Contract.branch) :
  Contract.classified env request token h command_result c0 →
  Contract.first_matching_branch (Contract.intent_of command_result)
    (Contract.user_text request) = Some b →
  b = Contract.ReplyBranch ∨ b = Contract.DeleteBranch →
  (∀ d, Contract.parameters_of command_result ≠ Py.VDict d) →
  Chat.process_chat_message env request token h =
  (Py.Raised
     (Py.HTTPException 500
        ("'" +:+ Py.type_name (Contract.parameters_of command_result)
         +:+ "' object has no attribute 'get'")),
   c0).
Proof.
  intros Hcls Hbranch Hb Hnd.
  rewrite (process_chat_message_classified _ _ _ _ _ _ Hcls).
  rewrite handle_intents_first_match, Hbranch.
  destruct Hb as [-> | ->]; cbn [Contract.run_branch].
  - rewrite (reply_branch_bad_parameters env _ _ _ _ _ Hnd).
    cbn. rewrite app_nil_r. reflexivity.
  - rewrite (delete_branch_bad_parameters env _ _ _ _ _ Hnd).
    cbn. rewrite app_nil_r. reflexivity.
Qed.

(** X13. An email_index that is a JSON number fails the reply and
    delete branches.  With a non-empty context, when the value under
    "email_index" is truthy and not a string (the number 2, say, where
    the string "2" is expected), the index test calls [isdigit] on it
    and the route raises status 500 with the text of the attribute
    error; no call follows the classifier's. *)
Theorem non_string_index_fails (env : Env) (request : Chat.ChatRequest)
    (token : string) (h : Py.trace)
    (command_result parameters : gmap string Py.pyval)
    (c0 : Py.trace) (b : Contract.branch) (index : Py.pyval) :
  Contract.classified env request token h command_result c0 →
  Contract.first_matching_branch (Contract.intent_of command_result)
    (Contract.user_text request) = Some b →
  b = Contract.ReplyBranch ∨ b = Contract.DeleteBranch →
  Contract.parameters_of command_result = Py.VDict parameters →
  parameters !! "email_index" = Some index →
  Py.truthy index = true →
  (∀ s, index ≠ Py.VStr s) →
  Contract.context_of request ≠ [] →
  Chat.process_chat_message env request token h =
  (Py.Raised
     (Py.HTTPException 500
        ("'" +:+ Py.type_name index +:+ "' object has no attribute 'isdigit'")),
   c0).
Proof.
  intros Hcls Hbranch Hb Hparams Hindex Htruthy Hns Hctx.
  rewrite (process_chat_message_classified _ _ _ _ _ _ Hcls).
  rewrite handle_intents_first_match, Hbranch, Hparams.
  assert (Hlen : negb (length (Contract.context_of request) =? 0) = true)
    by (destruct (Contract.context_of request); [contradiction | reflexivity]).
  assert (Hget : Py.dict_get parameters "email_index" (Py.VStr "") = index)
    by (unfold Py.dict_get; rewrite Hindex; reflexivity).
  destruct Hb as [-> | ->]; cbn [Contract.run_branch].
  - unfold Chat.reply_branch, Py.obj_get. rewrite !bind_lift_ok.
    unfold Chat.resolve_reply_target, Chat.reply_context_lookup.
    rewrite Hlen, Hget, (index_given_not_a_string _ Htruthy Hns).
    cbn. rewrite app_nil_r. reflexivity.
  - unfold Chat.delete_branch, Py.obj_get. rewrite !bind_lift_ok.
    unfold Chat.resolve_delete_target, Chat.delete_context_lookup.
    rewrite Hlen, Hget, (index_given_not_a_string _ Htruthy Hns).
    cbn. rewrite app_nil_r. reflexivity.
Qed.

Lemma non_object_parameters_fail_witness :
  Chat.process_chat_message Cases.null_parameters_env Cases.second_request
    "token" [] =
  (Py.Raised
     (Py.HTTPException 500 "'NoneType' object has no attribute 'get'"),
   Scenario.classifier_call "the second one please" [Scenario.alice; Scenario.bob]).
Proof.
  apply (non_object_parameters_fail Cases.null_parameters_env Cases.second_request
           "token" [] Cases.null_parameters_answer
           (Scenario.classifier_call "the second one please"
              [Scenario.alice; Scenario.bob])
           Contract.ReplyBranch).
  - repeat split.
  - reflexivity.
  - left. reflexivity.
  - intros d. discriminate.
Defined.

Lemma non_string_index_fails_witness :
  Chat.process_chat_message Cases.numeric_index_env Cases.second_request
    "token" [] =
  (Py.Raised
     (Py.HTTPException 500 "'int' object has no attribute 'isdigit'"),
   Scenario.classifier_call "the second one please" [Scenario.alice; Scenario.bob]).
Proof.
  apply (non_string_index_fails Cases.numeric_index_env Cases.second_request
           "token" []
           (Scenario.command_dict "delete" Cases.numeric_index_parameters)
           Cases.numeric_index_parameters
           (Scenario.classifier_call "the second one please"
              [Scenario.alice; Scenario.bob])
           Contract.DeleteBranch (Py.VInt 2)).
  - repeat split.
  - reflexivity.
  - right. reflexivity.
  - reflexivity.
  - reflexivity.
  - reflexivity.
  - intros s. discriminate.
  - discriminate.
Defined.

(** X14. The context scan takes the first match and stops there.  When
    every email before some email misses (its field is a string that
    does not contain the needle, compared in lower case) and that email
    matches, the scan returns it, whatever follows it in the context;
    when every email misses, the scan returns nothing; and when the
    first email that does not miss holds a non-string under the key,
    the scan raises the attribute error of calling [lower] on it. *)
Theorem context_scan_first_match (key needle : string)
    (before after : list (gmap string Py.pyval)) (email : gmap string Py.pyval) :
  Forall (Behaviour.field_misses key needle) before →
  (Behaviour.field_matches key needle email →
   Chat.scan_context key (Py.VStr needle) (before ++ email :: after)
   = Py.Ok (Some email))
  ∧ Chat.scan_context key (Py.VStr needle) before = Py.Ok None
  ∧ (∀ v, Py.dict_get email key (Py.VStr "") = v → (∀ s, v ≠ Py.VStr s) →
          Chat.scan_context key (Py.VStr needle) (before ++ email :: after)
          = Py.Raised (Py.no_attribute v "lower")).
Proof.
  intros Hmiss. induction Hmiss as [|e before (field & Hf & Hm) _ IH].
  - split; [|split].
    + intros (field & Hf & Hm). cbn. rewrite Hf. cbn. rewrite Hm. reflexivity.
    + reflexivity.
    + intros v Hv Hns. cbn. rewrite Hv.
      destruct v; try reflexivity. exfalso. eapply Hns. reflexivity.
  - destruct IH as (IH1 & IH2 & IH3).
    assert (Hstep : ∀ rest, Chat.scan_context key (Py.VStr needle) (e :: rest)
                            = Chat.scan_context key (Py.VStr needle) rest).
    { intros rest. cbn [Chat.scan_context Py.str_lower Py.exc_bind].
      rewrite Hf. cbn [Py.str_lower Py.exc_bind]. rewrite Hm. reflexivity. }
    split; [|split].
    + intros Hmatch. rewrite <- app_comm_cons, Hstep. auto.
    + rewrite Hstep. exact IH2.
    + intros v Hv Hns. rewrite <- app_comm_cons, Hstep. auto.
Qed.

Lemma context_scan_first_match_witness :
  (Behaviour.field_matches "sender_email" "BOB" Scenario.bob →
   Chat.scan_context "sender_email" (Py.VStr "BOB")
     ([Scenario.alice] ++ Scenario.bob :: [Scenario.carol])
   = Py.Ok (Some Scenario.bob))
  ∧ Chat.scan_context "sender_email" (Py.VStr "BOB") [Scenario.alice] = Py.Ok None
  ∧ (∀ v, Py.dict_get Scenario.bob "sender_email" (Py.VStr "") = v →
          (∀ s, v ≠ Py.VStr s) →
          Chat.scan_context "sender_email" (Py.VStr "BOB")
            ([Scenario.alice] ++ Scenario.bob :: [Scenario.carol])
          = Py.Raised (Py.no_attribute v "lower")).
Proof.
  apply (context_scan_first_match "sender_email" "BOB" [Scenario.alice]
           [Scenario.carol] Scenario.bob).
  repeat constructor. exists "alice@x.com". split; reflexivity.
Defined.

Section ReplyFacts.
Import Py.
Variable env : Env.

Lemma generate_reply_total (email : gmap string pyval) (user_context : pyval)
    (h : trace) :
  ∃ reply calls,
    AI.generate_reply env email user_context h = (Ok reply, calls)
    ∧ length calls ≤ 1.
Proof.
  unfold AI.generate_reply. rewrite try_except_run, bind_run. unfold lift.
  destruct (py_slice 2000 _) as [body|e]; cbn [fst snd].
  - rewrite bind_run. unfold AI.complete, perform.
    destruct (chat_completions_create env _ _); cbn; eexists _, _;
      (split; [reflexivity | cbn; lia]).
  - cbn. eexists _, _. split; [reflexivity | cbn; lia].
Qed.

(** What the draft is: the fixed apology when no request was made or
    the request raised, the trimmed content of the answer otherwise; and
    the request, when one was made, is the one for this email. *)
Lemma generate_reply_answer (email : gmap string pyval) (user_context : pyval)
    (h : trace) (reply : string) (calls : trace) :
  AI.generate_reply env email user_context h = (Ok reply, calls) →
  (calls = []
   ∨ (∃ req e, calls = [ChatCompletion req]
               ∧ chat_completions_create env h req = Raised e) →
   reply = "I apologize, but I'm having trouble generating a reply right now. Please try again later.")
  ∧ (∀ req content,
       calls = [ChatCompletion req] →
       chat_completions_create env h req = Ok content →
       reply = PyText.strip (default "" content))
  ∧ (∀ req,
       calls = [ChatCompletion req] →
       ∃ body,
         py_slice 2000 (dict_get email "body" (VStr "")) = Ok body
         ∧ req = ReplyRequest
                   (dict_get email "sender_name"
                      (dict_get email "sender_email" (VStr "Unknown")))
                   (dict_get email "subject" (VStr "")) body user_context).
Proof.
  unfold AI.generate_reply. rewrite try_except_run, bind_run. unfold lift.
  destruct (py_slice 2000 _) as [body|e0]; cbn [fst snd].
  - rewrite bind_run. unfold AI.complete, perform. rewrite app_nil_r.
    destruct (chat_completions_create env h _) as [content|e] eqn:Hc;
      cbn; intros [= <- <-].
    + split; [|split].
      * intros [Hnil | (req & e & [= <-] & He)]; [discriminate | congruence].
      * intros req content' [= <-] Hc'. rewrite Hc in Hc'.
        injection Hc' as <-. reflexivity.
      * intros req [= <-]. eexists. split; reflexivity.
    + split; [|split].
      * reflexivity.
      * intros req content' [= <-] Hc'. congruence.
      * intros req [= <-]. eexists. split; reflexivity.
  - cbn. intros [= <- <-]. split; [|split].
    + reflexivity.
    + intros req content [=].
    + intros req [=].
Qed.

End ReplyFacts.

(** X15. The reply branch answers with a draft whenever a target is
    resolved.  When the message is routed to the reply branch and the
    resolved target carries id, sender_email, sender_name and subject,
    the route answers "display_reply" with the identifying stub of the
    target (thread_id being null when the target has none) and the text
    [generate_reply] returned.  That call never raises and makes at most
    one request to the model, which is the reply request for this
    target; the draft is the trimmed content of the model's answer, and
    when no request was made or the request raised, the envelope is
    still returned, with the fixed apology as the draft. *)
Theorem reply_branch_drafts (env : Env) (request : Chat.ChatRequest)
    (token : string) (h : Py.trace)
    (command_result parameters target : gmap string Py.pyval)
    (c0 c1 : Py.trace) (id sender_email sender_name subject : Py.pyval) :
  Contract.classified env request token h command_result c0 →
  Contract.first_matching_branch (Contract.intent_of command_result)
    (Contract.user_text request) = Some Contract.ReplyBranch →
  Contract.parameters_of command_result = Py.VDict parameters →
  Chat.resolve_reply_target env
    (Py.dict_get parameters "email_index" (Py.VStr ""))
    (Py.dict_get parameters "sender_email" (Py.VStr ""))
    (Contract.context_of request) (h ++ c0) = (Py.Ok (Some target), c1) →
  Chat.found (Some target) = true →
  target !! "id" = Some id →
  target !! "sender_email" = Some sender_email →
  target !! "sender_name" = Some sender_name →
  target !! "subject" = Some subject →
  let user_context := Py.dict_get parameters "action_details" (Py.VStr "") in
  let before := (h ++ c0) ++ c1 in
  ∃ (reply : string) (c2 : Py.trace),
    AI.generate_reply env target user_context before = (Py.Ok reply, c2)
    ∧ length c2 ≤ 1
    ∧ (c2 = []
       ∨ (∃ req e, c2 = [Py.ChatCompletion req]
                   ∧ chat_completions_create env before req = Py.Raised e) →
       reply = "I apologize, but I'm having trouble generating a reply right now. Please try again later.")
    ∧ (∀ req content,
         c2 = [Py.ChatCompletion req] →
         chat_completions_create env before req = Py.Ok content →
         reply = PyText.strip (default "" content))
    ∧ (∀ req,
         c2 = [Py.ChatCompletion req] →
         ∃ body,
           Py.py_slice 2000 (Py.dict_get target "body" (Py.VStr "")) = Py.Ok body
           ∧ req = Py.ReplyRequest sender_name subject body user_context)
    ∧ Chat.process_chat_message env request token h =
      (Py.Ok {| Chat.intent := Contract.intent_of command_result;
                Chat.confidence := Contract.confidence_of command_result;
                Chat.message :=
                  "Here's a suggested reply to the email from "
                  +:+ py_str env sender_name +:+ ":";
                Chat.action := Some "display_reply";
                Chat.data := Some (Py.VDict
                  (<["reply" := Py.VStr reply]>
                  (<["original_email" := Py.VDict
                       (<["id" := id]>
                       (<["sender_email" := sender_email]>
                       (<["sender_name" := sender_name]>
                       (<["subject" := subject]>
                       (<["thread_id" := Py.dict_get target "thread_id" Py.VNone]>
                        ∅)))))]> ∅))) |},
       c0 ++ c1 ++ c2).
Proof.
  intros Hcls Hbranch Hparams Hres Hfound Hid Hse Hsn Hsubj user_context before.
  destruct (generate_reply_total env target user_context before)
    as (reply & c2 & Hreply & Hlen).
  destruct (generate_reply_answer env _ _ _ _ _ Hreply) as (Hfail & Hok & Hreq).
  exists reply, c2. split; [exact Hreply|]. split; [exact Hlen|].
  split; [exact Hfail|]. split; [exact Hok|]. split.
  { intros req Hc2. destruct (Hreq req Hc2) as (body & Hbody & ->).
    exists body. split; [exact Hbody|].
    unfold Py.dict_get. rewrite Hsn, Hsubj. reflexivity. }
  rewrite (process_chat_message_classified _ _ _ _ _ _ Hcls).
  rewrite handle_intents_first_match, Hbranch, Hparams.
  cbn [Contract.run_branch].
  unfold Chat.reply_branch, Py.obj_get. rewrite !bind_lift_ok.
  rewrite (bind_ok _ _ _ _ _ Hres).
  change (Py.truthy (Py.VDict target) = true) in Hfound. rewrite Hfound.
  fold user_context. fold before. rewrite (bind_ok _ _ _ _ _ Hreply).
  assert (Hname : Py.dict_get target "sender_name" (Py.VStr "the sender")
                  = sender_name)
    by (unfold Py.dict_get; rewrite Hsn; reflexivity).
  unfold Py.getitem. rewrite Hid, Hse, Hsn, Hsubj, Hname.
  rewrite !bind_lift_ok. cbn [Py.ret fst snd].
  rewrite app_nil_r. reflexivity.
Qed.

Lemma reply_branch_drafts_witness :
  Chat.process_chat_message Cases.reply_first_env
    (Scenario.request "answer" [Scenario.alice]) "token" [] =
  (Py.Ok {| Chat.intent := Py.VStr "reply";
            Chat.confidence := Py.VStr "high";
            Chat.message := "Here's a suggested reply to the email from Alice:";
            Chat.action := Some "display_reply";
            Chat.data := Some (Py.VDict
              (<["reply" := Py.VStr "I apologize, but I'm having trouble generating a reply right now. Please try again later."]>
              (<["original_email" := Py.VDict
                   (<["id" := Py.VStr "m1"]>
                   (<["sender_email" := Py.VStr "alice@x.com"]>
                   (<["sender_name" := Py.VStr "Alice"]>
                   (<["subject" := Py.VStr "Lunch"]>
                   (<["thread_id" := Py.VNone]> ∅)))))]> ∅))) |},
   Scenario.classifier_call "answer" [Scenario.alice]
   ++ [Py.ChatCompletion
         (Py.ReplyRequest (Py.VStr "Alice") (Py.VStr "Lunch") (Py.VStr "")
            (Py.VStr "say yes"))]).
Proof.
  destruct (reply_branch_drafts Cases.reply_first_env
              (Scenario.request "answer" [Scenario.alice]) "token" []
              (Scenario.command_dict "reply" Cases.reply_first_parameters)
              Cases.reply_first_parameters Scenario.alice
              (Scenario.classifier_call "answer" [Scenario.alice]) []
              (Py.VStr "m1") (Py.VStr "alice@x.com") (Py.VStr "Alice")
              (Py.VStr "Lunch")
              (conj eq_refl (conj eq_refl eq_refl))
              eq_refl eq_refl eq_refl eq_refl eq_refl eq_refl eq_refl eq_refl)
    as (reply & c2 & Hreply & _ & Hfail & _ & _ & Hrun).
  assert (Hc2 : c2 = [Py.ChatCompletion
                        (Py.ReplyRequest (Py.VStr "Alice") (Py.VStr "Lunch")
                           (Py.VStr "") (Py.VStr "say yes"))]).
  { apply (f_equal snd) in Hreply. symmetry. exact Hreply. }
  assert (Hdraft : reply = "I apologize, but I'm having trouble generating a reply right now. Please try again later.").
  { apply Hfail. right. eexists _, (Py.OtherError "Connection error.").
    split; [exact Hc2 | reflexivity]. }
  rewrite Hrun, Hc2, Hdraft. reflexivity.
Defined.

(** X16. A listing that fails fails the branch.  In the read branch and
    in the digest branch, when the provider's listing raises, the route
    raises in turn (status 500 with the error's text, unless the error
    is itself an [HTTPException]) right after that one call: no message
    is fetched and the model is asked for no summary and no digest. *)
Theorem failed_listing_fails_branch (env : Env) (request : Chat.ChatRequest)
    (token : string) (h : Py.trace) (command_result : gmap string Py.pyval)
    (c0 : Py.trace) (b : Contract.branch) (e : Py.exn) :
  let n := Behaviour.batch_size b (Contract.user_text request) in
  Contract.classified env request token h command_result c0 →
  Contract.first_matching_branch (Contract.intent_of command_result)
    (Contract.user_text request) = Some b →
  b = Contract.ReadBranch ∨ b = Contract.DigestBranch →
  messages_list env (h ++ c0) n "in:inbox" = Py.Raised e →
  Chat.process_chat_message env request token h =
  (Py.Raised (Chat.http_error e), c0 ++ [Py.MessagesList n "in:inbox"]).
Proof.
  intros n Hcls Hbranch Hb Hlist.
  rewrite (process_chat_message_classified _ _ _ _ _ _ Hcls).
  rewrite handle_intents_first_match, Hbranch.
  assert (Hfetch : Gmail.get_recent_emails env n (h ++ c0)
                   = (Py.Raised e, [Py.MessagesList n "in:inbox"])).
  { unfold Gmail.get_recent_emails. rewrite bind_run.
    unfold Gmail.list_messages, Py.perform. rewrite Hlist. reflexivity. }
  subst n. destruct Hb as [-> | ->];
    cbn [Contract.run_branch Behaviour.batch_size] in *.
  - unfold Chat.read_branch. rewrite (bind_raised _ _ _ _ _ Hfetch). reflexivity.
  - unfold Chat.digest_branch. rewrite (bind_raised _ _ _ _ _ Hfetch). reflexivity.
Qed.

Lemma failed_listing_fails_branch_witness :
  Chat.process_chat_message Cases.listing_down_env
    (Scenario.request "show me many emails" []) "token" [] =
  (Py.Raised (Py.HTTPException 500 "503 Service Unavailable"),
   Scenario.classifier_call "show me many emails" []
   ++ [Py.MessagesList 20 "in:inbox"]).
Proof.
  apply (failed_listing_fails_branch Cases.listing_down_env
           (Scenario.request "show me many emails" []) "token" []
           (AI.unknown_command (Py.ValueError "Expecting value"))
           (Scenario.classifier_call "show me many emails" [])
           Contract.ReadBranch (Py.HttpError "503 Service Unavailable")).
  - repeat split.
  - reflexivity.
  - left. reflexivity.
  - reflexivity.
Defined.

(** ** The e-mail routes *)

Section RouteFacts.
Import Py.
Variable env : Env.

Lemma first_with_id_parsed (email_id : string) (emails : list (gmap string pyval)) :
  Forall (λ e, ∃ message, e = Gmail._parse_message env message) emails →
  EmailRoutes.first_with_id email_id emails
  = Ok (List.find (Behaviour.has_id email_id) emails).
Proof.
  induction 1 as [|e emails [m ->] _ IH]; [reflexivity|].
  destruct (parse_message_fields env m) as (sn & se & subj & body & Hid & _).
  cbv zeta in Hid. cbn [EmailRoutes.first_with_id List.find].
  assert (Hd : dict_get (Gmail._parse_message env m) "id" VNone
               = VStr (GmailAPI.id m))
    by (unfold dict_get; rewrite Hid; reflexivity).
  unfold getitem, Behaviour.has_id. rewrite Hid, Hd. cbn [exc_bind].
  destruct (eq_str _ email_id); [reflexivity | exact IH].
Qed.

Lemma add_summary_without_client (email : gmap string pyval) (h : trace) (e : exn) :
  get_ai_service env = Raised e →
  EmailRoutes.add_summary env email h
  = (Ok (<["ai_summary" := VStr "Unable to generate summary."]> email), []).
Proof.
  intros He. unfold EmailRoutes.add_summary.
  rewrite try_except_run, He, bind_lift_raised. reflexivity.
Qed.

End RouteFacts.

Section RouteRuns.
Import Py.
Variable env : Env.

Lemma gmail_delete_email_run (message_id : string) (h : trace) :
  Gmail.delete_email env message_id h =
  (match messages_delete env h message_id with
   | Ok _ => Ok true
   | Raised e => Raised e
   end,
   [MessagesDelete message_id]).
Proof.
  unfold Gmail.delete_email. rewrite bind_run. unfold perform.
  destruct (messages_delete env h message_id); reflexivity.
Qed.

Lemma find_route_miss (token : string) (q not_found : string) (h : trace) :
  get_credentials env token = Ok tt →
  Contract.http_error_in_lookup env q h ∨ messages_list env h 1 q = Ok [] →
  EmailRoutes.find_route env token (Gmail.find_first env q) not_found h
  = (Raised (HTTPException 404 not_found), Contract.lookup_calls env q h).
Proof.
  intros Hcred Hmiss.
  assert (Hfind : Gmail.find_first env q h = (Ok None, Contract.lookup_calls env q h)).
  { destruct Hmiss as [Herr | Hempty]; [apply find_first_http_error, Herr|].
    rewrite <- find_first_calls, find_first_run, Hempty. reflexivity. }
  unfold EmailRoutes.find_route. rewrite http_boundary_run.
  rewrite Hcred, bind_lift_ok, (bind_ok _ _ _ _ _ Hfind). cbn.
  rewrite app_nil_r. reflexivity.
Qed.

Lemma find_route_without_client (token : string) (q not_found : string) (h : trace)
    (first : string) (others : list string) (message : GmailAPI.Message) (e : exn) :
  get_credentials env token = Ok tt →
  messages_list env h 1 q = Ok (first :: others) →
  messages_get env (h ++ [MessagesList 1 q]) first = Ok message →
  get_ai_service env = Raised e →
  EmailRoutes.find_route env token (Gmail.find_first env q) not_found h
  = (Ok (<["email" :=
            VDict (<["ai_summary" := VStr "Unable to generate summary."]>
                     (Gmail._parse_message env message))]> ∅),
     [MessagesList 1 q; MessagesGet first]).
Proof.
  intros Hcred Hlist Hget Hai.
  assert (Hfind : Gmail.find_first env q h
                  = (Ok (Some (Gmail._parse_message env message)),
                     [MessagesList 1 q; MessagesGet first]))
    by (rewrite find_first_run, Hlist, Hget; reflexivity).
  unfold EmailRoutes.find_route. rewrite http_boundary_run.
  rewrite Hcred, bind_lift_ok, (bind_ok _ _ _ _ _ Hfind).
  pose proof (parse_message_found env message) as Hfound.
  change (truthy (VDict (Gmail._parse_message env message)) = true) in Hfound.
  rewrite Hfound, bind_run, (add_summary_without_client env _ _ _ Hai).
  reflexivity.
Qed.

End RouteRuns.

(** X17. The explicit delete route is the one place that deletes.  With
    a resolved session it makes exactly one call, the provider's delete
    of the requested id; when the provider accepts it the route answers
    success and the mailbox has lost that message and nothing else; a
    response, when there is one, always says success.  An
    [HttpError] of the provider is raised with its own status and
    reason, except status 403, which is raised with the fixed guidance
    about Gmail scopes.  When the session cannot be resolved the route
    raises before any call. *)
Theorem explicit_delete_route (env : Env) (resp_status : string → nat)
    (get_reason : string → string) (message_id token : string) (h : Py.trace) :
  let run :=
    EmailRoutes.delete_email env resp_status get_reason message_id token h in
  (∀ e, get_credentials env token = Py.Raised e →
        run = (Py.Raised (EmailRoutes.delete_error resp_status get_reason e), []))
  ∧ (get_credentials env token = Py.Ok tt →
     run.2 = [Py.MessagesDelete message_id]
     ∧ (messages_delete env h message_id = Py.Ok tt →
        run.1 = Py.Ok (<["success" := Py.VBool true]>
                      (<["message" := Py.VStr "Email deleted successfully"]> ∅))
        ∧ ∀ mailbox,
            Contract.mailbox_after run.2 mailbox = mailbox ∖ {[message_id]})
     ∧ (∀ msg, messages_delete env h message_id = Py.Raised (Py.HttpError msg) →
          run.1 = Py.Raised
                    (if resp_status msg =? 403
                     then Py.HTTPException 403 EmailRoutes.scopes_detail
                     else Py.HTTPException (resp_status msg) (get_reason msg))))
  ∧ (∀ response, run.1 = Py.Ok response →
       response !! "success" = Some (Py.VBool true)).
Proof.
  intros run. subst run. unfold EmailRoutes.delete_email.
  rewrite try_except_run.
  destruct (get_credentials env token) as [[]|e0] eqn:Hcred.
  - rewrite bind_lift_ok, bind_run, gmail_delete_email_run.
    split; [discriminate|]. split.
    + intros _.
      destruct (messages_delete env h message_id) as [[]|e] eqn:Hdel;
        cbn [fst snd Py.ret Py.raise app].
      * split; [reflexivity|].
        split; [intros _; split; reflexivity | discriminate].
      * split; [reflexivity|].
        split; [discriminate|]. intros msg [= ->]. reflexivity.
    + intros response.
      destruct (messages_delete env h message_id) as [[]|e];
        cbn [fst snd Py.ret Py.raise app]; [|discriminate].
      intros [= <-]. reflexivity.
  - rewrite bind_lift_raised. cbn [fst snd Py.raise app].
    split; [intros e [= ->]; reflexivity|].
    split; [discriminate | discriminate].
Qed.

Lemma explicit_delete_route_witness :
  EmailRoutes.delete_email Scenario.delete_alice_env Cases.status_of
    Cases.reason_of "m1" "token" []
  = (Py.Ok (<["success" := Py.VBool true]>
            (<["message" := Py.VStr "Email deleted successfully"]> ∅)),
     [Py.MessagesDelete "m1"])
  ∧ (EmailRoutes.delete_email Cases.forbidden_env Cases.status_of
       Cases.reason_of "m1" "token" []).1
    = Py.Raised (Py.HTTPException 403 EmailRoutes.scopes_detail).
Proof.
  destruct (explicit_delete_route Scenario.delete_alice_env Cases.status_of
              Cases.reason_of "m1" "token" []) as (_ & Hrun & _).
  destruct (Hrun eq_refl) as (Hcalls & Hok & _).
  destruct (Hok eq_refl) as [Hanswer _].
  destruct (explicit_delete_route Cases.forbidden_env Cases.status_of
              Cases.reason_of "m1" "token" []) as (_ & Hrun' & _).
  destruct (Hrun' eq_refl) as (_ & _ & Hrefused).
  split.
  - rewrite (surjective_pairing (EmailRoutes.delete_email _ _ _ _ _ _)).
    rewrite Hcalls, Hanswer. reflexivity.
  - apply (Hrefused "403 Forbidden"). reflexivity.
Defined.

(** X18. The reply route looks its email up by id among the last 50.
    With a resolved session and a fetch that returned, the route raises
    404 "Email not found", having asked the model nothing, when no
    fetched email has the requested id.  Otherwise the target is the
    first fetched email with that id.  If the model client cannot be
    built the route raises what the boundary makes of that error, right
    after the fetch.  If it can, the route returns the text
    [generate_reply] gives for the target with the stub of the target,
    whose id is the requested one: at most one request goes to the
    model, the reply request for the target; the draft is the trimmed
    content of its answer, and the fixed apology when no request was
    made or the request raised. *)
Theorem reply_route_finds_by_id (env : Env) (email_id token : string)
    (user_context : Py.pyval) (h : Py.trace)
    (emails : list (gmap string Py.pyval)) (c1 : Py.trace) :
  get_credentials env token = Py.Ok tt →
  Gmail.get_recent_emails env 50 h = (Py.Ok emails, c1) →
  let run := EmailRoutes.generate_reply env email_id token user_context h in
  (List.find (Behaviour.has_id email_id) emails = None →
   run = (Py.Raised (Py.HTTPException 404 "Email not found"), c1))
  ∧ (∀ target, List.find (Behaviour.has_id email_id) emails = Some target →
       target !! "id" = Some (Py.VStr email_id)
       ∧ (∀ e, get_ai_service env = Py.Raised e →
            run = (Py.Raised (Chat.http_error e), c1))
       ∧ (get_ai_service env = Py.Ok tt →
          ∃ (reply : string) (c2 : Py.trace) (sender_email subject : Py.pyval),
            AI.generate_reply env target user_context (h ++ c1) = (Py.Ok reply, c2)
            ∧ length c2 ≤ 1
            ∧ (c2 = []
               ∨ (∃ req e, c2 = [Py.ChatCompletion req]
                           ∧ chat_completions_create env (h ++ c1) req
                             = Py.Raised e) →
               reply = "I apologize, but I'm having trouble generating a reply right now. Please try again later.")
            ∧ (∀ req content,
                 c2 = [Py.ChatCompletion req] →
                 chat_completions_create env (h ++ c1) req = Py.Ok content →
                 reply = PyText.strip (default "" content))
            ∧ (∀ req,
                 c2 = [Py.ChatCompletion req] →
                 ∃ body,
                   Py.py_slice 2000 (Py.dict_get target "body" (Py.VStr ""))
                   = Py.Ok body
                   ∧ req = Py.ReplyRequest
                             (Py.dict_get target "sender_name"
                                (Py.dict_get target "sender_email"
                                   (Py.VStr "Unknown")))
                             subject body user_context)
            ∧ target !! "sender_email" = Some sender_email
            ∧ target !! "subject" = Some subject
            ∧ run =
              (Py.Ok (<["reply" := Py.VStr reply]>
                     (<["original_email" := Py.VDict
                          (<["id" := Py.VStr email_id]>
                          (<["sender_email" := sender_email]>
                          (<["subject" := subject]>
                          (<["thread_id" :=
                               Py.dict_get target "thread_id" Py.VNone]>
                           ∅))))]> ∅)),
               c1 ++ c2))).
Proof.
  intros Hcred Hfetch run. subst run.
  pose proof (get_recent_emails_parsed env _ _ _ _ Hfetch) as Hparsed.
  unfold EmailRoutes.generate_reply. rewrite http_boundary_run.
  rewrite Hcred, bind_lift_ok, (bind_ok _ _ _ _ _ Hfetch).
  rewrite (first_with_id_parsed env _ _ Hparsed), bind_lift_ok.
  split.
  - intros ->. cbn. rewrite app_nil_r. reflexivity.
  - intros target Hfind. rewrite Hfind.
    pose proof (find_some _ _ Hfind) as [Hin Hhas].
    rewrite Forall_forall in Hparsed.
    destruct (Hparsed target) as [m ->]; [apply list_elem_of_In, Hin|].
    destruct (parse_message_fields env m)
      as (sn & se & subj & body & Hid & _ & Hse & Hsubj & _).
    cbv zeta in Hid, Hse, Hsubj.
    assert (Heq : GmailAPI.id m = email_id).
    { unfold Behaviour.has_id, Py.dict_get in Hhas. rewrite Hid in Hhas.
      apply String.eqb_eq. exact Hhas. }
    rewrite Heq in Hid.
    pose proof (parse_message_found env m) as Hfound.
    change (Py.truthy (Py.VDict (Gmail._parse_message env m)) = true) in Hfound.
    rewrite Hfound.
    split; [exact Hid|]. split.
    + intros e Hai. rewrite Hai, bind_lift_raised.
      cbn [fst snd Contract.at_boundary]. rewrite app_nil_r. reflexivity.
    + intros Hai.
      destruct (generate_reply_total env (Gmail._parse_message env m) user_context
                  (h ++ c1)) as (reply & c2 & Hreply & Hlen).
      destruct (generate_reply_answer env _ _ _ _ _ Hreply) as (Hfail & Hok & Hreq).
      exists reply, c2, (Py.VStr se), (Py.VStr subj).
      split; [exact Hreply|]. split; [exact Hlen|].
      split; [exact Hfail|]. split; [exact Hok|]. split.
      { intros req Hc2. destruct (Hreq req Hc2) as (b & Hb & ->).
        exists b. split; [exact Hb|].
        unfold Py.dict_get at 3. rewrite Hsubj. reflexivity. }
      split; [exact Hse|]. split; [exact Hsubj|].
      rewrite Hai, bind_lift_ok, (bind_ok _ _ _ _ _ Hreply).
      unfold Py.getitem. rewrite Hid, Hse, Hsubj. rewrite !bind_lift_ok.
      cbn [Py.ret fst snd Contract.at_boundary]. rewrite app_nil_r. reflexivity.
Qed.

(** X19. The find routes answer 404 for every miss, and still answer
    without a model client.  With a resolved session, when the provider
    lists no message for the query, or answers the lookup with an
    [HttpError], each of the two routes raises 404 with its "No email
    found" text (the provider's error is not passed on); and when a
    message is found but the model client cannot be built, each of the
    two routes returns the parsed email with the summary "Unable to
    generate summary.", having asked the model nothing. *)
Theorem find_routes_miss_and_degrade (env : Env) (needle token : string)
    (h : Py.trace) :
  get_credentials env token = Py.Ok tt →
  let by_sender := Gmail.sender_query env (Py.VStr needle) in
  let by_subject := Gmail.subject_query env (Py.VStr needle) in
  (Contract.http_error_in_lookup env by_sender h
   ∨ messages_list env h 1 by_sender = Py.Ok [] →
   EmailRoutes.find_email_by_sender env needle token h
   = (Py.Raised (Py.HTTPException 404 "No email found from this sender"),
      Contract.lookup_calls env by_sender h))
  ∧ (Contract.http_error_in_lookup env by_subject h
     ∨ messages_list env h 1 by_subject = Py.Ok [] →
     EmailRoutes.find_email_by_subject env needle token h
     = (Py.Raised (Py.HTTPException 404 "No email found with this subject keyword"),
        Contract.lookup_calls env by_subject h))
  ∧ (∀ first others message e,
       messages_list env h 1 by_sender = Py.Ok (first :: others) →
       messages_get env (h ++ [Py.MessagesList 1 by_sender]) first = Py.Ok message →
       get_ai_service env = Py.Raised e →
       EmailRoutes.find_email_by_sender env needle token h
       = (Py.Ok (<["email" :=
                   Py.VDict (<["ai_summary" := Py.VStr "Unable to generate summary."]>
                               (Gmail._parse_message env message))]> ∅),
          [Py.MessagesList 1 by_sender; Py.MessagesGet first]))
  ∧ (∀ first others message e,
       messages_list env h 1 by_subject = Py.Ok (first :: others) →
       messages_get env (h ++ [Py.MessagesList 1 by_subject]) first = Py.Ok message →
       get_ai_service env = Py.Raised e →
       EmailRoutes.find_email_by_subject env needle token h
       = (Py.Ok (<["email" :=
                   Py.VDict (<["ai_summary" := Py.VStr "Unable to generate summary."]>
                               (Gmail._parse_message env message))]> ∅),
          [Py.MessagesList 1 by_subject; Py.MessagesGet first])).
Proof.
  intros Hcred by_sender by_subject. split; [|split; [|split]].
  - apply find_route_miss, Hcred.
  - apply find_route_miss, Hcred.
  - intros first others message e. apply find_route_without_client, Hcred.
  - intros first others message e. apply find_route_without_client, Hcred.
Qed.

Lemma find_routes_miss_and_degrade_witness :
  EmailRoutes.find_email_by_sender Cases.no_client_env "bob" "token" []
  = (Py.Ok (<["email" :=
              Py.VDict (<["ai_summary" := Py.VStr "Unable to generate summary."]>
                          (Gmail._parse_message Cases.no_client_env
                             (Scenario.stored "m2" "bob@y.org" "Invoice 42")))]> ∅),
     [Py.MessagesList 1 "from:bob in:inbox"; Py.MessagesGet "m2"])
  ∧ EmailRoutes.find_email_by_subject Cases.no_client_env "bob" "token" []
    = (Py.Ok (<["email" :=
                Py.VDict (<["ai_summary" := Py.VStr "Unable to generate summary."]>
                            (Gmail._parse_message Cases.no_client_env
                               (Scenario.stored "m2" "bob@y.org" "Invoice 42")))]> ∅),
       [Py.MessagesList 1
          (Gmail.subject_query Cases.no_client_env (Py.VStr "bob"));
        Py.MessagesGet "m2"])
  ∧ EmailRoutes.find_email_by_subject Scenario.hello_env "bob" "token" []
    = (Py.Raised (Py.HTTPException 404 "No email found with this subject keyword"),
       [Py.MessagesList 1 (Gmail.subject_query Scenario.hello_env (Py.VStr "bob"))]).
Proof.
  destruct (find_routes_miss_and_degrade Cases.no_client_env "bob" "token" []
              eq_refl) as (_ & _ & Hsender & Hsubject).
  destruct (find_routes_miss_and_degrade Scenario.hello_env "bob" "token" []
              eq_refl) as (_ & Hmiss & _).
  split; [|split].
  - apply (Hsender "m2" [] (Scenario.stored "m2" "bob@y.org" "Invoice 42")
             (Py.ValueError
                "GROQ_API_KEY or OPENAI_API_KEY environment variable is required"));
      reflexivity.
  - apply (Hsubject "m2" [] (Scenario.stored "m2" "bob@y.org" "Invoice 42")
             (Py.ValueError
                "GROQ_API_KEY or OPENAI_API_KEY environment variable is required"));
      reflexivity.
  - apply Hmiss. right. reflexivity.
Defined.

Lemma reply_route_finds_by_id_witness :
  EmailRoutes.generate_reply Scenario.inbox_env "zzz" "token" Py.VNone []
  = (Py.Raised (Py.HTTPException 404 "Email not found"),
     [Py.MessagesList 50 "in:inbox"; Py.MessagesGet "a"; Py.MessagesGet "b";
      Py.MessagesGet "c"])
  ∧ EmailRoutes.generate_reply Scenario.inbox_env "b" "token" Py.VNone []
    = (Py.Ok (<["reply" := Py.VStr "A short summary."]>
             (<["original_email" := Py.VDict
                  (<["id" := Py.VStr "b"]>
                  (<["sender_email" := Py.VStr "b@x.com"]>
                  (<["subject" := Py.VStr "About b"]>
                  (<["thread_id" := Py.VStr "t-b"]> ∅))))]> ∅)),
       [Py.MessagesList 50 "in:inbox"; Py.MessagesGet "a"; Py.MessagesGet "b";
        Py.MessagesGet "c";
        Py.ChatCompletion
          (Py.ReplyRequest (Py.VStr "b@x.com") (Py.VStr "About b")
             (Py.VStr "hello") Py.VNone)]).
Proof.
  split.
  - apply (proj1 (reply_route_finds_by_id Scenario.inbox_env "zzz" "token"
                    Py.VNone [] Scenario.inbox_emails
                    [Py.MessagesList 50 "in:inbox"; Py.MessagesGet "a";
                     Py.MessagesGet "b"; Py.MessagesGet "c"] eq_refl eq_refl)).
    reflexivity.
  - destruct (proj2 (reply_route_finds_by_id Scenario.inbox_env "b" "token"
                       Py.VNone [] Scenario.inbox_emails
                       [Py.MessagesList 50 "in:inbox"; Py.MessagesGet "a";
                        Py.MessagesGet "b"; Py.MessagesGet "c"] eq_refl eq_refl)
                (Gmail._parse_message Scenario.inbox_env
                   (Scenario.stored "b" "b@x.com" "About b")) eq_refl)
      as (_ & _ & Hdraft).
    destruct (Hdraft eq_refl)
      as (reply & c2 & sender_email & subject & Hreply & _ & _ & Hcontent & _
          & Hsender & Hsubject & Hrun).
    assert (Hc2 : c2 = [Py.ChatCompletion
                          (Py.ReplyRequest (Py.VStr "b@x.com") (Py.VStr "About b")
                             (Py.VStr "hello") Py.VNone)]).
    { apply (f_equal snd) in Hreply. symmetry. exact Hreply. }
    assert (Htext : reply = "A short summary.").
    { apply (Hcontent _ (Some " A short summary. ") Hc2). reflexivity. }
    assert (Hs : Some (Py.VStr "b@x.com") = Some sender_email) by exact Hsender.
    assert (Hj : Some (Py.VStr "About b") = Some subject) by exact Hsubject.
    injection Hs as <-. injection Hj as <-.
    rewrite Hrun, Hc2, Htext. reflexivity.
Defined.

(** ** The model client *)

Section ClientFacts.

Lemma is_set_some (value : option string) :
  AIConfig.is_set value = true → ∃ v, value = Some v ∧ v ≠ "".
Proof.
  destruct value as [v|]; [|discriminate]. cbn.
  destruct (String.eqb_spec v ""); [discriminate | eauto].
Qed.

Lemma getenv_or_first (environ : gmap string string) (a b : string) :
  AIConfig.is_set (environ !! a) = true →
  AIConfig.getenv_or environ a b = environ !! a.
Proof.
  intros H. destruct (is_set_some _ H) as (v & Hv & Hne).
  unfold AIConfig.getenv_or. rewrite Hv.
  destruct (String.eqb_spec v ""); [contradiction | reflexivity].
Qed.

Lemma getenv_or_second (environ : gmap string string) (a b : string) :
  AIConfig.is_set (environ !! a) = false →
  AIConfig.getenv_or environ a b = environ !! b.
Proof.
  unfold AIConfig.getenv_or, AIConfig.is_set.
  destruct (environ !! a) as [v|]; [|reflexivity].
  destruct (String.eqb v ""); [reflexivity | discriminate].
Qed.

End ClientFacts.

(** X20. Which key goes to which endpoint.  The constructor fails, with
    a [ValueError], exactly when neither GROQ_API_KEY nor OPENAI_API_KEY
    is set to a non-empty value.  Otherwise a set Groq key wins: the
    client then talks to the Groq endpoint with the Groq key and the
    Llama model, whatever OPENAI_API_KEY holds; and only when the Groq
    key is unset or empty does the client talk to the default endpoint,
    with the OpenAI key and gpt-4o-mini.  No key is ever sent to the
    other provider's endpoint. *)
Theorem client_key_matches_endpoint (environ : gmap string string) :
  let groq := environ !! "GROQ_API_KEY" in
  let openai := environ !! "OPENAI_API_KEY" in
  ((∃ e, AIConfig.init environ = Py.Raised e) ↔
   AIConfig.is_set groq = false ∧ AIConfig.is_set openai = false)
  ∧ ∀ client, AIConfig.init environ = Py.Ok client →
      AIConfig.api_key client ≠ ""
      ∧ (AIConfig.is_set groq = true →
         groq = Some (AIConfig.api_key client)
         ∧ AIConfig.base_url client = Some "https://api.groq.com/openai/v1"
         ∧ AIConfig.model client = "llama-3.1-8b-instant")
      ∧ (AIConfig.is_set groq = false →
         openai = Some (AIConfig.api_key client)
         ∧ AIConfig.base_url client = None
         ∧ AIConfig.model client = "gpt-4o-mini").
Proof.
  intros groq openai. unfold AIConfig.init.
  destruct (AIConfig.is_set groq) eqn:Hg.
  - rewrite (getenv_or_first _ _ _ Hg). fold groq. rewrite Hg. cbn [negb].
    destruct (is_set_some _ Hg) as (g & Hgv & Hgne). rewrite Hgv.
    split.
    + split; [intros [e He]; discriminate | intros [H _]; discriminate].
    + intros client [= <-]. cbn. split; [exact Hgne|].
      split; [auto | discriminate].
  - rewrite (getenv_or_second _ _ _ Hg). fold openai groq. rewrite Hg.
    destruct (AIConfig.is_set openai) eqn:Ho; cbn [negb].
    + destruct (is_set_some _ Ho) as (o & Hov & Hone). rewrite Hov.
      split.
      * split; [intros [e He]; discriminate | intros [_ H]; discriminate].
      * intros client [= <-]. cbn. split; [exact Hone|].
        split; [discriminate | auto].
    + split.
      * split; [auto | eauto].
      * intros client. discriminate.
Qed.

Lemma client_key_matches_endpoint_witness :
  ∃ client,
    AIConfig.init Cases.only_openai = Py.Ok client
    ∧ Cases.only_openai !! "OPENAI_API_KEY" = Some (AIConfig.api_key client)
    ∧ AIConfig.base_url client = None
    ∧ AIConfig.model client = "gpt-4o-mini".
Proof.
  exists {| AIConfig.api_key := "sk-test"; AIConfig.base_url := None;
            AIConfig.model := "gpt-4o-mini" |}.
  split; [reflexivity|].
  destruct (client_key_matches_endpoint Cases.only_openai) as [_ Hclient].
  destruct (Hclient {| AIConfig.api_key := "sk-test"; AIConfig.base_url := None;
                       AIConfig.model := "gpt-4o-mini" |} eq_refl)
    as (_ & _ & Hopenai).
  apply Hopenai. reflexivity.
Defined.

(** X21. The three text helpers never raise and ask the model at most
    once.  [generate_summary], [generate_reply] and
    [generate_daily_digest] always return a text; each makes at most one
    completion call; and whenever no call was made or the call raised,
    the text is the helper's fixed fallback. *)
Theorem text_helpers_never_raise (env : Env) (h : Py.trace) :
  let spoiled (calls : Py.trace) :=
    calls = []
    ∨ ∃ req e, calls = [Py.ChatCompletion req]
               ∧ chat_completions_create env h req = Py.Raised e in
  (∀ body subject sender, ∃ text calls,
     AI.generate_summary env body subject sender h = (Py.Ok text, calls)
     ∧ length calls ≤ 1
     ∧ (spoiled calls → text = "Unable to generate summary at this time."))
  ∧ (∀ email user_context, ∃ text calls,
       AI.generate_reply env email user_context h = (Py.Ok text, calls)
       ∧ length calls ≤ 1
       ∧ (spoiled calls →
          text = "I apologize, but I'm having trouble generating a reply right now. Please try again later."))
  ∧ (∀ emails, ∃ text calls,
       AI.generate_daily_digest env emails h = (Py.Ok text, calls)
       ∧ length calls ≤ 1
       ∧ (spoiled calls → text = "Unable to generate digest at this time.")).
Proof.
  intros spoiled. subst spoiled. split; [|split].
  - intros body subject sender. unfold AI.generate_summary.
    rewrite try_except_run, bind_run. unfold Py.lift.
    destruct (Py.py_slice 2000 body) as [shown|e]; cbn [fst snd].
    + rewrite bind_run. unfold AI.complete, Py.perform. rewrite app_nil_r.
      destruct (chat_completions_create env h _) as [content|e] eqn:Hc;
        cbn; eexists _, _; (split; [reflexivity|]); (split; [cbn; lia|]).
      * intros [Hnil | (req & e & [= <-] & He)]; [discriminate|]. congruence.
      * reflexivity.
    + cbn. eexists _, _. split; [reflexivity|]. split; [cbn; lia | reflexivity].
  - intros email user_context. unfold AI.generate_reply.
    rewrite try_except_run, bind_run. unfold Py.lift.
    destruct (Py.py_slice 2000 _) as [shown|e]; cbn [fst snd].
    + rewrite bind_run. unfold AI.complete, Py.perform. rewrite app_nil_r.
      destruct (chat_completions_create env h _) as [content|e] eqn:Hc;
        cbn; eexists _, _; (split; [reflexivity|]); (split; [cbn; lia|]).
      * intros [Hnil | (req & e & [= <-] & He)]; [discriminate|]. congruence.
      * reflexivity.
    + cbn. eexists _, _. split; [reflexivity|]. split; [cbn; lia | reflexivity].
  - intros emails. rewrite generate_daily_digest_run.
    eexists _, _. split; [reflexivity|]. split; [cbn; lia|].
    intros [Hnil | (req & e & [= <-] & He)]; [discriminate|].
    rewrite He. reflexivity.
Qed.

Lemma text_helpers_never_raise_witness :
  ∃ text calls,
    AI.generate_daily_digest Scenario.hello_env [Scenario.alice] []
    = (Py.Ok text, calls)
    ∧ length calls ≤ 1
    ∧ text = "Unable to generate digest at this time.".
Proof.
  destruct (text_helpers_never_raise Scenario.hello_env []) as (_ & _ & Hdigest).
  destruct (Hdigest [Scenario.alice]) as (text & calls & Hrun & Hcalls & Hfallback).
  exists text, calls. split; [exact Hrun|]. split; [exact Hcalls|].
  apply Hfallback. right.
  exists (Py.DigestRequest [Scenario.alice]), (Py.OtherError "Connection error.").
  split; [|reflexivity].
  rewrite generate_daily_digest_run in Hrun. injection Hrun as _ <-. reflexivity.
Defined.

(** ** The greeting route and the session *)



(** ** The response envelope *)

Section Envelopes.
Import Py.

Lemma returns_ret {A} (P : A → Prop) (a : A) :
  P a → Behaviour.returns P (ret a).
Proof. intros H h a'. cbn. intros [= <-]. exact H. Qed.

Lemma returns_bind {A B} (P : B → Prop) (m : M A) (k : A → M B) :
  (∀ a, Behaviour.returns P (k a)) → Behaviour.returns P (bind m k).
Proof.
  intros H h b. rewrite bind_run.
  destruct (m h) as [[a|e] c]; cbn [fst]; [|discriminate].
  apply H.
Qed.

Lemma envelope_payload (intent confidence : pyval) (message a : string)
    (payload : pyval) :
  In a ["display_emails"; "display_reply"; "confirm_delete"; "display_digest"] →
  Behaviour.envelope_ok intent confidence
    {| Chat.intent := intent; Chat.confidence := confidence;
       Chat.message := message; Chat.action := Some a;
       Chat.data := Some payload |}.
Proof.
  intros Hin. split; [reflexivity|]. split; [reflexivity|].
  exists a. split; [reflexivity|]. split.
  - unfold Behaviour.actions. cbn in Hin |- *. tauto.
  - cbn [Chat.data]. split; [discriminate|].
    cbn in Hin. intros [->| ->]; decompose [or] Hin; discriminate || contradiction.
Qed.

Lemma envelope_bare (intent confidence : pyval) (message a : string) :
  a = "error" ∨ a = "info" →
  Behaviour.envelope_ok intent confidence
    {| Chat.intent := intent; Chat.confidence := confidence;
       Chat.message := message; Chat.action := Some a;
       Chat.data := None |}.
Proof.
  intros Ha. split; [reflexivity|]. split; [reflexivity|].
  exists a. split; [reflexivity|]. split.
  - unfold Behaviour.actions. destruct Ha as [-> | ->]; cbn; tauto.
  - cbn [Chat.data]. tauto.
Qed.

Variable env : Env.

Lemma handle_intents_envelope (intent confidence parameters : pyval)
    (user_message : string) (email_context : list (gmap string pyval)) :
  Behaviour.returns (Behaviour.envelope_ok intent confidence)
    (Chat.handle_intents env intent confidence parameters user_message
       email_context).
Proof.
  rewrite handle_intents_first_match.
  destruct (Contract.first_matching_branch intent user_message) as [[]|];
    cbn [Contract.run_branch].
  - unfold Chat.read_branch. do 2 (apply returns_bind; intros ?).
    apply returns_ret, envelope_payload. cbn. tauto.
  - unfold Chat.reply_branch. do 4 (apply returns_bind; intros ?).
    match goal with
    | |- context [match ?t with Some _ => _ | None => _ end] =>
        destruct t as [target|]
    end.
    + destruct (truthy (VDict target)).
      * do 5 (apply returns_bind; intros ?).
        apply returns_ret, envelope_payload. cbn. tauto.
      * apply returns_ret, envelope_bare. auto.
    + apply returns_ret, envelope_bare. auto.
  - unfold Chat.delete_branch. do 4 (apply returns_bind; intros ?).
    match goal with
    | |- context [match ?t with Some _ => _ | None => _ end] =>
        destruct t as [target|]
    end.
    + destruct (truthy (VDict target)).
      * do 4 (apply returns_bind; intros ?).
        apply returns_ret, envelope_payload. cbn. tauto.
      * apply returns_ret, envelope_bare. auto.
    + apply returns_ret, envelope_bare. auto.
  - unfold Chat.digest_branch. do 2 (apply returns_bind; intros ?).
    apply returns_ret, envelope_payload. cbn. tauto.
  - unfold Chat.info_branch. apply returns_ret, envelope_bare. auto.
Qed.

End Envelopes.

(** X23. The shape of every answer of the chat route.  Whatever the
    provider, the model and the request are, an answer that
    [process_chat_message] returns carries the intent and the confidence
    of the classifier's result for this message (also when a keyword,
    not the intent, chose the branch); its action is one of
    display_emails, display_reply, confirm_delete, display_digest, error
    and info, never null; and it has no payload exactly when the action
    is error or info. *)
Theorem response_envelope_shape (env : Env) (request : Chat.ChatRequest)
    (token : string) (h : Py.trace) (r : Chat.ResponseEnvelope) :
  (Chat.process_chat_message env request token h).1 = Py.Ok r →
  ∃ command_result,
    (AI.process_natural_language_command env (Chat.req_message request)
       (Contract.context_of request) h).1 = Py.Ok command_result
    ∧ Behaviour.envelope_ok (Contract.intent_of command_result)
        (Contract.confidence_of command_result) r.
Proof.
  unfold Chat.process_chat_message. rewrite http_boundary_run.
  cbn [fst].
  destruct (get_credentials env token) as [[]|e] eqn:Hcred;
    [|rewrite bind_lift_raised; discriminate].
  rewrite bind_lift_ok.
  destruct (get_ai_service env) as [[]|e] eqn:Hai;
    [|rewrite bind_lift_raised; discriminate].
  rewrite bind_lift_ok. fold (Contract.context_of request).
  rewrite bind_run.
  pose proof (process_natural_language_command_run env (Chat.req_message request)
                (Contract.context_of request) h) as Hrun.
  cbv zeta in Hrun. rewrite Hrun. cbn [fst snd].
  intros Hok. eexists. split; [reflexivity|].
  eapply handle_intents_envelope.
  destruct (Chat.handle_intents _ _ _ _ _ _ _).1 as [r'|e] eqn:Hr;
    [|discriminate].
  cbn in Hok. injection Hok as <-. exact Hr.
Qed.

Lemma response_envelope_shape_witness :
  ∃ command_result,
    (AI.process_natural_language_command Scenario.hello_env "  Hello there!  "
       [] []).1 = Py.Ok command_result
    ∧ Behaviour.envelope_ok (Contract.intent_of command_result)
        (Contract.confidence_of command_result)
        {| Chat.intent := Py.VStr "unknown";
           Chat.confidence := Py.VStr "low";
           Chat.message := Chat.info_message;
           Chat.action := Some "info";
           Chat.data := None |}.
Proof.
  apply (response_envelope_shape Scenario.hello_env Scenario.hello_request
           "token" []).
  vm_compute. reflexivity.
Defined.

(** ** The route /recent and the read branch *)

Section RecentRoute.
Import Py.
Variable env : Env.

Lemma for_each_ext {A S} (f g : S → A → M S) :
  (∀ s x h, f s x h = g s x h) →
  ∀ (l : list A) (s : S) (h : trace), for_each l f s h = for_each l g s h.
Proof.
  intros Hfg l. induction l as [|x l IH]; intros s h; [reflexivity|].
  cbn [for_each]. rewrite !bind_run, Hfg.
  destruct (g s x h) as [[s'|e] c]; [|reflexivity].
  rewrite IH. reflexivity.
Qed.

Lemma add_summary_with_client (email : gmap string pyval) (h : trace) :
  get_ai_service env = Ok tt →
  EmailRoutes.add_summary env email h = Chat.summarize env email h.
Proof.
  intros Hai. unfold EmailRoutes.add_summary, Chat.summarize.
  rewrite !try_except_run, Hai, bind_lift_ok. reflexivity.
Qed.

Lemma summaries_with_client (emails : list (gmap string pyval)) (h : trace) :
  get_ai_service env = Ok tt →
  for_each emails
    (fun done email =>
       email' <- EmailRoutes.add_summary env email ;; ret (done ++ [email'])) [] h
  = Chat.summarize_all env emails h.
Proof.
  intros Hai. unfold Chat.summarize_all. apply for_each_ext.
  intros s x h'. rewrite !bind_run, (add_summary_with_client _ _ Hai).
  reflexivity.
Qed.

End RecentRoute.

(** X24. The route /recent and the read branch of the chat show the same
    thing.  With a session that resolves and a model client that can be
    built, asking /recent for as many emails as the read branch asks for
    makes the same calls in the same order; where the branch fails the
    route fails with the same error as it leaves the boundary; and where
    the branch answers, the route's answer is the branch's payload: the
    same emails, in the same order, with the same summaries. *)
Theorem recent_route_matches_read_branch (env : Env) (token : string)
    (intent confidence : Py.pyval) (user_message : string) (h : Py.trace) :
  get_credentials env token = Py.Ok tt →
  get_ai_service env = Py.Ok tt →
  let route :=
    EmailRoutes.get_recent_emails env token
      (Chat.read_max_results user_message) h in
  let branch := Chat.read_branch env intent confidence user_message h in
  route.2 = branch.2
  ∧ (∀ e, branch.1 = Py.Raised e → route.1 = Py.Raised (Chat.http_error e))
  ∧ (∀ r, branch.1 = Py.Ok r →
       ∃ payload, Chat.data r = Some (Py.VDict payload)
                  ∧ route.1 = Py.Ok payload).
Proof.
  intros Hcred Hai route branch. subst route branch.
  unfold EmailRoutes.get_recent_emails, Chat.read_branch.
  rewrite http_boundary_run, Hcred, bind_lift_ok, !bind_run.
  destruct (Gmail.get_recent_emails env _ h) as [[emails|e] c]; cbn [fst snd].
  - rewrite !bind_run, (summaries_with_client env _ _ Hai).
    destruct (Chat.summarize_all env emails (h ++ c)) as [[summarized|e] c'];
      cbn [fst snd Py.ret Contract.at_boundary].
    + split; [reflexivity|]. split; [discriminate|].
      intros r [= <-]. eexists. split; reflexivity.
    + split; [reflexivity|]. split; [|discriminate].
      intros e' [= <-]. reflexivity.
  - split; [reflexivity|]. split; [|discriminate].
    intros e' [= <-]. reflexivity.
Qed.

Lemma recent_route_matches_read_branch_witness :
  let route :=
    EmailRoutes.get_recent_emails Scenario.inbox_env "token"
      (Chat.read_max_results "show my emails") [] in
  let branch :=
    Chat.read_branch Scenario.inbox_env (Py.VStr "read") (Py.VStr "high")
      "show my emails" [] in
  route.2 = branch.2
  ∧ (∀ e, branch.1 = Py.Raised e → route.1 = Py.Raised (Chat.http_error e))
  ∧ (∀ r, branch.1 = Py.Ok r →
       ∃ payload, Chat.data r = Some (Py.VDict payload)
                  ∧ route.1 = Py.Ok payload).
Proof.
  apply (recent_route_matches_read_branch Scenario.inbox_env "token"
           (Py.VStr "read") (Py.VStr "high") "show my emails" []);
    reflexivity.
Defined.
